(** * HR metrics dashboard: aggregation core

    A shallow embedding of the data-aggregation core of the HR time-tracking
    dashboard (modules/hr): hourly rates, per-task aggregation, category
    roll-ups, pie data, week-range parsing and filtering, the colour caches,
    the employee summary card and the weekly-trend branch.

    Conventions of the embedding.
    - JavaScript numbers are exact rationals ([Qc]); IEEE rounding, NaN and
      the infinities are outside this reading, except where a function can
      produce NaN from well-typed input (dates, colour channels), in which
      case the value is an [option] with [None] for NaN. The properties of
      sums are stated for hours that doubles add without rounding
      ([timeSheetHours]); the module [Doubles] embeds the aggregation on
      IEEE doubles, where the order of the additions matters.
    - A JavaScript object used as a record or as an ordered dictionary is an
      association list in insertion order; one used purely as a lookup table
      is a [gmap] of its own properties. The members every object inherits
      ([objectPrototypeMembers]) are read by the module [Doubles] only; the
      properties of table lookups are stated for other names.
    - Text is a string of bytes, and [toLowerCase] lowers the ASCII letters;
      the properties that depend on the case of a name are stated for ASCII
      text ([asciiText]).
    - A function that can throw returns a [result]. *)

From Stdlib Require Import QArith Qcanon Qround ZArith Ascii String List Lia.
From Stdlib Require PrimFloat.
From stdpp Require Import gmap strings list fin_maps.

Local Open Scope string_scope.

(** ** Exceptions and results *)

Inductive exn : Type :=
| TypeError         (* raised by the language: property access on undefined/null, call of a non-function *)
| ValidationError   (* utils/errors.js, class ValidationError *)
| DataFetchError    (* utils/errors.js, class DataFetchError *)
| GenericError (message : string)
| ReferenceError (identifier : string).  (* raised by the language: no binding of the identifier is in scope *)

Inductive result (A : Type) : Type :=
| Ok (a : A)
| Throw (e : exn).
Arguments Ok {A} a.
Arguments Throw {A} e.

Global Instance result_bind : MBind result := fun A B k r =>
  match r with
  | Ok a => k a
  | Throw e => Throw e
  end.

(** [mapM f l]: run [f] on the elements from left to right, stop at the first throw. *)
Fixpoint mapM {A B} (f : A -> result B) (l : list A) : result (list B) :=
  match l with
  | [] => Ok []
  | a :: l' => b ← f a; bs ← mapM f l'; Ok (b :: bs)
  end.

(** [foldM f l acc]: [l.forEach] with an accumulator and a body that can throw. *)
Fixpoint foldM {A S} (f : S -> A -> result S) (l : list A) (acc : S) : result S :=
  match l with
  | [] => Ok acc
  | a :: l' => acc' ← f acc a; foldM f l' acc'
  end.

(** [filterM p l]: [l.filter] with a predicate that can throw. *)
Fixpoint filterM {A} (p : A -> result bool) (l : list A) : result (list A) :=
  match l with
  | [] => Ok []
  | a :: l' =>
      b ← p a; r ← filterM p l'; Ok (if (b : bool) then a :: r else r)
  end.

(** ** JavaScript values held by a parsed row

    Papa Parse with [header: true, dynamicTyping: true] yields, for every
    cell, a number, a boolean, a string or null; a column that a row lacks
    reads as undefined. Plain numeric text has already become a number;
    [toNumber] reads whatever text is left as NaN, which is right for notes
    and names but not for text such as [+5] or [0x10], so the properties of
    sums are stated for columns without text. *)

Inductive jsval : Type :=
| VUndefined
| VNull
| VBool (b : bool)
| VNum (q : Qc)
| VStr (s : string).

Global Instance jsval_eq_dec : EqDecision jsval.
Proof. solve_decision. Defined.

Definition truthy (v : jsval) : bool :=
  match v with
  | VUndefined | VNull => false
  | VBool b => b
  | VNum q => negb (bool_decide (q = 0%Qc))
  | VStr s => negb (bool_decide (s = ""))
  end.

(** ToNumber, [None] for NaN. *)
Definition toNumber (v : jsval) : option Qc :=
  match v with
  | VUndefined => None
  | VNull => Some 0%Qc
  | VBool b => Some (if b then 1%Qc else 0%Qc)
  | VNum q => Some q
  | VStr _ => None
  end.

(** [v > 0] *)
Definition gtZero (v : jsval) : bool :=
  match toNumber v with
  | Some q => bool_decide (0 < q)%Qc
  | None => false
  end.

(** [x || 0] *)
Definition orZero (v : jsval) : jsval := if truthy v then v else VNum 0%Qc.

(** The number a cell adds once [hours > 0] has been checked. *)
Definition numberOf (v : jsval) : Qc := default 0%Qc (toNumber v).

(** A row object: column name to cell, in header order. *)
Definition Row : Type := list (string * jsval).

(** [obj[k]] on an association list: the first binding of [k]. *)
Fixpoint assoc {V} (k : string) (o : list (string * V)) : option V :=
  match o with
  | [] => None
  | (k', v) :: o' => if bool_decide (k' = k) then Some v else assoc k o'
  end.

(** [row[k]] *)
Definition prop (row : Row) (k : string) : jsval := default VUndefined (assoc k row).

(** ** Strings *)

Definition lowerAscii (c : ascii) : ascii :=
  let n := nat_of_ascii c in
  if (65 <=? n)%nat && (n <=? 90)%nat then ascii_of_nat (n + 32) else c.

(** [s.toLowerCase()], on the ASCII letters; text beyond ASCII is left as it is. *)
Fixpoint toLowerCase (s : string) : string :=
  match s with
  | EmptyString => EmptyString
  | String c r => String (lowerAscii c) (toLowerCase r)
  end.

(** [s.split(sep)[0]]: the text before the first [sep], all of [s] without one. *)
Fixpoint splitFirst (sep : ascii) (s : string) : string :=
  match s with
  | EmptyString => EmptyString
  | String c r => if bool_decide (c = sep) then EmptyString else String c (splitFirst sep r)
  end.

(** [hay.includes(needle)] *)
Fixpoint includes (hay needle : string) : bool :=
  if String.prefix needle hay then true
  else match hay with
       | EmptyString => false
       | String _ r => includes r needle
       end.

(** [v.toLowerCase()] on a value: only a string has the method. *)
Definition valToLowerCase (v : jsval) : result string :=
  match v with
  | VStr s => Ok (toLowerCase s)
  | _ => Throw TypeError
  end.

(** ** config/metrics-config.js *)

Module MetricsConfig.

Definition EMPLOYEE_RATES : gmap string Qc :=
  list_to_map
    [ ("victoria", Q2Qc (33 # 2));
      ("kyle", Q2Qc 20);
      ("brooke", Q2Qc 25);
      ("melanie", Q2Qc 25);
      ("austin", Q2Qc 35);
      ("default", Q2Qc 25) ].

Definition TASK_CATEGORIES : list (string * list string) :=
  [ ("Business Development",
      ["BD - Research"; "BD - Emailing"; "BD - Calls"; "BD - Internal Call"]);
    ("Congress",
      ["Congress - Research"; "Congress - Emailing"; "Congress - Calls";
       "Congress - Internal Call"]);
    ("Social Media",
      ["Social Management"; "Social Content - Research";
       "Social Content - Scripting"; "Social Content - Recording";
       "Social Content - Video Editing"; "Social Content - Graphic Design";
       "Social - Internal Call"]);
    ("Influencer", ["Influencer Outreach"; "Influencer - Internal Call"]);
    ("Newsletter",
      ["Newsletter - Writing/Editing"; "Newsletter - Operations";
       "Newsletter - Internal Call"]);
    ("Miscellaneous", ["Misc. Content"; "Misc. Research"]);
    ("Internal Operations",
      ["Internal Meetings"; "Admin"; "Operations"; "Customer Support"]);
    ("Advertising", ["Ads"]) ].

Definition CATEGORY_COLORS : list (string * string) :=
  [ ("Business Development", "#4CAF50");
    ("Congress", "#2196F3");
    ("Social Media", "#FFC107");
    ("Influencer", "#9C27B0");
    ("Newsletter", "#FF5722");
    ("Miscellaneous", "#607D8B");
    ("Internal Operations", "#795548");
    ("Advertising", "#E91E63") ].

End MetricsConfig.

(** ** services/utils.js: getHourlyRate *)

(** [EMPLOYEE_RATES.default] *)
Definition defaultRate : Qc := default 0%Qc (MetricsConfig.EMPLOYEE_RATES !! "default").

(** [EMPLOYEE_RATES[name] || EMPLOYEE_RATES.default]: a missing entry reads
    as undefined and a zero rate is falsy. The table is read by its own
    entries; for a name every object inherits ([objectPrototypeMembers]
    below) the code finds the inherited member instead, which
    [Doubles.getHourlyRate] embeds. *)
Definition rateOrDefault (name : string) : Qc :=
  match MetricsConfig.EMPLOYEE_RATES !! name with
  | Some r => if bool_decide (r = 0%Qc) then defaultRate else r
  | None => defaultRate
  end.

(** [normalizedName = employeeName.toLowerCase().split('@')[0]] *)
Definition normalizeName (s : string) : string := splitFirst "@"%char (toLowerCase s).

Definition getHourlyRate (employeeName : jsval) : result Qc :=
  if negb (truthy employeeName) then Ok defaultRate
  else
    lowered ← valToLowerCase employeeName;
    Ok (rateOrDefault (splitFirst "@"%char lowered)).

(** ** config/data-processor.js: calculateDetailedTaskData *)

(** [obj[k] = v] on an ordered dictionary: overwrite in place, else append. *)
Fixpoint assocSet {V} (k : string) (v : V) (o : list (string * V)) : list (string * V) :=
  match o with
  | [] => [(k, v)]
  | (k', v') :: o' =>
      if bool_decide (k' = k) then (k', v) :: o' else (k', v') :: assocSet k v o'
  end.

(** [obj[k].field += ...]: change the value bound to [k] where it is. *)
Fixpoint assocUpdate {V} (k : string) (f : V -> V) (o : list (string * V)) : list (string * V) :=
  match o with
  | [] => []
  | (k', v') :: o' =>
      if bool_decide (k' = k) then (k', f v') :: o' else (k', v') :: assocUpdate k f o'
  end.

Record EmployeeShare : Type := mkShare { hours : Qc; cost : Qc }.

Record TaskBucket : Type := mkBucket {
  totalHours : Qc;
  totalCost : Qc;
  byEmployee : gmap string EmployeeShare
}.

Definition emptyBucket : TaskBucket :=
  {| totalHours := 0%Qc; totalCost := 0%Qc; byEmployee := ∅ |}.

Definition DetailedTaskData : Type := list (string * TaskBucket).

(** The body of [if (hours > 0) { ... }] for one task bucket. *)
Definition addToBucket (employeeName : string) (hourlyRate h : Qc) (b : TaskBucket) : TaskBucket :=
  let share := default (mkShare 0%Qc 0%Qc) (byEmployee b !! employeeName) in
  {| totalHours := (totalHours b + h)%Qc;
     totalCost := (totalCost b + h * hourlyRate)%Qc;
     byEmployee :=
       <[employeeName := mkShare (hours share + h)%Qc (cost share + h * hourlyRate)%Qc]>
         (byEmployee b) |}.

(** One turn of the inner [taskCategories.forEach(task => ...)]. *)
Definition processCell (row : Row) (employeeName : string) (hourlyRate : Qc)
    (d : DetailedTaskData) (task : string) : DetailedTaskData :=
  let h := orZero (prop row task) in
  if gtZero h then assocUpdate task (addToBucket employeeName hourlyRate (numberOf h)) d
  else d.

(** One turn of the outer [employeeData.forEach(row => ...)]. *)
Definition processRow (taskCategories : list string) (d : DetailedTaskData) (row : Row)
    : result DetailedTaskData :=
  lowered ← valToLowerCase (prop row "User");
  let employeeName := splitFirst "@"%char lowered in
  hourlyRate ← getHourlyRate (VStr employeeName);
  Ok (fold_left (processCell row employeeName hourlyRate) taskCategories d).

Definition initialTaskData (taskCategories : list string) : DetailedTaskData :=
  fold_left (fun d task => assocSet task emptyBucket d) taskCategories [].

Definition calculateDetailedTaskData (employeeData : list Row) (taskCategories : list string)
    : result DetailedTaskData :=
  foldM (processRow taskCategories) employeeData (initialTaskData taskCategories).

(** [getTaskCategories(data)] of services/utils.js: the columns of the first
    row other than the three metadata columns, in the order of the row
    (column names that are integers, which [Object.keys] lists first, are not
    told apart). *)
Definition isMetadataColumn (k : string) : bool :=
  bool_decide (k = "Date") || bool_decide (k = "User") || bool_decide (k = "Week Range").

Definition getTaskCategories (data : list Row) : list string :=
  match data with
  | [] => []
  | row :: _ => filter (fun k => negb (isMetadataColumn k) = true) (map fst row)
  end.

(** ** Sums *)

Fixpoint sumQc (l : list Qc) : Qc :=
  match l with
  | [] => 0%Qc
  | q :: l' => (q + sumQc l')%Qc
  end.

(** [Object.values(obj).reduce((sum, x) => sum + x, 0)] *)
Definition sumValues (o : list (string * Qc)) : Qc :=
  fold_left (fun sum '(_, x) => (sum + x)%Qc) o 0%Qc.

(** ** config/data-processor.js: category roll-up and pie data *)

Section CategoryRollup.

Variable TASK_CATEGORIES : list (string * list string).

(** [totalsByCategory[task] = detailedTaskData[task].totalHours] for every
    column, as the callers of [calculateTotalsByType] prepare it. *)
Definition taskTotals (detailedTaskData : DetailedTaskData) : list (string * Qc) :=
  map (fun '(task, b) => (task, totalHours b)) detailedTaskData.

(** [categories.reduce((sum, category) => sum + (totalsByCategory[category] || 0), 0)] *)
Definition typeTotal (totalsByCategory : list (string * Qc)) (categories : list string) : Qc :=
  fold_left (fun sum category => (sum + default 0%Qc (assoc category totalsByCategory))%Qc)
    categories 0%Qc.

(** The keys of the configuration object are distinct, so every
    [totalsByType[type] = ...] creates a new property, in configuration order. *)
Definition calculateTotalsByType (totalsByCategory : list (string * Qc)) : list (string * Qc) :=
  map (fun '(type, categories) => (type, typeTotal totalsByCategory categories))
    TASK_CATEGORIES.

(** The category a task is shown under: the last category listing it, [""] if none. *)
Definition categoryTypeOf (taskName : string) : string :=
  fold_left (fun categoryType '(type, categories) =>
               if bool_decide (taskName ∈ categories) then type else categoryType)
    TASK_CATEGORIES "".

End CategoryRollup.

(** [x.toFixed(1)] read back as a number: the nearest multiple of 1/10, a tie
    going away from zero. This rounds the exact rational; the code rounds
    the double next to it, which can lie on the other side of a tie. *)
Definition toFixed1 (x : Qc) : Qc :=
  if bool_decide (0 ≤ x)%Qc
  then Q2Qc (Qfloor (x * Q2Qc 10 + Q2Qc (1 # 2))%Qc # 10)
  else (- Q2Qc (Qfloor (- x * Q2Qc 10 + Q2Qc (1 # 2))%Qc # 10))%Qc.

(** [(a / b * 100).toFixed(1)]; [None] when [b] is zero, where JavaScript
    prints Infinity or NaN. *)
Definition percentOf (a b : Qc) : option Qc :=
  if bool_decide (b = 0%Qc) then None else Some (toFixed1 (a / b * Q2Qc 100)%Qc).

Module Pie.
Record entry : Type := mk { name : string; value : Qc; percentage : option Qc }.
End Pie.

Definition preparePieData (totalsByType : list (string * Qc)) : list Pie.entry :=
  let totalHours := sumValues totalsByType in
  map (fun '(type, h) => Pie.mk type h (percentOf h totalHours))
    (filter (fun '(_, h) => (0 < h)%Qc) totalsByType).

(** ** services/utils.js: week ranges *)

Definition isLetter (c : ascii) : bool :=
  let n := nat_of_ascii c in
  ((65 <=? n)%nat && (n <=? 90)%nat) || ((97 <=? n)%nat && (n <=? 122)%nat).

Definition isDigit (c : ascii) : bool :=
  let n := nat_of_ascii c in (48 <=? n)%nat && (n <=? 57)%nat.

(** [\s] on ASCII: tab, line feed, vertical tab, form feed, carriage return, space. *)
Definition isSpace (c : ascii) : bool :=
  let n := nat_of_ascii c in ((9 <=? n)%nat && (n <=? 13)%nat) || (n =? 32)%nat.

(** The longest prefix whose characters satisfy [p], and the rest. *)
Fixpoint span (p : ascii -> bool) (s : string) : string * string :=
  match s with
  | EmptyString => (EmptyString, EmptyString)
  | String c r =>
      if p c then let '(a, b) := span p r in (String c a, b)
      else (EmptyString, s)
  end.

(** [/([A-Za-z]+)\s+(\d+)/] anchored at the start of [s]. Each of the three
    classes excludes the next one, so the greedy runs are the only way to
    match and backtracking cannot find another. *)
Definition monthDayAt (s : string) : option (string * string) :=
  let '(letters, r1) := span isLetter s in
  if bool_decide (letters = "") then None else
  let '(spaces, r2) := span isSpace r1 in
  if bool_decide (spaces = "") then None else
  let '(digits, _) := span isDigit r2 in
  if bool_decide (digits = "") then None else Some (letters, digits).

(** [weekRange.match(/([A-Za-z]+)\s+(\d+)/)]: the leftmost match, as the pair
    of its two groups. *)
Fixpoint matchMonthDay (s : string) : option (string * string) :=
  match monthDayAt s with
  | Some m => Some m
  | None =>
      match s with
      | EmptyString => None
      | String _ r => matchMonthDay r
      end
  end.

(** [/\((\d{4})\)/] anchored at the start of [s]. *)
Definition yearAt (s : string) : option string :=
  match s with
  | String "("%char (String a (String b (String c (String d (String ")"%char _))))) =>
      if isDigit a && isDigit b && isDigit c && isDigit d
      then Some (String a (String b (String c (String d EmptyString))))
      else None
  | _ => None
  end.

Fixpoint matchYear (s : string) : option string :=
  match yearAt s with
  | Some y => Some y
  | None =>
      match s with
      | EmptyString => None
      | String _ r => matchYear r
      end
  end.

(** [parseInt] of a run of decimal digits. *)
Definition digitsToZ (s : string) : Z :=
  fold_left (fun acc c => (acc * 10 + (Z.of_nat (nat_of_ascii c) - 48))%Z)
    (list_ascii_of_string s) 0%Z.

Definition monthMap : list (string * Z) :=
  [ ("Jan", 0); ("Feb", 1); ("Mar", 2); ("Apr", 3); ("May", 4); ("Jun", 5);
    ("Jul", 6); ("Aug", 7); ("Sep", 8); ("Oct", 9); ("Nov", 10); ("Dec", 11) ]%Z.

(** A [Date] is its time value, milliseconds since the epoch; [None] is the
    Invalid Date, whose time value is NaN. *)
Definition JsDate : Type := option Z.

Definition epoch : JsDate := Some 0%Z.

(** What the host decides: the calendar year of "now", the conversion of a
    local time to UTC, and [new Date(text)] for free text. *)
Record Host : Type := mkHost {
  currentYear : Z;
  localToUTC : Z -> Z;
  parseDateText : jsval -> JsDate
}.

(** Days from 1970-01-01 to the first day of month [m] (0 to 11) of year [y]. *)
Definition daysFromCivil (y m : Z) : Z :=
  let mo := (m + 1)%Z in
  let y' := (if mo <=? 2 then y - 1 else y)%Z in
  let era := (y' / 400)%Z in
  let yoe := (y' - era * 400)%Z in
  let mp := ((mo + 9) mod 12)%Z in
  let doy := ((153 * mp + 2) / 5)%Z in
  let doe := (yoe * 365 + yoe / 4 - yoe / 100 + doy)%Z in
  (era * 146097 + doe - 719468)%Z.

Definition msPerDay : Z := 86400000.

(** TimeClip *)
Definition timeClip (t : Z) : JsDate :=
  if (Z.abs t <=? 8640000000000000)%Z then Some t else None.

(** [new Date(year, monthIndex, day)]: an undefined month index is NaN and
    gives the Invalid Date; years 0 to 99 mean 1900 to 1999; month and day
    overflow carry over. *)
Definition newDate (host : Host) (year : Z) (monthIndex : option Z) (day : Z) : JsDate :=
  match monthIndex with
  | None => None
  | Some m =>
      let yr := (if (0 <=? year) && (year <=? 99) then 1900 + year else year)%Z in
      let ym := (yr + m / 12)%Z in
      let mn := (m mod 12)%Z in
      let days := (daysFromCivil ym mn + day - 1)%Z in
      timeClip (localToUTC host (days * msPerDay))
  end.

(** The [try] block: a value without a [match] method throws inside it and
    the [catch] returns the epoch. *)
Definition parseStartDateFromWeekRange (host : Host) (weekRange : jsval) : JsDate :=
  match weekRange with
  | VStr s =>
      match matchMonthDay s with
      | Some (month, dayText) =>
          let day := digitsToZ dayText in
          let year := match matchYear s with
                      | Some y => digitsToZ y
                      | None => currentYear host
                      end in
          newDate host year (assoc month monthMap) day
      | None => epoch
      end
  | _ => epoch
  end.

(** [dateA - dateB], NaN when either date is invalid. *)
Definition compareWeekRanges (host : Host) (a b : jsval) : option Z :=
  match parseStartDateFromWeekRange host a, parseStartDateFromWeekRange host b with
  | Some ta, Some tb => Some (ta - tb)%Z
  | _, _ => None
  end.

(** [x >= 0] and [x <= 0]; both are false on NaN. *)
Definition geZero (x : option Z) : bool :=
  match x with Some z => (0 <=? z)%Z | None => false end.
Definition leZero (x : option Z) : bool :=
  match x with Some z => (z <=? 0)%Z | None => false end.

Definition filterDataByWeekRange (host : Host) (data : list Row) (startWeek endWeek : string)
    : list Row :=
  if bool_decide (startWeek = "all") && bool_decide (endWeek = "all") then data
  else
    filter (fun row =>
      let weekRange := prop row "Week Range" in
      (if negb (bool_decide (startWeek = "all")) && bool_decide (endWeek = "all")
       then geZero (compareWeekRanges host weekRange (VStr startWeek))
       else if bool_decide (startWeek = "all") && negb (bool_decide (endWeek = "all"))
       then leZero (compareWeekRanges host weekRange (VStr endWeek))
       else geZero (compareWeekRanges host weekRange (VStr startWeek))
            && leZero (compareWeekRanges host weekRange (VStr endWeek))) = true)
      data.

(** ** services/state-manager.js and the filter pipeline *)

Record FilterState : Type := mkFilterState {
  activeEmployee : string;
  dateRangeStart : string;
  dateRangeEnd : string;
  searchQuery : string;
  taskCategory : string
}.

(** The state the constructor and [resetAllFilters] establish. *)
Definition noFilter : FilterState :=
  {| activeEmployee := "all"; dateRangeStart := "all"; dateRangeEnd := "all";
     searchQuery := ""; taskCategory := "all" |}.

(** [Object.entries(row).some(([key, value]) => typeof value === 'string' && ...)] *)
Definition rowMatchesQuery (query : string) (row : Row) : bool :=
  existsb (fun '(_, value) =>
             match value with
             | VStr s => includes (toLowerCase s) query
             | _ => false
             end) row.

(** The four stages of [filterData] (lines 1596-1629), on the filter state
    they read. *)
Definition filterStages (host : Host) (state : FilterState) (data : list Row) : result (list Row) :=
  let filtered := data in
  let filtered :=
    if negb (bool_decide (dateRangeStart state = "all"))
       || negb (bool_decide (dateRangeEnd state = "all"))
    then filterDataByWeekRange host filtered (dateRangeStart state) (dateRangeEnd state)
    else filtered in
  filtered ←
    (if negb (bool_decide (activeEmployee state = "all"))
     then filterM (fun row =>
                     user ← valToLowerCase (prop row "User");
                     Ok (includes user (toLowerCase (activeEmployee state)))) filtered
     else Ok filtered);
  let filtered :=
    if negb (bool_decide (searchQuery state = ""))
    then filter (fun row => rowMatchesQuery (toLowerCase (searchQuery state)) row = true) filtered
    else filtered in
  let filtered :=
    if negb (bool_decide (taskCategory state = "all"))
    then filter (fun row => taskCategory state ∈ getTaskCategories [row]) filtered
    else filtered in
  Ok filtered.

(** ** pages/metrics-dashboard: the bindings of the page module

    What the page module imports (lines 573-581) and declares at its top
    level. The other scripts of the page (Tailwind, Chart.js, Papa Parse)
    define no global named [dashboardState] or after a colour getter, and no
    element of the page has such an id; so an identifier outside this list
    that is not a parameter or a local of the function at hand has no
    binding. *)
Definition pageModuleScope : list string :=
  [ "SPREADSHEET_CONFIG"; "EMPLOYEE_RATES"; "TASK_CATEGORIES"; "TASK_ORDER"; "EMPLOYEE_COLORS";
    "initializeColorCaches"; "updateChartTitles"; "initializeTaskPieChart";
    "initializeBarChart"; "initializeTimeLineChart"; "initializeComparisonChart";
    "fetchEmployeeData"; "calculateDetailedTaskData"; "updateDataSourceIndicator";
    "getTaskCategories"; "filterDataByWeekRange"; "validateWeekSelection"; "getHourlyRate";
    "LoadingState"; "SearchFilter"; "errorHandler"; "ValidationError"; "DataFetchError";
    "employeesData"; "filteredEmployeesData"; "activeStartWeek"; "activeEndWeek";
    "lastUpdated"; "autoRefreshEnabled"; "autoRefreshIntervalId"; "dataSourceConnected";
    "globalDisplayMode"; "globalLevelMode"; "loadingState"; "searchFilter";
    "initializeDashboard"; "setupTabNavigation"; "initializeFilterControls";
    "handleFileUpload"; "updateWeekRangeOptions"; "updateFilterDisplay"; "setupAutoRefresh";
    "updateAllEmployeeCharts"; "initializeEmployeeCharts"; "initializeTeamDashboard";
    "updateEmployeeSummary"; "displayNoDataMessage"; "validateTaskCategories"; "filterData" ].

(** Evaluating an identifier where [scope] lists the bindings in scope:
    [value] when it is bound, a ReferenceError when it is not. *)
Definition reference {A} (scope : list string) (identifier : string) (value : A) : result A :=
  if bool_decide (identifier ∈ scope) then Ok value else Throw (ReferenceError identifier).

(** [filterData(data)] of the page module. [stateManager] stands for the
    object that services/state-manager.js exports; the function reaches it
    through the identifier [dashboardState] (line 1594). *)
Definition filterData (host : Host) (stateManager : FilterState) (data : list Row)
    : result (list Row) :=
  let filtered := data in
  dashboardState ← reference ("data" :: "filtered" :: pageModuleScope) "dashboardState" stateManager;
  let state := dashboardState in
  filterStages host state filtered.

(** ** config/chart-renderer.js: the colour caches *)

(** The value of a hexadecimal digit. *)
Definition hexVal (c : ascii) : option Z :=
  let n := nat_of_ascii c in
  if (48 <=? n)%nat && (n <=? 57)%nat then Some (Z.of_nat n - 48)%Z
  else if (97 <=? n)%nat && (n <=? 102)%nat then Some (Z.of_nat n - 87)%Z
  else if (65 <=? n)%nat && (n <=? 70)%nat then Some (Z.of_nat n - 55)%Z
  else None.

(** The value of the longest run of hexadecimal digits at the start of [s],
    [None] when that run is empty. *)
Fixpoint hexPrefix (s : string) (acc : option Z) : option Z :=
  match s with
  | EmptyString => acc
  | String c r =>
      match hexVal c with
      | Some v => hexPrefix r (Some (default 0%Z acc * 16 + v)%Z)
      | None => acc
      end
  end.

Fixpoint skipSpaces (s : string) : string :=
  match s with
  | String c r => if isSpace c then skipSpaces r else s
  | EmptyString => s
  end.

(** [parseInt(s, 16)], [None] for NaN: leading white space, a sign, an
    optional [0x], then as many hexadecimal digits as there are. *)
Definition parseInt16 (s : string) : option Z :=
  let s := skipSpaces s in
  let '(sign, s) :=
    match s with
    | String "-"%char r => ((-1)%Z, r)
    | String "+"%char r => (1%Z, r)
    | _ => (1%Z, s)
    end in
  let s :=
    match s with
    | String "0"%char (String "x"%char r) => r
    | String "0"%char (String "X"%char r) => r
    | _ => s
    end in
  v ← hexPrefix s None; Some (sign * v)%Z.

(** [s.substring(from, from + 2)] *)
Definition twoCharsAt (from : nat) (s : string) : string := String.substring from 2 s.

(** [hex.replace(/^#/, '')] *)
Definition stripHash (s : string) : string :=
  match s with
  | String "#"%char r => r
  | _ => s
  end.

(** [Math.round(c * (100 + percent) / 100)]: the product is an integer, the
    quotient is within 1/200 of a half-integer only when it is one, so the
    rounding (a tie goes up) is exactly this floor. *)
Definition scaleChannel (c percent : Z) : Z := ((c * (100 + percent) + 50) / 100)%Z.

(** [Math.min(255, Math.max(0, c))] *)
Definition clampChannel (c : Z) : Z := Z.min 255 (Z.max 0 c).

Definition hexChar (v : Z) : ascii :=
  if (v <? 10)%Z then ascii_of_nat (Z.to_nat v + 48) else ascii_of_nat (Z.to_nat v + 87).

(** [c.toString(16).padStart(2, '0')] for a channel in range; NaN prints as [NaN]. *)
Definition channelToHex (c : option Z) : string :=
  match c with
  | Some v => String (hexChar (v / 16)) (String (hexChar (v mod 16)) EmptyString)
  | None => "NaN"
  end.

Definition adjustChannel (percent : Z) (c : option Z) : option Z :=
  v ← c; Some (clampChannel (scaleChannel v percent)).

Definition adjustColor (hex : string) (percent : Z) : string :=
  let hex := stripHash hex in
  let r := parseInt16 (twoCharsAt 0 hex) in
  let g := parseInt16 (twoCharsAt 2 hex) in
  let b := parseInt16 (twoCharsAt 4 hex) in
  "#" ++ channelToHex (adjustChannel percent r)
      ++ channelToHex (adjustChannel percent g)
      ++ channelToHex (adjustChannel percent b).

Record ColorCaches : Type := mkCaches {
  TASK_COLOR_CACHE : gmap string string;
  TASK_BORDER_COLOR_CACHE : gmap string string;
  CATEGORY_COLOR_CACHE : gmap string string;
  CATEGORY_BORDER_COLOR_CACHE : gmap string string
}.

Definition emptyCaches : ColorCaches := mkCaches ∅ ∅ ∅ ∅.

(** [percentAdjustment] of the task at [index] in a category of [n] tasks. *)
Definition percentAdjustment (n index : nat) : Z :=
  if bool_decide (n = 1%nat) then 0%Z
  else ((Z.of_nat index - Z.of_nat (n / 2)) * 15)%Z.

Section ColorCaches.

Variable CATEGORY_COLORS : list (string * string).
Variable TASK_CATEGORIES : list (string * list string).

(** The first loop: it stops with an error at the first empty colour, and
    what it wrote before stays written. *)
Fixpoint cacheCategoryColors (entries : list (string * string)) (c : ColorCaches)
    : ColorCaches * result unit :=
  match entries with
  | [] => (c, Ok tt)
  | (category, baseColor) :: rest =>
      if bool_decide (baseColor = "")
      then (c, Throw (GenericError ("Invalid color for category: " ++ category)))
      else cacheCategoryColors rest
             {| TASK_COLOR_CACHE := TASK_COLOR_CACHE c;
                TASK_BORDER_COLOR_CACHE := TASK_BORDER_COLOR_CACHE c;
                CATEGORY_COLOR_CACHE := <[category := baseColor ++ "CC"]> (CATEGORY_COLOR_CACHE c);
                CATEGORY_BORDER_COLOR_CACHE := <[category := baseColor]> (CATEGORY_BORDER_COLOR_CACHE c) |}
  end.

(** [tasks.forEach((taskName, index) => ...)], with [n = tasks.length] and
    [index] the position of the head of [tasks]. *)
Fixpoint cacheTaskColors (baseColor : string) (n index : nat) (tasks : list string)
    (c : ColorCaches) : ColorCaches :=
  match tasks with
  | [] => c
  | taskName :: rest =>
      let adjustedColor := adjustColor baseColor (percentAdjustment n index) in
      cacheTaskColors baseColor n (S index) rest
        {| TASK_COLOR_CACHE := <[taskName := adjustedColor ++ "CC"]> (TASK_COLOR_CACHE c);
           TASK_BORDER_COLOR_CACHE := <[taskName := adjustedColor]> (TASK_BORDER_COLOR_CACHE c);
           CATEGORY_COLOR_CACHE := CATEGORY_COLOR_CACHE c;
           CATEGORY_BORDER_COLOR_CACHE := CATEGORY_BORDER_COLOR_CACHE c |}
  end.

(** The second loop; a category without a colour is skipped. *)
Definition cacheCategoryTasks (c : ColorCaches) (entry : string * list string) : ColorCaches :=
  let '(category, tasks) := entry in
  match assoc category CATEGORY_COLORS with
  | Some baseColor =>
      if bool_decide (baseColor = "") then c
      else cacheTaskColors baseColor (length tasks) 0 tasks c
  | None => c
  end.

Definition initializeColorCaches (c : ColorCaches) : ColorCaches * result unit :=
  match cacheCategoryColors CATEGORY_COLORS c with
  | (c1, Ok _) => (fold_left cacheCategoryTasks TASK_CATEGORIES c1, Ok tt)
  | (c1, Throw _) => (c1, Throw (GenericError "Color cache initialization failed"))
  end.

End ColorCaches.

(** [cache[name] || fallback], on the entries the cache holds. For a name
    every object inherits the code reads the inherited member; the
    properties of the getters are stated for other names. *)
Definition cachedOr (cache : gmap string string) (name fallback : string) : string :=
  match cache !! name with
  | Some color => if bool_decide (color = "") then fallback else color
  | None => fallback
  end.

Definition getCategoryColor (c : ColorCaches) (category : string) : string :=
  cachedOr (CATEGORY_COLOR_CACHE c) category "#ccccccCC".
Definition getCategoryBorderColor (c : ColorCaches) (category : string) : string :=
  cachedOr (CATEGORY_BORDER_COLOR_CACHE c) category "#cccccc".
Definition getTaskColor (c : ColorCaches) (task : string) : string :=
  cachedOr (TASK_COLOR_CACHE c) task "#ccccccCC".
Definition getTaskBorderColor (c : ColorCaches) (task : string) : string :=
  cachedOr (TASK_BORDER_COLOR_CACHE c) task "#cccccc".

(** ** Array.prototype.sort

    The sort is stable, and a comparator result of NaN counts as +0. For a
    consistent comparator the outcome is the one stable ordering, which
    insertion from the right computes. *)

Section Sort.

Context {A : Type} (cmp : A -> A -> option Qc).

(** [cmp x y <= 0]: [x] may stay in front of [y]. *)
Definition notAfter (x y : A) : bool :=
  match cmp x y with
  | Some v => bool_decide (v ≤ 0)%Qc
  | None => true
  end.

Fixpoint insertSorted (x : A) (l : list A) : list A :=
  match l with
  | [] => [x]
  | y :: l' => if notAfter x y then x :: y :: l' else y :: insertSorted x l'
  end.

Definition jsSort (l : list A) : list A := foldr insertSorted [] l.

End Sort.

(** [[...new Set(values)]]: the distinct values in order of first appearance. *)
Fixpoint uniqueFrom (seen : list jsval) (values : list jsval) : list jsval :=
  match values with
  | [] => []
  | v :: rest =>
      if bool_decide (v ∈ seen) then uniqueFrom seen rest
      else v :: uniqueFrom (v :: seen) rest
  end.

Definition unique (values : list jsval) : list jsval := uniqueFrom [] values.

(** ** pages/metrics-dashboard: the employee summary and the weekly trend *)

Inductive DisplayMode : Type := DisplayHours | DisplayCost.
Inductive LevelMode : Type := LevelCategory | LevelTask.

Global Instance DisplayMode_eq_dec : EqDecision DisplayMode.
Proof. solve_decision. Defined.

(** The module-level variables the two functions read. *)
Record Globals : Type := mkGlobals {
  employeesData : list Row;
  filteredEmployeesData : list Row;
  globalDisplayMode : DisplayMode;
  globalLevelMode : LevelMode
}.

Module Activity.
(** An entry of [detailedBreakdown]; [cost] may be undefined. *)
Record t : Type := mk { name : string; hours : Qc; cost : option Qc; type : string }.
End Activity.

(** What the summary card shows, before the numbers are printed. *)
Record Summary : Type := mkSummary {
  shownTotalHours : Qc;
  shownWeeks : nat;
  shownTotalCost : Qc;
  mostTimeActivity : string;
  mostTimeHours : Qc;
  mostTimePercentage : option Qc;
  mostTimeCost : Qc;
  weeklyAverage : option Qc;
  weeklyAverageCost : option Qc
}.

(** [(a, b) => b.hours - a.hours] *)
Definition byHoursDescending (a b : Activity.t) : option Qc :=
  Some (Activity.hours b - Activity.hours a)%Qc.

(** The block "Find most time-consuming activity": name, hours, percentage
    and cost of the first entry of the breakdown sorted by hours. *)
Definition mostTimeConsuming (hourlyRate total : Qc) (detailedBreakdown : list Activity.t)
    : string * Qc * option Qc * Qc :=
  match jsSort byHoursDescending detailedBreakdown with
  | topActivity :: _ =>
      let h := Activity.hours topActivity in
      (Activity.name topActivity, h, percentOf h total,
       match Activity.cost topActivity with
       | Some c => c
       | None => (h * hourlyRate)%Qc
       end)
  | [] => ("None", 0%Qc, Some 0%Qc, 0%Qc)
  end.

(** [uniqueWeeks] of a row set *)
Definition uniqueWeeksOf (rows : list Row) : list jsval :=
  unique (map (fun row => prop row "Week Range") rows).

Definition updateEmployeeSummary (g : Globals) (employeeName : string)
    (totalsByCategory : list (string * Qc)) (detailedBreakdown : list Activity.t)
    : result Summary :=
  hourlyRate ← getHourlyRate (VStr employeeName);
  let total := sumValues totalsByCategory in
  let '(activity, h, percentage, c) := mostTimeConsuming hourlyRate total detailedBreakdown in
  employeeData ←
    filterM (fun row => user ← valToLowerCase (prop row "User");
                        Ok (includes user employeeName))
      (filteredEmployeesData g);
  let uniqueWeeks := uniqueWeeksOf employeeData in
  let average :=
    if bool_decide (length uniqueWeeks = 0%nat) then None
    else Some (toFixed1 (total / Q2Qc (inject_Z (Z.of_nat (length uniqueWeeks))))%Qc) in
  Ok {| shownTotalHours := total;
        shownWeeks := length uniqueWeeks;
        shownTotalCost := (total * hourlyRate)%Qc;
        mostTimeActivity := activity;
        mostTimeHours := h;
        mostTimePercentage := percentage;
        mostTimeCost := c;
        weeklyAverage := average;
        weeklyAverageCost := (fun a => (a * hourlyRate)%Qc) <$> average |}.

(** A line of the trend chart; the border and fill colours, read from the
    colour caches, are styling and are not part of the series. *)
Record Dataset : Type := mkDataset { label : string; data : list Qc }.

Inductive TrendMessage : Type :=
| OnlyOneWeek (employeeName : string) (week : jsval)
| NoDataInRange.

Inductive TrendOutcome : Type :=
| TrendChart (datasets : list Dataset) (labels : list jsval)
| TrendUnavailable (message : TrendMessage).

(** The hours a cell contributes: [row[task] || 0] when it is [> 0]. *)
Definition cellHours (row : Row) (task : string) : Qc :=
  let h := orZero (prop row task) in
  if gtZero h then numberOf h else 0%Qc.

Definition rowsOfWeek (week : jsval) (rows : list Row) : list Row :=
  filter (fun row => prop row "Week Range" = week) rows.

(** Hours, and cost at one rate, that [rows] hold in the columns [tasks]. *)
Definition hoursIn (rows : list Row) (tasks : list string) : Qc :=
  sumQc (row ← rows; task ← tasks; [cellHours row task]).
Definition costIn (hourlyRate : Qc) (rows : list Row) (tasks : list string) : Qc :=
  sumQc (row ← rows; task ← tasks; [(cellHours row task * hourlyRate)%Qc]).

Section EmployeeCharts.

Variable host : Host.
Variable TASK_CATEGORIES : list (string * list string).

(** [(a, b) => new Date(a) - new Date(b)] *)
Definition byDate (a b : jsval) : option Qc :=
  match parseDateText host a, parseDateText host b with
  | Some ta, Some tb => Some (Q2Qc (inject_Z (ta - tb)))
  | _, _ => None
  end.

(** The breakdown built from the task buckets with hours. *)
Definition breakdownOf (detailedTaskData : DetailedTaskData) : list Activity.t :=
  map (fun '(taskName, b) =>
         Activity.mk taskName (totalHours b) (Some (totalCost b))
           (categoryTypeOf TASK_CATEGORIES taskName))
    (filter (fun '(_, b) => (0 < totalHours b)%Qc) detailedTaskData).

Definition totalDataset (byCost : bool) (hourlyRate : Qc) (weeks : list jsval)
    (rows : list Row) (columnsOf : Row -> list string) : Dataset :=
  {| label := if byCost then "Total Cost" else "Total Hours";
     data := map (fun week =>
                    sumQc (map (fun row =>
                                  if byCost then costIn hourlyRate [row] (columnsOf row)
                                  else hoursIn [row] (columnsOf row))
                             (rowsOfWeek week rows)))
               weeks |}.

(** The series of the names in [names]: one object literal per name, whose
    [borderColor] and [backgroundColor] call a colour getter of
    chart-renderer.js by its bare name. No parameter or local of
    [initializeEmployeeCharts] has such a name, so the page module must
    bind it. *)
Definition seriesOf (borderGetter fillGetter : string) (points : string -> list Qc)
    (names : list string) : result (list Dataset) :=
  mapM (fun name =>
          let line := {| label := name; data := points name |} in
          borderColor ← reference pageModuleScope borderGetter tt;
          backgroundColor ← reference pageModuleScope fillGetter tt;
          Ok line)
    names.

(** Category level: the three categories with most hours, then the total. *)
Definition categoryDatasets (byCost : bool) (hourlyRate : Qc) (weeks : list jsval)
    (employeeData : list Row) : result (list Dataset) :=
  let categoryTotals :=
    map (fun '(category, tasks) =>
           (category, sumQc (map (fun week => hoursIn (rowsOfWeek week employeeData) tasks) weeks)))
      TASK_CATEGORIES in
  let topCategories :=
    map fst (take 3 (jsSort (fun a b => Some (snd b - snd a)%Qc)
                       (filter (fun '(_, total) => (0 < total)%Qc) categoryTotals))) in
  datasets ←
    seriesOf "getCategoryBorderColor" "getCategoryColor"
      (fun category =>
         let tasks := default [] (assoc category TASK_CATEGORIES) in
         map (fun week =>
                if byCost then costIn hourlyRate (rowsOfWeek week employeeData) tasks
                else hoursIn (rowsOfWeek week employeeData) tasks)
           weeks)
      topCategories;
  Ok (datasets
      ++ [totalDataset byCost hourlyRate weeks employeeData
            (fun _ => concat (map snd TASK_CATEGORIES))])%list.

(** Task level: the first three entries of the breakdown, then the total
    over every task column of a row. *)
Definition taskDatasets (byCost : bool) (hourlyRate : Qc) (weeks : list jsval)
    (employeeData : list Row) (detailedBreakdown : list Activity.t) : result (list Dataset) :=
  let topActivities := map Activity.name (take 3 detailedBreakdown) in
  datasets ←
    seriesOf "getTaskBorderColor" "getTaskColor"
      (fun activity =>
         map (fun week =>
                if byCost then costIn hourlyRate (rowsOfWeek week employeeData) [activity]
                else hoursIn (rowsOfWeek week employeeData) [activity])
           weeks)
      topActivities;
  Ok (datasets
      ++ [totalDataset byCost hourlyRate weeks employeeData
            (fun row => topActivities
                        ++ filter (fun key => negb (isMetadataColumn key) = true ∧ key ∉ topActivities)
                             (map fst row))])%list.

End EmployeeCharts.

(** ** Reference quantities for the aggregation properties

    These follow the wording of the specification, not the code: the rows
    that contribute to a task, their hours, and the rate of the employee a
    row belongs to. *)

Definition userIsText (row : Row) : Prop := ∃ s : string, prop row "User" = VStr s.

Definition userAbsent (row : Row) : Prop :=
  prop row "User" = VUndefined ∨ prop row "User" = VNull.

(** The hourly rate of the employee of a row: the rate of its employee key. *)
Definition rateOfRow (row : Row) : Qc :=
  match prop row "User" with
  | VStr s => rateOrDefault (normalizeName s)
  | _ => defaultRate
  end.

(** A row contributes to a task when its cell for the task is above zero. *)
Definition contributes (task : string) (row : Row) : bool := gtZero (orZero (prop row task)).

Definition taskHoursOf (task : string) (row : Row) : Qc := numberOf (orZero (prop row task)).

Definition contributingRows (task : string) (rows : list Row) : list Row :=
  filter (fun row => contributes task row = true) rows.

Definition expectedTotalHours (rows : list Row) (task : string) : Qc :=
  sumQc (map (taskHoursOf task) (contributingRows task rows)).

Definition expectedTotalCost (rows : list Row) (task : string) : Qc :=
  sumQc (map (fun row => (taskHoursOf task row * rateOfRow row)%Qc) (contributingRows task rows)).

(** The task-level grand total: the hours of all task buckets. *)
Definition grandTotalHours (d : DetailedTaskData) : Qc := sumQc (map (fun '(_, b) => totalHours b) d).

(** The categories that list a task. *)
Definition categoriesOf (TASK_CATEGORIES : list (string * list string)) (task : string)
    : list string :=
  map fst (filter (fun '(_, tasks) => task ∈ tasks) TASK_CATEGORIES).

(** The first entry of a breakdown with the most hours: no entry has more
    hours, and no entry before it has as many. *)
Definition firstWithMostHours (top : Activity.t) (breakdown : list Activity.t) : Prop :=
  ∃ before after : list Activity.t,
    breakdown = (before ++ top :: after)%list
    ∧ (∀ a, a ∈ before → (Activity.hours a < Activity.hours top)%Qc)
    ∧ (∀ a, a ∈ after → (Activity.hours a ≤ Activity.hours top)%Qc).

(** The rows span at most one value of the week column. *)
Definition spansAtMostOneWeek (rows : list Row) : Prop :=
  ∀ r1 r2 : Row, r1 ∈ rows → r2 ∈ rows → prop r1 "Week Range" = prop r2 "Week Range".


(** A colour of the shape [#rrggbb]. *)
Definition isHexDigit (c : ascii) : bool := bool_decide (is_Some (hexVal c)).

Definition isHexColor (s : string) : bool :=
  match s with
  | String "#"%char (String a (String b (String c (String d (String e (String f EmptyString)))))) =>
      isHexDigit a && isHexDigit b && isHexDigit c && isHexDigit d && isHexDigit e && isHexDigit f
  | _ => false
  end.

(** The three channels of a [#rrggbb] colour. *)
Definition channelsOf (s : string) : option (Z * Z * Z) :=
  match s with
  | String "#"%char (String a (String b (String c (String d (String e (String f EmptyString)))))) =>
      va ← hexVal a; vb ← hexVal b; vc ← hexVal c;
      vd ← hexVal d; ve ← hexVal e; vf ← hexVal f;
      Some (va * 16 + vb, vc * 16 + vd, ve * 16 + vf)%Z
  | _ => None
  end.

(** The channel after an adjustment by [percent] per cent: scaled by
    [(100 + percent) / 100], rounded to the nearest integer, kept in 0..255. *)
Definition adjustedChannel (percent c : Z) : Z :=
  Z.min 255 (Z.max 0 ((c * (100 + percent) + 50) / 100))%Z.

(** What one row does to the bucket of [task]. *)
Definition cellEffect (row : Row) (employeeName : string) (hourlyRate : Qc) (task : string)
    (b : TaskBucket) : TaskBucket :=
  if contributes task row
  then addToBucket employeeName hourlyRate (taskHoursOf task row) b
  else b.

(** ** Sample data *)

(** The row of the specification's aggregation example. *)
Definition kyleRow : Row :=
  [ ("User", VStr "kyle@x.com");
    ("BD - Research", VNum (Q2Qc 2));
    ("Week Range", VStr "Mar 10 – Mar 15 (2025)") ].

(** A row of another employee, a week later. *)
Definition austinRow : Row :=
  [ ("User", VStr "Austin@x.com");
    ("BD - Research", VNum (Q2Qc 1));
    ("Week Range", VStr "Mar 17 – Mar 22 (2025)") ].

(** A row whose [User] column is missing. *)
Definition anonymousRow : Row :=
  [ ("BD - Research", VNum (Q2Qc 3));
    ("Week Range", VStr "Mar 10 – Mar 15 (2025)") ].

(** A host in UTC, in the year 2026, that parses no free text as a date. *)
Definition utcHost : Host :=
  {| currentYear := 2026; localToUTC := fun t => t; parseDateText := fun _ => None |}.

(** The globals after the display toggle is set to [mode]. *)
Definition withDisplayMode (mode : DisplayMode) (g : Globals) : Globals :=
  {| employeesData := employeesData g;
     filteredEmployeesData := filteredEmployeesData g;
     globalDisplayMode := mode;
     globalLevelMode := globalLevelMode g |}.

(** A breakdown in which the entry with most hours is not the one with most
    cost, and two entries tie on hours. *)
Definition sampleBreakdown : list Activity.t :=
  [ Activity.mk "Admin" (Q2Qc 2) (Some (Q2Qc 90)) "Internal Operations";
    Activity.mk "Ads" (Q2Qc 5) (Some (Q2Qc 50)) "Advertising";
    Activity.mk "BD - Calls" (Q2Qc 5) (Some (Q2Qc 70)) "Business Development" ].

Definition sampleGlobals : Globals :=
  {| employeesData := [kyleRow; austinRow];
     filteredEmployeesData := [kyleRow; austinRow];
     globalDisplayMode := DisplayCost;
     globalLevelMode := LevelCategory |}.

(** The globals when the week filter leaves the rows of one week. *)
Definition oneWeekGlobals : Globals :=
  {| employeesData := [kyleRow; austinRow];
     filteredEmployeesData := [kyleRow];
     globalDisplayMode := DisplayHours;
     globalLevelMode := LevelTask |}.

(** The adjustment the specification gives the task at 0-based [index] of a
    category of [n] tasks: [(index - floor(n / 2)) * 15] per cent. *)
Definition positionAdjustment (n index : nat) : Z :=
  ((Z.of_nat index - Z.of_nat (n / 2)) * 15)%Z.

(** The colour string of three channels, two lower-case digits each. *)
Definition colorOfChannels (r g b : Z) : string :=
  "#" ++ channelToHex (Some r) ++ channelToHex (Some g) ++ channelToHex (Some b).

(** A second row of kyle, in the later week. *)
Definition kyleLaterRow : Row :=
  [ ("User", VStr "kyle@x.com");
    ("BD - Research", VNum (Q2Qc 4));
    ("Week Range", VStr "Mar 17 – Mar 22 (2025)") ].

(** * Further functions of the same modules *)

From Stdlib Require Import Sorted.

(** ** config/data-processor.js: createDetailedBreakdown and calculateTotalsByCategory *)

Section Breakdown.

Variable TASK_CATEGORIES : list (string * list string).

(** The entries of the totals with hours above zero, each with the category
    it is shown under, sorted by hours, descending. These entries carry no
    cost. *)
Definition createDetailedBreakdown (totalsByCategory : list (string * Qc)) : list Activity.t :=
  jsSort byHoursDescending
    (map (fun '(category, h) =>
            Activity.mk category h None (categoryTypeOf TASK_CATEGORIES category))
       (filter (fun '(_, h) => (0 < h)%Qc) totalsByCategory)).

End Breakdown.

Section TotalsByCategory.

(** ToString of a number, which the embedding leaves to the language. *)
Variable numberToString : Qc -> string.

Definition toStringVal (v : jsval) : string :=
  match v with
  | VUndefined => "undefined"
  | VNull => "null"
  | VBool b => if b then "true" else "false"
  | VNum q => numberToString q
  | VStr s => s
  end.

(** [sum + (row[category] || 0)]: with a string on either side the two are
    concatenated, otherwise they are added as numbers. The right operand is
    never undefined or null, and the sum starts at 0, so NaN does not arise. *)
Definition addCell (sum cell : jsval) : jsval :=
  let x := orZero cell in
  match sum, x with
  | VStr _, _ | _, VStr _ => VStr (toStringVal sum ++ toStringVal x)
  | _, _ => VNum (numberOf sum + numberOf x)%Qc
  end.

(** [employeeData.reduce((sum, row) => sum + (row[category] || 0), 0)] *)
Definition columnTotal (employeeData : list Row) (category : string) : jsval :=
  fold_left (fun sum row => addCell sum (prop row category)) employeeData (VNum 0%Qc).

Definition calculateTotalsByCategory (employeeData : list Row) (taskCategories : list string)
    : list (string * jsval) :=
  fold_left (fun totals category => assocSet category (columnTotal employeeData category) totals)
    taskCategories [].

End TotalsByCategory.

(** No cell of the column is text, in any of the rows. *)
Definition columnIsNumeric (rows : list Row) (column : string) : Prop :=
  ∀ row, row ∈ rows → ∀ s, orZero (prop row column) ≠ VStr s.

(** No cell of the column is below zero. *)
Definition columnIsNonNegative (rows : list Row) (column : string) : Prop :=
  ∀ row, row ∈ rows → (0 ≤ numberOf (orZero (prop row column)))%Qc.

(** ** pages/metrics-dashboard: the data of the bar chart *)

Module Bar.
(** A bar of the category level; [cost] is [None] when it is NaN, which it is
    once a task without a cost was added. *)
Record item : Type := mk { name : string; hours : Qc; cost : option Qc; type : string }.
End Bar.

(** [list.indexOf(x)], [None] for -1. *)
Fixpoint indexOf (x : string) (l : list string) : option nat :=
  match l with
  | [] => None
  | y :: l' => if bool_decide (y = x) then Some 0%nat else S <$> indexOf x l'
  end.

Definition ofNat (n : nat) : Qc := Q2Qc (inject_Z (Z.of_nat n)).

Section BarData.

Variable TASK_CATEGORIES : list (string * list string).
Variable TASK_ORDER : list string.

(** [categoryData], one bar per category, all at zero. *)
Definition emptyCategoryData : list (string * Bar.item) :=
  fold_left (fun categoryData category =>
               assocSet category (Bar.mk category 0%Qc (Some 0%Qc) category) categoryData)
    (map fst TASK_CATEGORIES) [].

(** [categoryData[category].hours += task.hours; categoryData[category].cost += task.cost] *)
Definition addTaskToBar (task : Activity.t) (bar : Bar.item) : Bar.item :=
  {| Bar.name := Bar.name bar;
     Bar.hours := (Bar.hours bar + Activity.hours task)%Qc;
     Bar.cost := (c ← Bar.cost bar; t ← Activity.cost task; Some (c + t)%Qc);
     Bar.type := Bar.type bar |}.

(** One task of the breakdown, added to every category that lists it. *)
Definition aggregateTask (categoryData : list (string * Bar.item)) (task : Activity.t)
    : list (string * Bar.item) :=
  fold_left (fun categoryData '(category, tasks) =>
               if bool_decide (Activity.name task ∈ tasks)
               then assocUpdate category (addTaskToBar task) categoryData
               else categoryData)
    TASK_CATEGORIES categoryData.

(** [(a, b) => b.hours - a.hours] on bars *)
Definition byBarHoursDescending (a b : Bar.item) : option Qc :=
  Some (Bar.hours b - Bar.hours a)%Qc.

(** [barData] at category level: the categories with hours, by hours, descending. *)
Definition categoryBarData (detailedBreakdown : list Activity.t) : list Bar.item :=
  jsSort byBarHoursDescending
    (filter (fun bar => (0 < Bar.hours bar)%Qc)
       (map snd (fold_left aggregateTask detailedBreakdown emptyCategoryData))).

(** The comparator of the task level: tasks of [TASK_ORDER] first and in that
    order, the others after them by hours, descending. *)
Definition byTaskOrder (a b : Activity.t) : option Qc :=
  match indexOf (Activity.name a) TASK_ORDER, indexOf (Activity.name b) TASK_ORDER with
  | Some indexA, Some indexB => Some (ofNat indexA - ofNat indexB)%Qc
  | Some _, None => Some (- 1)%Qc
  | None, Some _ => Some 1%Qc
  | None, None => Some (Activity.hours b - Activity.hours a)%Qc
  end.

(** [barData] at task level: a sorted copy of the breakdown. *)
Definition taskBarData (detailedBreakdown : list Activity.t) : list Activity.t :=
  jsSort byTaskOrder detailedBreakdown.

End BarData.

(** [a] may stand before [b] in the task-level order. *)
Definition taskOrderLe (TASK_ORDER : list string) (a b : Activity.t) : Prop :=
  match indexOf (Activity.name a) TASK_ORDER, indexOf (Activity.name b) TASK_ORDER with
  | Some indexA, Some indexB => (indexA ≤ indexB)%nat
  | Some _, None => True
  | None, Some _ => False
  | None, None => (Activity.hours b ≤ Activity.hours a)%Qc
  end.

(** ** services/utils.js: validateWeekSelection *)

Definition validateWeekSelection (host : Host) (startWeek endWeek : string) : bool :=
  if bool_decide (startWeek = "all") || bool_decide (endWeek = "all") then true
  else leZero (compareWeekRanges host (VStr startWeek) (VStr endWeek)).

(** The label has a month and day the parser turns into a date. *)
Definition hasValidDate (host : Host) (label : jsval) : Prop :=
  is_Some (parseStartDateFromWeekRange host label).

(** ** Reference quantities for the per-employee breakdown *)

(** The hours and the cost that the per-employee shares of a bucket add up to. *)
Definition sharesHours (shares : gmap string EmployeeShare) : Qc :=
  map_fold (fun _ share acc => (hours share + acc)%Qc) 0%Qc shares.

Definition sharesCost (shares : gmap string EmployeeShare) : Qc :=
  map_fold (fun _ share acc => (cost share + acc)%Qc) 0%Qc shares.

(** The employee key of a row: its user, lower-cased, up to the first [@]. *)
Definition employeeKeyOf (row : Row) : option string :=
  match prop row "User" with
  | VStr s => Some (normalizeName s)
  | _ => None
  end.

(** A row with a column that the first row does not have. *)
Definition lunchRow : Row :=
  [ ("User", VStr "kyle@x.com");
    ("BD - Research", VNum (Q2Qc 1));
    ("Lunch", VNum (Q2Qc 8));
    ("Week Range", VStr "Mar 17 – Mar 22 (2025)") ].

(** A row with a correction, entered as negative hours. *)
Definition correctionRow : Row :=
  [ ("User", VStr "kyle@x.com");
    ("BD - Research", VNum (Q2Qc (-1)));
    ("Week Range", VStr "Mar 17 – Mar 22 (2025)") ].

(** A row with a note where hours belong. *)
Definition noteRow : Row :=
  [ ("User", VStr "kyle@x.com");
    ("BD - Research", VStr "n/a");
    ("Week Range", VStr "Mar 17 – Mar 22 (2025)") ].

(** ** Reference quantities for the bar chart *)






(** A breakdown with a task that the order list does not have. *)
Definition mixedBreakdown : list Activity.t :=
  [ Activity.mk "Lunch" (Q2Qc 1) None "";
    Activity.mk "Admin" (Q2Qc 2) None "Internal Operations";
    Activity.mk "Walk" (Q2Qc 3) None "";
    Activity.mk "BD - Research" (Q2Qc 5) None "Business Development" ].

(** ** config/metrics-config.js: TASK_ORDER *)

Module MetricsOrder.

Definition TASK_ORDER : list string :=
  [ "BD - Research"; "BD - Emailing"; "BD - Calls"; "BD - Internal Call";
    "Congress - Research"; "Congress - Emailing"; "Congress - Calls";
    "Congress - Internal Call";
    "Social Management"; "Social Content - Research"; "Social Content - Scripting";
    "Social Content - Recording"; "Social Content - Video Editing";
    "Social Content - Graphic Design"; "Social - Internal Call";
    "Influencer Outreach"; "Influencer - Internal Call";
    "Newsletter - Writing/Editing"; "Newsletter - Operations";
    "Newsletter - Internal Call";
    "Misc. Content"; "Misc. Research";
    "Internal Meetings"; "Admin"; "Operations"; "Customer Support";
    "Ads" ].

End MetricsOrder.

(** ** Reference predicates for the filters *)

(** The row is not before the start week; no bound when the start is "all". *)
Definition fromWeek (host : Host) (startWeek : string) (row : Row) : Prop :=
  startWeek = "all"
  ∨ geZero (compareWeekRanges host (prop row "Week Range") (VStr startWeek)) = true.

(** The row is not after the end week; no bound when the end is "all". *)
Definition untilWeek (host : Host) (endWeek : string) (row : Row) : Prop :=
  endWeek = "all"
  ∨ leZero (compareWeekRanges host (prop row "Week Range") (VStr endWeek)) = true.

Global Instance fromWeek_dec host startWeek row : Decision (fromWeek host startWeek row).
Proof. unfold fromWeek. apply _. Defined.

Global Instance untilWeek_dec host endWeek row : Decision (untilWeek host endWeek row).
Proof. unfold untilWeek. apply _. Defined.

(** The user of the row is text that, lower-cased, satisfies [p]. *)
Definition userMatches (p : string -> bool) (row : Row) : bool :=
  match prop row "User" with
  | VStr s => p (toLowerCase s)
  | _ => false
  end.

(** A filter state with the task category set and nothing else. *)
Definition onlyTaskCategory (category : string) : FilterState :=
  {| activeEmployee := "all"; dateRangeStart := "all"; dateRangeEnd := "all";
     searchQuery := ""; taskCategory := category |}.

(** A filter state with the employee set and nothing else. *)
Definition onlyEmployee (name : string) : FilterState :=
  {| activeEmployee := name; dateRangeStart := "all"; dateRangeEnd := "all";
     searchQuery := ""; taskCategory := "all" |}.

(** A row that has the task column but no hours in it. *)
Definition idleRow : Row :=
  [ ("User", VStr "kyle@x.com");
    ("BD - Research", VNum 0%Qc);
    ("Week Range", VStr "Mar 10 – Mar 15 (2025)") ].

(** A row whose week label spells the month in a way the month table lacks. *)
Definition septRow : Row :=
  [ ("User", VStr "kyle@x.com");
    ("BD - Research", VNum (Q2Qc 2));
    ("Week Range", VStr "Sept 1 – Sept 6 (2025)") ].

(** ** utils/color-utils.js: clearColorCaches *)

(** [Object.keys(cache).forEach(key => delete cache[key])] *)
Definition deleteAllKeys (cache : gmap string string) : gmap string string :=
  foldr (fun key m => delete key m) cache (map fst (map_to_list cache)).

Definition clearColorCaches (c : ColorCaches) : ColorCaches :=
  {| TASK_COLOR_CACHE := deleteAllKeys (TASK_COLOR_CACHE c);
     TASK_BORDER_COLOR_CACHE := deleteAllKeys (TASK_BORDER_COLOR_CACHE c);
     CATEGORY_COLOR_CACHE := deleteAllKeys (CATEGORY_COLOR_CACHE c);
     CATEGORY_BORDER_COLOR_CACHE := deleteAllKeys (CATEGORY_BORDER_COLOR_CACHE c) |}.

(** The caches [c] with the entries of [writes] written over them. *)
Definition overlay (writes c : ColorCaches) : ColorCaches :=
  {| TASK_COLOR_CACHE := TASK_COLOR_CACHE writes ∪ TASK_COLOR_CACHE c;
     TASK_BORDER_COLOR_CACHE := TASK_BORDER_COLOR_CACHE writes ∪ TASK_BORDER_COLOR_CACHE c;
     CATEGORY_COLOR_CACHE := CATEGORY_COLOR_CACHE writes ∪ CATEGORY_COLOR_CACHE c;
     CATEGORY_BORDER_COLOR_CACHE :=
       CATEGORY_BORDER_COLOR_CACHE writes ∪ CATEGORY_BORDER_COLOR_CACHE c |}.

(** Colours of a configuration in which the third category has lost its
    colour. *)
Definition brokenColors : list (string * string) :=
  [ ("Business Development", "#4CAF50");
    ("Congress", "#2196F3");
    ("Social Media", "");
    ("Influencer", "#9C27B0") ].

(** ** The data caching utility: DataCache

    The clock is an argument: [now] is what [Date.now()] returns at the
    call. [get] evicts, so it returns the cache along with the value. *)

Module DataCache.

Section WithValues.

(** The values other than [null]. *)
Variable V : Type.

(** What [get] returns: [null] or a value. *)
Inductive cached : Type :=
| Null
| Value (v : V).

Record item : Type := mkItem { value : cached; timestamp : Z; itemTtl : Z }.

Record t : Type := mk { cache : gmap string item; ttl : Z }.

(** [new DataCache(ttl)], five minutes when [ttl] is left out. *)
Definition new (ttl : option Z) : t := mk ∅ (default (5 * 60 * 1000)%Z ttl).

(** [customTtl || this.ttl]: an absent and a zero [customTtl] are falsy. *)
Definition ttlFor (c : t) (customTtl : option Z) : Z :=
  match customTtl with
  | Some custom => if bool_decide (custom = 0%Z) then ttl c else custom
  | None => ttl c
  end.

Definition set (now : Z) (key : string) (v : cached) (customTtl : option Z) (c : t) : t :=
  mk (<[key := mkItem v now (ttlFor c customTtl)]> (cache c)) (ttl c).

(** [Date.now() - item.timestamp > item.ttl] *)
Definition isExpired (now : Z) (i : item) : bool := bool_decide (itemTtl i < now - timestamp i)%Z.

Definition get (now : Z) (key : string) (c : t) : cached * t :=
  match cache c !! key with
  | None => (Null, c)
  | Some i =>
      if isExpired now i then (Null, mk (base.delete key (cache c)) (ttl c))
      else (value i, c)
  end.

(** [this.get(key) !== null] *)
Definition has (now : Z) (key : string) (c : t) : bool * t :=
  let '(v, c') := get now key c in
  (match v with Null => false | Value _ => true end, c').

Definition delete (key : string) (c : t) : t := mk (base.delete key (cache c)) (ttl c).

Definition clear (c : t) : t := mk ∅ (ttl c).

Record stats : Type := mkStats {
  totalItems : nat;
  expiredItems : nat;
  activeItems : nat;
  hitRate : Qc
}.

(** One turn of [this.cache.forEach((item, key) => ...)]. *)
Definition count (now : Z) (i : item) (counts : nat * nat * nat) : nat * nat * nat :=
  let '(total, expired, active) := counts in
  if isExpired now i then (S total, S expired, active) else (S total, expired, S active).

Definition getStats (now : Z) (c : t) : stats :=
  let '(total, expired, active) :=
    map_fold (fun _ i counts => count now i counts) (0, 0, 0)%nat (cache c) in
  mkStats total expired active
    (if (0 <? total)%nat then (ofNat active / ofNat total)%Qc else 0%Qc).

End WithValues.

Arguments Null {V}.
Arguments Value {V} v.

End DataCache.

(** ** modules/chart-renderer.js: the cache of chart data *)

Section ChartDataCache.

(** The data of a chart. *)
Variable V : Type.

(** [getCachedChartData(cacheKey, calculateFn)]: the outcome and the cache
    after the call. The calculation runs only on a miss; what it throws
    passes through and nothing is cached. *)
Definition getCachedChartData (cacheKey : string) (calculateFn : unit -> result V)
    (chartDataCache : gmap string V) : result V * gmap string V :=
  match chartDataCache !! cacheKey with
  | Some data => (Ok data, chartDataCache)
  | None =>
      match calculateFn tt with
      | Ok data => (Ok data, <[cacheKey := data]> chartDataCache)
      | Throw e => (Throw e, chartDataCache)
      end
  end.

(** [for (const key of chartDataCache.keys()) if (key.startsWith(employeeName)) chartDataCache.delete(key)] *)
Definition deleteWithPrefix (employeeName : string) (chartDataCache : gmap string V)
    : gmap string V :=
  foldr (fun key m => if String.prefix employeeName key then delete key m else m)
    chartDataCache (map fst (map_to_list chartDataCache)).

(** [clearChartDataCache(employeeName)]: an absent and an empty name are
    falsy and clear everything. *)
Definition clearChartDataCache (employeeName : option string) (chartDataCache : gmap string V)
    : gmap string V :=
  match employeeName with
  | Some name => if bool_decide (name = "") then ∅ else deleteWithPrefix name chartDataCache
  | None => ∅
  end.

End ChartDataCache.

(** The key under which [initializeTaskPieChart] caches its data. *)
Definition pieCacheKey (employeeName globalLevelMode globalDisplayMode : string) : string :=
  employeeName ++ "-pie-" ++ globalLevelMode ++ "-" ++ globalDisplayMode.

(** ** Reference notions for the caches *)

(** The entries of the cache that are expired at [now]. *)
Definition expiredEntries {V} (now : Z) (c : DataCache.t V) : gmap string (DataCache.item V) :=
  filter (fun entry => DataCache.isExpired V now (snd entry) = true) (DataCache.cache V c).

(** The entries of the cache that are not expired at [now]. *)
Definition activeEntries {V} (now : Z) (c : DataCache.t V) : gmap string (DataCache.item V) :=
  filter (fun entry => DataCache.isExpired V now (snd entry) = false) (DataCache.cache V c).

(** A cache of chart data with the pie data of two employees. *)
Definition sampleChartCache : gmap string nat :=
  <[pieCacheKey "kyle" "task" "hours" := 1%nat]>
    (<[pieCacheKey "kyle" "category" "cost" := 2%nat]>
       (<[pieCacheKey "kylee" "task" "hours" := 3%nat]>
          (<[pieCacheKey "austin" "task" "hours" := 4%nat]> ∅))).

(** ** Sample data for the trend and the labels *)

(** The filtered rows span two weeks. *)
Definition twoWeekGlobals : Globals :=
  {| employeesData := [kyleRow; austinRow];
     filteredEmployeesData := [kyleRow; austinRow; kyleLaterRow];
     globalDisplayMode := DisplayHours;
     globalLevelMode := LevelCategory |}.

(** The rows of the employee shown on a tab: those whose user contains the
    name of the tab, both in lower case. *)
Definition rowsOfEmployee (employeeName : string) (rows : list Row) : list Row :=
  filter (fun row => userMatches (fun email => includes email (toLowerCase employeeName)) row
                     = true) rows.

(** The label of the total line of the trend chart. *)
Definition totalLabel (mode : DisplayMode) : string :=
  if bool_decide (mode = DisplayCost) then "Total Cost" else "Total Hours".

(** All characters of [s] satisfy [p]. *)
Fixpoint allChars (p : ascii -> bool) (s : string) : bool :=
  match s with
  | EmptyString => true
  | String c r => p c && allChars p r
  end.

(** [s] is empty or begins with a character that does not satisfy [p]. *)
Definition stopsAt (p : ascii -> bool) (s : string) : bool :=
  match s with
  | EmptyString => true
  | String c _ => negb (p c)
  end.

(** The year a label is read with: the first four digits in parentheses,
    else the current year. *)
Definition yearOfLabel (host : Host) (label : string) : Z :=
  match matchYear label with
  | Some y => digitsToZ y
  | None => currentYear host
  end.
(** ** config/chart-renderer.js: initializeTaskPieChart *)

(** What chart-renderer.js imports and declares at its top level. *)
Definition chartRendererScope : list string :=
  [ "CATEGORY_COLORS"; "EMPLOYEE_COLORS"; "TASK_CATEGORIES"; "TASK_ORDER"; "getHourlyRate";
    "TASK_COLOR_CACHE"; "TASK_BORDER_COLOR_CACHE"; "CATEGORY_COLOR_CACHE";
    "CATEGORY_BORDER_COLOR_CACHE"; "charts"; "commonChartConfig"; "chartDataCache";
    "debounce"; "getCachedChartData"; "clearChartDataCache"; "debouncedUpdateChart";
    "updateChartData"; "validateChartParams"; "getTooltipConfig"; "initializeColorCaches";
    "getCategoryColor"; "getCategoryBorderColor"; "getTaskColor"; "getTaskBorderColor";
    "adjustColor"; "cleanupChart"; "cleanupAllCharts"; "initializeTaskPieChart";
    "initializeBarChart"; "initializeTimeLineChart"; "initializeComparisonChart";
    "updateChartTitles" ].

(** The parts of the chart renderer that work on the page, the charts table
    and the chart-data cache. *)
Record Renderer : Type := mkRenderer {
  (* lines 317-443 of initializeTaskPieChart: validateChartParams,
     cleanupChart and getCachedChartData with the callback that looks the
     canvas up and prepares the data of the chart; any of them may throw *)
  prepareChartData : string -> DetailedTaskData -> LevelMode -> DisplayMode -> result unit;
  (* error.message *)
  messageOf : exn -> string;
  initializeBarChart :
    string -> list Bar.item + list Activity.t -> LevelMode -> DisplayMode -> result unit;
  initializeTimeLineChart :
    string -> list Dataset -> list jsval -> DisplayMode -> result unit
}.

(** The bindings in scope after the call of [getCachedChartData]: the
    parameters, [cacheKey], [chartData], the module. The [const pieCanvas] of
    line 327 belongs to the callback. *)
Definition pieChartScope : list string :=
  [ "employeeName"; "detailedTaskData"; "globalLevelMode"; "globalDisplayMode";
    "cacheKey"; "chartData"; "pieCtx" ] ++ chartRendererScope.

(** [initializeTaskPieChart]: the body in its [try], and the [catch] that
    throws a new Error with the message of the one caught. *)
Definition initializeTaskPieChart (renderer : Renderer) (employeeName : string)
    (detailedTaskData : DetailedTaskData) (globalLevelMode : LevelMode)
    (globalDisplayMode : DisplayMode) : result unit :=
  match
    (chartData ←
       prepareChartData renderer employeeName detailedTaskData globalLevelMode globalDisplayMode;
     pieCanvas ← reference pieChartScope "pieCanvas" tt;   (* pieCanvas.getContext('2d') *)
     Ok tt)                                                (* new Chart(pieCtx, ...) *)
  with
  | Ok chart => Ok chart
  | Throw error =>
      Throw (GenericError ("Pie chart initialization failed: " ++ messageOf renderer error))
  end.

(** ** pages/metrics-dashboard: initializeEmployeeCharts *)

Inductive ChartsOutcome : Type :=
| NoData                                          (* displayNoDataMessage *)
| Rendered (summary : Summary) (trend : TrendOutcome).

Section EmployeePage.

Variable host : Host.
Variable TASK_CATEGORIES : list (string * list string).
Variable TASK_ORDER : list string.
Variable renderer : Renderer.

(** The weekly-trend block (lines 1240-1432). *)
Definition weeklyTrend (g : Globals) (employeeName : string) (hourlyRate : Qc)
    (employeeData : list Row) (detailedBreakdown : list Activity.t) : result TrendOutcome :=
  let uniqueWeeks := uniqueWeeksOf employeeData in
  if bool_decide (1 < length uniqueWeeks)%nat then
    let weeks := jsSort (byDate host) uniqueWeeks in
    let byCost := bool_decide (globalDisplayMode g = DisplayCost) in
    datasets ←
      match globalLevelMode g with
      | LevelCategory => categoryDatasets TASK_CATEGORIES byCost hourlyRate weeks employeeData
      | LevelTask => taskDatasets byCost hourlyRate weeks employeeData detailedBreakdown
      end;
    _ ← initializeTimeLineChart renderer employeeName datasets weeks (globalDisplayMode g);
    Ok (TrendChart datasets weeks)
  else
    Ok (TrendUnavailable
          (match uniqueWeeks with
           | [week] => OnlyOneWeek employeeName week
           | _ => NoDataInRange
           end)).

Definition initializeEmployeeCharts (g : Globals) (employeeName : string)
    : result ChartsOutcome :=
  if bool_decide (length (employeesData g) = 0%nat) then Ok NoData
  else
    let taskCategories := getTaskCategories (employeesData g) in
    employeeData ←
      filterM (fun row => email ← valToLowerCase (prop row "User");
                          Ok (includes email (toLowerCase employeeName)))
        (filteredEmployeesData g);
    if bool_decide (length employeeData = 0%nat) then Ok NoData
    else
      detailedTaskData ← calculateDetailedTaskData employeeData taskCategories;
      let totalsByCategory :=
        map (fun task => (task, default 0%Qc (totalHours <$> assoc task detailedTaskData)))
          taskCategories in
      let detailedBreakdown := breakdownOf TASK_CATEGORIES detailedTaskData in
      hourlyRate ← getHourlyRate (VStr employeeName);
      summary ← updateEmployeeSummary g employeeName totalsByCategory detailedBreakdown;
      _ ← initializeTaskPieChart renderer employeeName detailedTaskData
            (globalLevelMode g) (globalDisplayMode g);
      let barData :=
        match globalLevelMode g with
        | LevelCategory => inl (categoryBarData TASK_CATEGORIES detailedBreakdown)
        | LevelTask => inr (taskBarData TASK_ORDER detailedBreakdown)
        end in
      _ ← initializeBarChart renderer employeeName barData
            (globalLevelMode g) (globalDisplayMode g);
      trend ← weeklyTrend g employeeName hourlyRate employeeData detailedBreakdown;
      Ok (Rendered summary trend).

End EmployeePage.

(** A renderer whose data preparation succeeds and whose charts draw. *)
Definition drawingRenderer : Renderer :=
  {| prepareChartData := fun _ _ _ _ => Ok tt;
     messageOf := fun error =>
       match error with
       | ReferenceError identifier => identifier ++ " is not defined"
       | GenericError message => message
       | _ => ""
       end;
     initializeBarChart := fun _ _ _ _ => Ok tt;
     initializeTimeLineChart := fun _ _ _ _ => Ok tt |}.

(** ** Names every object inherits

    The tables of the program are object literals, so [table[name]] finds,
    besides the entries of the table, the members of [Object.prototype]. No
    module of the program creates an object without prototype or asks
    [hasOwnProperty] before it reads a table. *)
Definition objectPrototypeMembers : list string :=
  [ "constructor"; "__proto__"; "hasOwnProperty"; "isPrototypeOf"; "propertyIsEnumerable";
    "toString"; "toLocaleString"; "valueOf";
    "__defineGetter__"; "__defineSetter__"; "__lookupGetter__"; "__lookupSetter__" ].

(** The text is plain ASCII, where [toLowerCase] changes the letters A to Z
    and nothing else. *)
Definition asciiText (s : string) : bool :=
  allChars (fun c => (nat_of_ascii c <? 128)%nat) s.

(** The user of the row is ASCII text whose employee key is not a name every
    object inherits. *)
Definition ordinaryUser (row : Row) : Prop :=
  ∃ s : string,
    prop row "User" = VStr s ∧ asciiText s = true ∧ normalizeName s ∉ objectPrototypeMembers.

(** The cell holds no hours, or a number of quarter hours, at most [2^20] of
    them. *)
Definition quarterHours (v : jsval) : Prop :=
  ∃ n : Z, orZero v = VNum (Q2Qc (n # 4)) ∧ (Z.abs n ≤ 2 ^ 20)%Z.

(** Hours as time sheets record them: every cell of the columns [tasks]
    holds quarter hours, and there are at most [2^20] such cells. Every sum
    of such hours, and of their costs at the configured rates, is then a
    multiple of 1/8 below [2^50], which a double holds exactly: the numbers
    the code computes are the rationals of the embedding. *)
Definition timeSheetHours (rows : list Row) (tasks : list string) : Prop :=
  Forall (fun row => Forall (fun task => quarterHours (prop row task)) tasks) rows
  ∧ (Z.of_nat (length rows) * Z.of_nat (length tasks) ≤ 2 ^ 20)%Z.

(** ** The rate table, entry by entry

    [EMPLOYEE_RATES] of config/metrics-config.js as a function of the name:
    the rate the table lists under it, if any. *)


(** ** The aggregation on doubles and plain objects

    The embedding above reads the numbers of the program as exact rationals
    and its tables by their own entries. This module embeds [getHourlyRate],
    [calculateDetailedTaskData] and [calculateTotalsByType] once more as the
    language runs them: numbers are IEEE doubles, text cells go through
    ToNumber and [+] concatenates once an operand is text, and a table read
    finds the members every object inherits. It serves to evaluate the code
    at inputs where the two readings differ. *)

Module Doubles.

Import PrimFloat.

Inductive value : Type :=
| Undefined
| Null
| Bool (b : bool)
| Num (x : float)
| Str (s : string)
| Member (name : string).   (* what [Object.prototype] holds under [name]: a function or an object *)

Definition Row : Type := list (string * value).

(** What the engine does with text beyond the embedding. *)
Record Engine : Type := mkEngine {
  stringToNumber : string -> float;      (* ToNumber of text *)
  numberToString : float -> string;      (* ToString of a number *)
  memberToString : string -> string;     (* ToString of an inherited member *)
  lowerCaseOf : string -> string         (* toLowerCase of text that is not ASCII *)
}.

Definition truthy (v : value) : bool :=
  match v with
  | Undefined | Null => false
  | Bool b => b
  | Num x => negb (PrimFloat.eqb x 0%float || PrimFloat.is_nan x)
  | Str s => negb (bool_decide (s = ""))
  | Member _ => true
  end.

(** [a || b] *)
Definition orElse (a b : value) : value := if truthy a then a else b.

(** [table[k]] on a plain object with the own entry [own]: the own entry,
    else the inherited member, else undefined. A plain object keeps no entry
    of its own under [__proto__]. *)
Definition read (own : option value) (k : string) : value :=
  if bool_decide (k = "__proto__") then Member k
  else match own with
       | Some v => v
       | None => if bool_decide (k ∈ objectPrototypeMembers) then Member k else Undefined
       end.

(** [row[k]] *)
Definition prop (row : Row) (k : string) : value := read (assoc k row) k.

Section WithEngine.

Variable engine : Engine.

(** ToNumber; an inherited member converts through its text, which is no number. *)
Definition toNumber (v : value) : float :=
  match v with
  | Undefined => PrimFloat.nan
  | Null => 0%float
  | Bool b => if b then 1%float else 0%float
  | Num x => x
  | Str s => stringToNumber engine s
  | Member _ => PrimFloat.nan
  end.

Definition toText (v : value) : string :=
  match v with
  | Undefined => "undefined"
  | Null => "null"
  | Bool b => if b then "true" else "false"
  | Num x => numberToString engine x
  | Str s => s
  | Member name => memberToString engine name
  end.

Definition isText (v : value) : bool :=
  match v with
  | Str _ | Member _ => true
  | _ => false
  end.

(** [a + b]: concatenation once an operand is text, else the sum of the numbers. *)
Definition plus (a b : value) : value :=
  if isText a || isText b then Str (toText a ++ toText b)
  else Num (PrimFloat.add (toNumber a) (toNumber b)).

(** [v > 0] *)
Definition gtZero (v : value) : bool := PrimFloat.ltb 0%float (toNumber v).

(** [s.toLowerCase()] *)
Definition toLowerCase (s : string) : string :=
  if asciiText s then toLowerCase s else lowerCaseOf engine s.

(** [v.toLowerCase()] on a value: only a string has the method. *)
Definition valToLowerCase (v : value) : result string :=
  match v with
  | Str s => Ok (toLowerCase s)
  | _ => Throw TypeError
  end.

(** config/metrics-config.js *)
Definition EMPLOYEE_RATES : list (string * float) :=
  [ ("victoria", 16.5%float);
    ("kyle", 20%float);
    ("brooke", 25%float);
    ("melanie", 25%float);
    ("austin", 35%float);
    ("default", 25%float) ].

(** [EMPLOYEE_RATES[name]] *)
Definition rateEntry (name : string) : value := read (Num <$> assoc name EMPLOYEE_RATES) name.

Definition getHourlyRate (employeeName : value) : result value :=
  if negb (truthy employeeName) then Ok (rateEntry "default")
  else
    lowered ← valToLowerCase employeeName;
    let normalizedName := splitFirst "@"%char lowered in
    Ok (orElse (rateEntry normalizedName) (rateEntry "default")).

Record EmployeeShare : Type := mkShare { hours : value; cost : float }.

(** [byEmployee] holds the shares the function has created; what it reads
    and writes through an inherited name is not among them. *)
Record TaskBucket : Type := mkBucket {
  totalHours : value;
  totalCost : float;
  byEmployee : list (string * EmployeeShare)
}.

Definition emptyBucket : TaskBucket :=
  {| totalHours := Num 0%float; totalCost := 0%float; byEmployee := [] |}.

Definition DetailedTaskData : Type := list (string * TaskBucket).

(** The body of [if (hours > 0) { ... }] for one task bucket. When
    [byEmployee[employeeName]] is an inherited member the test
    [!byEmployee[employeeName]] fails, no share is created and the two [+=]
    land on the member, outside the buckets. *)
Definition addToBucket (employeeName : string) (hourlyRate h : value) (b : TaskBucket)
    : TaskBucket :=
  let c := PrimFloat.mul (toNumber h) (toNumber hourlyRate) in
  {| totalHours := plus (totalHours b) h;
     totalCost := PrimFloat.add (totalCost b) c;
     byEmployee :=
       match assoc employeeName (byEmployee b) with
       | Some share =>
           assocSet employeeName
             (mkShare (plus (hours share) h) (PrimFloat.add (cost share) c)) (byEmployee b)
       | None =>
           if bool_decide (employeeName ∈ objectPrototypeMembers) then byEmployee b
           else assocSet employeeName
                  (mkShare (plus (Num 0%float) h) (PrimFloat.add 0%float c)) (byEmployee b)
       end |}.

(** One turn of the inner [taskCategories.forEach(task => ...)]. *)
Definition processCell (row : Row) (employeeName : string) (hourlyRate : value)
    (d : DetailedTaskData) (task : string) : DetailedTaskData :=
  let h := orElse (prop row task) (Num 0%float) in
  if gtZero h then assocUpdate task (addToBucket employeeName hourlyRate h) d
  else d.

(** One turn of the outer [employeeData.forEach(row => ...)]. *)
Definition processRow (taskCategories : list string) (d : DetailedTaskData) (row : Row)
    : result DetailedTaskData :=
  lowered ← valToLowerCase (prop row "User");
  let employeeName := splitFirst "@"%char lowered in
  hourlyRate ← getHourlyRate (Str employeeName);
  Ok (fold_left (processCell row employeeName hourlyRate) taskCategories d).

Definition initialTaskData (taskCategories : list string) : DetailedTaskData :=
  fold_left (fun d task => assocSet task emptyBucket d) taskCategories [].

(** The buckets as [detailedTaskData[task]] reads them. *)
Definition calculateDetailedTaskData (employeeData : list Row) (taskCategories : list string)
    : result DetailedTaskData :=
  foldM (processRow taskCategories) employeeData (initialTaskData taskCategories).

(** [totalsByCategory[task] = detailedTaskData[task].totalHours]; the
    assignment of a number or a text under [__proto__] leaves no entry. *)
Definition taskTotals (detailedTaskData : DetailedTaskData) : list (string * value) :=
  map (fun '(task, b) => (task, totalHours b))
    (filter (fun '(task, _) => task ≠ "__proto__") detailedTaskData).

(** [categories.reduce((sum, category) => sum + (totalsByCategory[category] || 0), 0)] *)
Definition typeTotal (totalsByCategory : list (string * value)) (categories : list string)
    : value :=
  fold_left (fun sum category =>
               plus sum (orElse (read (assoc category totalsByCategory) category) (Num 0%float)))
    categories (Num 0%float).

Definition calculateTotalsByType (TASK_CATEGORIES : list (string * list string))
    (totalsByCategory : list (string * value)) : list (string * value) :=
  map (fun '(type, categories) => (type, typeTotal totalsByCategory categories))
    TASK_CATEGORIES.

(** [Object.values(totals).reduce((sum, hours) => sum + hours, 0)] *)
Definition sumValues (totals : list (string * value)) : value :=
  fold_left (fun sum '(_, x) => plus sum x) totals (Num 0%float).

End WithEngine.

(** A row of kyle with two hours of research, as the specification gives it. *)
Definition kyleRow : Row :=
  [ ("User", Str "kyle@x.com");
    ("BD - Research", Num 2%float);
    ("Week Range", Str "Mar 10 – Mar 15 (2025)") ].

(** The same hours, booked by a user whose address begins with a name every
    object inherits. *)
Definition constructorRow : Row :=
  [ ("User", Str "constructor@x.com");
    ("BD - Research", Num 2%float);
    ("Week Range", Str "Mar 10 – Mar 15 (2025)") ].

(** Hours in tenths, in three columns of one category, in the order of the sheet. *)
#[warnings="-inexact-float"] Definition tenthsRow : Row :=
  [ ("User", Str "kyle@x.com");
    ("BD - Calls", Num 0.3%float);
    ("BD - Emailing", Num 0.2%float);
    ("BD - Research", Num 0.1%float);
    ("Week Range", Str "Mar 10 – Mar 15 (2025)") ].

(** Hours in quarters, in the same three columns. *)
Definition quartersRow : Row :=
  [ ("User", Str "kyle@x.com");
    ("BD - Calls", Num 0.75%float);
    ("BD - Emailing", Num 0.5%float);
    ("BD - Research", Num 0.25%float);
    ("Week Range", Str "Mar 10 – Mar 15 (2025)") ].

(** Hours that the sheet holds as the text [+5], which Papa Parse leaves as
    text. *)
Definition plusFiveRow : Row :=
  [ ("User", Str "kyle@x.com");
    ("BD - Research", Str "+5");
    ("Week Range", Str "Mar 10 – Mar 15 (2025)") ].

(** An engine as far as [plusFiveRow] needs it: ToNumber of [+5] is 5 and
    ToString of 0 is [0]. *)
Definition plusFiveEngine : Engine :=
  {| stringToNumber := fun s => if bool_decide (s = "+5") then 5%float else PrimFloat.nan;
     numberToString := fun x => if PrimFloat.eqb x 0%float then "0" else "";
     memberToString := fun _ => "";
     lowerCaseOf := fun s => s |}.

(** The doubles next to six tenths: [0.6] and the one above it. *)
#[warnings="-inexact-float"] Definition sixTenths : float := 0.6%float.
#[warnings="-inexact-float"] Definition aboveSixTenths : float := 0.6000000000000001%float.

End Doubles.

(** * Properties *)

(** ** Strings and names *)

Lemma lowerAscii_idem (c : ascii) : lowerAscii (lowerAscii c) = lowerAscii c.
Proof. destruct c as [[] [] [] [] [] [] [] []]; reflexivity. Qed.

Lemma lowerAscii_at (c : ascii) : lowerAscii c = "@"%char ↔ c = "@"%char.
Proof. destruct c as [[] [] [] [] [] [] [] []]; split; intros H; (reflexivity || discriminate H). Qed.

Lemma toLowerCase_idem (s : string) : toLowerCase (toLowerCase s) = toLowerCase s.
Proof. induction s as [|c s IH]; simpl; [reflexivity|]. by rewrite lowerAscii_idem, IH. Qed.

Lemma splitFirst_idem (s : string) : splitFirst "@"%char (splitFirst "@"%char s) = splitFirst "@"%char s.
Proof.
  induction s as [|c s IH]; simpl; [reflexivity|].
  case_bool_decide as Hc; simpl; [reflexivity|].
  rewrite bool_decide_false by exact Hc. by rewrite IH.
Qed.

Lemma toLowerCase_splitFirst (s : string) :
  toLowerCase (splitFirst "@"%char s) = splitFirst "@"%char (toLowerCase s).
Proof.
  induction s as [|c s IH]; simpl; [reflexivity|].
  destruct (decide (c = "@"%char)) as [->|Hc].
  - reflexivity.
  - rewrite !bool_decide_false; [|by rewrite lowerAscii_at|exact Hc].
    simpl. by rewrite IH.
Qed.

Lemma normalizeName_idem (s : string) : normalizeName (normalizeName s) = normalizeName s.
Proof.
  unfold normalizeName.
  by rewrite toLowerCase_splitFirst, toLowerCase_idem, splitFirst_idem.
Qed.



Lemma defaultRate_value : defaultRate = Q2Qc 25.
Proof. reflexivity. Qed.

Lemma getHourlyRate_text (s : string) :
  getHourlyRate (VStr s) = Ok (rateOrDefault (normalizeName s)).
Proof.
  unfold getHourlyRate. simpl.
  destruct s as [|c s]; [reflexivity|].
  rewrite bool_decide_false by discriminate. reflexivity.
Qed.









(** ** Ordered dictionaries *)

Section Assoc.

Context {V : Type}.
Implicit Types (o : list (string * V)) (k : string).

Lemma assoc_update_eq k (f : V → V) o : assoc k (assocUpdate k f o) = f <$> assoc k o.
Proof.
  induction o as [|[k' v] o IH]; simpl; [reflexivity|].
  case_bool_decide as E; simpl.
  - by rewrite bool_decide_true.
  - by rewrite bool_decide_false.
Qed.

Lemma assoc_update_ne k k' (f : V → V) o :
  k ≠ k' → assoc k' (assocUpdate k f o) = assoc k' o.
Proof.
  intros Hne. induction o as [|[k0 v] o IH]; simpl; [reflexivity|].
  case_bool_decide as E; simpl.
  - subst k0. by rewrite !bool_decide_false.
  - by rewrite IH.
Qed.

Lemma keys_update k (f : V → V) o : map fst (assocUpdate k f o) = map fst o.
Proof.
  induction o as [|[k0 v] o IH]; simpl; [reflexivity|].
  case_bool_decide; simpl; [reflexivity|]. by rewrite IH.
Qed.

Lemma assocSet_fresh k (v : V) o : k ∉ map fst o → assocSet k v o = (o ++ [(k, v)])%list.
Proof.
  induction o as [|[k0 v0] o IH]; simpl; intros Hk; [reflexivity|].
  apply not_elem_of_cons in Hk as [Hne Hk].
  rewrite bool_decide_false by (intros E; by apply Hne).
  rewrite IH by exact Hk. reflexivity.
Qed.

Lemma assoc_map_const (g : string → V) (l : list string) k :
  k ∈ l → assoc k (map (λ t, (t, g t)) l) = Some (g k).
Proof.
  induction l as [|a l IH]; simpl; intros Hk; [by apply elem_of_nil in Hk|].
  case_bool_decide as E; [by subst|].
  apply IH. apply elem_of_cons in Hk as [Hk|Hk]; [by destruct E|exact Hk].
Qed.

Lemma assoc_Some_elem k (v : V) o : assoc k o = Some v → (k, v) ∈ o.
Proof.
  induction o as [|[k0 v0] o IH]; simpl; [discriminate|].
  case_bool_decide as E.
  - intros [= ->]. subst. left.
  - intros H. right. by apply IH.
Qed.

Lemma assoc_None k o : k ∉ map fst o → assoc k o = None.
Proof.
  induction o as [|[k0 v0] o IH]; simpl; intros Hk; [reflexivity|].
  apply not_elem_of_cons in Hk as [Hne Hk].
  rewrite bool_decide_false by (intros E; by apply Hne). by apply IH.
Qed.

Lemma assoc_elem_NoDup k (v : V) o : NoDup (map fst o) → (k, v) ∈ o → assoc k o = Some v.
Proof.
  induction o as [|[k0 v0] o IH]; simpl; intros Hnd Hin.
  - by apply elem_of_nil in Hin.
  - apply NoDup_cons in Hnd as [Hk0 Hnd].
    apply elem_of_cons in Hin as [[= -> ->]|Hin].
    + by rewrite bool_decide_true.
    + rewrite bool_decide_false; [by apply IH|].
      intros ->. apply Hk0. apply (list_elem_of_fmap_2 fst) in Hin. exact Hin.
Qed.

End Assoc.

(** ** Sums of rationals *)

Lemma fold_left_plus_sumQc {A} (f : A → Qc) (l : list A) (a : Qc) :
  fold_left (λ sum x, (sum + f x)%Qc) l a = (a + sumQc (map f l))%Qc.
Proof.
  revert a. induction l as [|x l IH]; intros a; simpl.
  - ring.
  - rewrite IH. ring.
Qed.

Lemma sumValues_sumQc (o : list (string * Qc)) : sumValues o = sumQc (map snd o).
Proof.
  unfold sumValues.
  assert (H : ∀ a, fold_left (λ sum '(_, x), (sum + x)%Qc) o a = (a + sumQc (map snd o))%Qc).
  { induction o as [|[k x] o IH]; intros a; simpl; [ring|]. rewrite IH. ring. }
  rewrite H. ring.
Qed.

Lemma sumQc_app (l1 l2 : list Qc) : sumQc (l1 ++ l2) = (sumQc l1 + sumQc l2)%Qc.
Proof. induction l1 as [|x l1 IH]; simpl; [ring|]. rewrite IH. ring. Qed.

Lemma sumQc_nonneg (l : list Qc) : Forall (λ q, (0 ≤ q)%Qc) l → (0 ≤ sumQc l)%Qc.
Proof.
  induction 1 as [|q l Hq _ IH]; simpl; [apply Qcle_refl|].
  by apply Qcplus_nonneg_nonneg.
Qed.

(** ** calculateDetailedTaskData *)

Lemma initialTaskData_shape (tasks : list string) :
  NoDup tasks → initialTaskData tasks = map (λ t, (t, emptyBucket)) tasks.
Proof.
  unfold initialTaskData.
  assert (H : ∀ acc : DetailedTaskData,
             NoDup tasks → (∀ t, t ∈ tasks → t ∉ map fst acc) →
             fold_left (λ d task, assocSet task emptyBucket d) tasks acc
             = (acc ++ map (λ t, (t, emptyBucket)) tasks)%list).
  { induction tasks as [|a tasks IH]; intros acc Hnd Hfresh; simpl.
    - by rewrite app_nil_r.
    - apply NoDup_cons in Hnd as [Ha Hnd].
      rewrite assocSet_fresh by (apply Hfresh; left).
      rewrite IH; [by rewrite <- app_assoc|exact Hnd|].
      intros t Ht. rewrite map_app. simpl. intros Hin.
      apply elem_of_app in Hin as [Hin|Hin].
      + eapply Hfresh; [right; exact Ht|exact Hin].
      + apply list_elem_of_singleton in Hin. subst. contradiction. }
  intros Hnd. rewrite H; [reflexivity|exact Hnd|].
  intros t _ Hin. by apply elem_of_nil in Hin.
Qed.

Lemma processCell_keys row name rate d task :
  map fst (processCell row name rate d task) = map fst d.
Proof. unfold processCell. destruct (gtZero _); [apply keys_update|reflexivity]. Qed.

Lemma fold_processCell_keys row name rate tasks d :
  map fst (fold_left (processCell row name rate) tasks d) = map fst d.
Proof.
  revert d. induction tasks as [|a tasks IH]; intros d; simpl; [reflexivity|].
  by rewrite IH, processCell_keys.
Qed.

Lemma processCell_assoc row name rate d task t :
  assoc t (processCell row name rate d task)
  = (if bool_decide (task = t) then cellEffect row name rate t else id) <$> assoc t d.
Proof.
  unfold processCell, cellEffect, contributes, taskHoursOf.
  case_bool_decide as E.
  - subst t. destruct (gtZero _).
    + apply assoc_update_eq.
    + by destruct (assoc task d).
  - destruct (gtZero _).
    + rewrite assoc_update_ne by exact E. by destruct (assoc t d).
    + by destruct (assoc t d).
Qed.

Lemma fold_processCell_assoc row name rate tasks d t :
  NoDup tasks →
  assoc t (fold_left (processCell row name rate) tasks d)
  = (if bool_decide (t ∈ tasks) then cellEffect row name rate t else id) <$> assoc t d.
Proof.
  revert d. induction tasks as [|a tasks IH]; intros d Hnd; cbn [fold_left].
  - rewrite bool_decide_false by apply not_elem_of_nil. by destruct (assoc t d).
  - apply NoDup_cons in Hnd as [Ha Hnd].
    rewrite IH by exact Hnd. rewrite processCell_assoc.
    destruct (decide (a = t)) as [->|Hne].
    + rewrite (bool_decide_true (t = t)) by reflexivity.
      rewrite (bool_decide_false (t ∈ tasks)) by exact Ha.
      rewrite (bool_decide_true (t ∈ t :: tasks)) by left.
      by destruct (assoc t d).
    + rewrite (bool_decide_false (a = t)) by exact Hne.
      destruct (decide (t ∈ tasks)) as [Hin|Hnin].
      * rewrite !bool_decide_true; [|by right|exact Hin]. by destruct (assoc t d).
      * rewrite !bool_decide_false;
          [|intros Hc; apply elem_of_cons in Hc as [Hc|Hc]; [by destruct Hne|by destruct Hnin]
           |exact Hnin].
        by destruct (assoc t d).
Qed.

Lemma processRow_text tasks d row s :
  prop row "User" = VStr s →
  processRow tasks d row
  = Ok (fold_left (processCell row (normalizeName s) (rateOrDefault (normalizeName s))) tasks d).
Proof.
  intros Hs. unfold processRow. rewrite Hs. simpl.
  fold (normalizeName s). rewrite getHourlyRate_text. simpl.
  by rewrite normalizeName_idem.
Qed.

Lemma processRow_throws_TypeError tasks d row e :
  processRow tasks d row = Throw e → e = TypeError.
Proof.
  unfold processRow.
  destruct (prop row "User") as [| |b|q|s] eqn:Hu; simpl; try (by intros [= <-]).
  rewrite getHourlyRate_text. simpl. discriminate.
Qed.

Lemma expected_cons_hours row rows task :
  expectedTotalHours (row :: rows) task
  = ((if contributes task row then taskHoursOf task row else 0) + expectedTotalHours rows task)%Qc.
Proof.
  unfold expectedTotalHours, contributingRows. rewrite filter_cons.
  destruct (contributes task row) eqn:E.
  - rewrite decide_True by reflexivity. reflexivity.
  - rewrite decide_False by discriminate. ring.
Qed.

Lemma expected_cons_cost row rows task :
  expectedTotalCost (row :: rows) task
  = ((if contributes task row then taskHoursOf task row * rateOfRow row else 0)
     + expectedTotalCost rows task)%Qc.
Proof.
  unfold expectedTotalCost, contributingRows. rewrite filter_cons.
  destruct (contributes task row) eqn:E.
  - rewrite decide_True by reflexivity. reflexivity.
  - rewrite decide_False by discriminate. ring.
Qed.

(** The aggregation loop from any starting dictionary: it returns, keeps the
    keys, and adds to each task bucket the hours and the cost of the rows. *)
Lemma aggregate_rows (tasks : list string) (rows : list Row) :
  NoDup tasks → Forall userIsText rows →
  ∀ d : DetailedTaskData,
    ∃ d' : DetailedTaskData,
      foldM (processRow tasks) rows d = Ok d'
      ∧ map fst d' = map fst d
      ∧ (∀ t b, assoc t d = Some b →
           ∃ b', assoc t d' = Some b'
                 ∧ (t ∈ tasks →
                    totalHours b' = (totalHours b + expectedTotalHours rows t)%Qc
                    ∧ totalCost b' = (totalCost b + expectedTotalCost rows t)%Qc)
                 ∧ (t ∉ tasks → b' = b)).
Proof.
  intros Hnd Hrows. induction Hrows as [|row rows [s Hs] _ IH]; intros d.
  - exists d. split; [reflexivity|]. split; [reflexivity|].
    intros t b Hb. exists b. split; [exact Hb|]. split; [|reflexivity].
    intros _. unfold expectedTotalHours, expectedTotalCost. simpl. split; ring.
  - simpl. rewrite (processRow_text _ _ _ _ Hs). simpl.
    set (d1 := fold_left _ tasks d).
    destruct (IH d1) as (d' & Hrun & Hkeys & Hbuckets).
    exists d'. split; [exact Hrun|]. split.
    { rewrite Hkeys. apply fold_processCell_keys. }
    intros t b Hb.
    assert (H1 : assoc t d1
                 = Some ((if bool_decide (t ∈ tasks)
                          then cellEffect row (normalizeName s) (rateOrDefault (normalizeName s)) t
                          else id) b)).
    { unfold d1. rewrite fold_processCell_assoc by exact Hnd. by rewrite Hb. }
    destruct (Hbuckets _ _ H1) as (b' & Hb' & Hin & Hout).
    exists b'. split; [exact Hb'|]. split.
    + intros Ht. destruct (Hin Ht) as [Hh Hc].
      rewrite bool_decide_true in Hh, Hc by exact Ht.
      rewrite Hh, Hc, expected_cons_hours, expected_cons_cost.
      unfold cellEffect, rateOfRow. rewrite Hs.
      destruct (contributes t row); simpl; split; ring.
    + intros Ht. rewrite (Hout Ht). by rewrite bool_decide_false.
Qed.

Lemma processRow_ok_text tasks d row d' : processRow tasks d row = Ok d' → userIsText row.
Proof.
  unfold processRow, userIsText.
  destruct (prop row "User") as [| |b|q|s]; simpl; try discriminate. by exists s.
Qed.

Lemma foldM_ok_text tasks rows : ∀ d d', foldM (processRow tasks) rows d = Ok d' → Forall userIsText rows.
Proof.
  induction rows as [|row rows IH]; intros d d'; simpl; [by constructor|].
  destruct (processRow tasks d row) as [d1|e] eqn:E; simpl; [|discriminate].
  intros H. constructor; [by eapply processRow_ok_text|by eapply IH].
Qed.

Lemma calculateDetailedTaskData_text (rows : list Row) (tasks : list string) :
  Forall userIsText rows → NoDup tasks →
  ∃ d : DetailedTaskData,
    calculateDetailedTaskData rows tasks = Ok d
    ∧ map fst d = tasks
    ∧ ∀ task, task ∈ tasks →
        ∃ b, assoc task d = Some b
             ∧ totalHours b = expectedTotalHours rows task
             ∧ totalCost b = expectedTotalCost rows task.
Proof.
  intros Hrows Hnd. unfold calculateDetailedTaskData.
  destruct (aggregate_rows tasks rows Hnd Hrows (initialTaskData tasks))
    as (d & Hrun & Hkeys & Hbuckets).
  exists d. split; [exact Hrun|].
  rewrite initialTaskData_shape in Hkeys, Hbuckets by exact Hnd.
  split.
  { rewrite Hkeys, map_map. simpl. apply map_id. }
  intros task Htask.
  destruct (Hbuckets task emptyBucket) as (b & Hb & Hin & _).
  { by apply (assoc_map_const (λ _, emptyBucket)). }
  exists b. split; [exact Hb|].
  destruct (Hin Htask) as [Hh Hc]. rewrite Hh, Hc. simpl. split; ring.
Qed.

Lemma ordinaryUser_text (row : Row) : ordinaryUser row → userIsText row.
Proof. intros (s & Hs & _). by exists s. Qed.

Lemma ordinaryUsers_text (rows : list Row) : Forall ordinaryUser rows → Forall userIsText rows.
Proof. intros H. eapply Forall_impl; [exact H|]. apply ordinaryUser_text. Qed.

(** The user [s] of a sample row is ordinary; the cell of a sample row
    holds [n] quarter hours. *)
Ltac ordinary_user s :=
  exists s; split; [reflexivity|split; [reflexivity|apply (bool_decide_unpack _); by vm_compute]].
Ltac quarter_hours n :=
  exists n; split; [apply (f_equal VNum), Qc_is_canon; reflexivity|by vm_compute].

(** X30. For distinct task columns and time-sheet rows of ordinary users,
    [calculateDetailedTaskData] returns, and the bucket it holds for a task
    has as [totalHours] the sum, over the rows that contribute to the task,
    of the row's hours, and as [totalCost] the sum over those rows of the
    row's hours times the hourly rate of the row's own employee, not the
    total hours times one rate. *)
Theorem calculateDetailedTaskData_totals (rows : list Row) (tasks : list string) :
  NoDup tasks → Forall ordinaryUser rows → timeSheetHours rows tasks →
  ∃ d : DetailedTaskData,
    calculateDetailedTaskData rows tasks = Ok d
    ∧ ∀ task, task ∈ tasks →
        ∃ b, assoc task d = Some b
             ∧ totalHours b = expectedTotalHours rows task
             ∧ totalCost b = expectedTotalCost rows task.
Proof.
  intros Hnd Hrows _.
  destruct (calculateDetailedTaskData_text rows tasks (ordinaryUsers_text _ Hrows) Hnd)
    as (d & Hd & _ & Hb).
  by exists d.
Qed.

(** Two hours of kyle at 20 and one hour of austin at 35 on one task: 3
    hours and a cost of 75. *)
Lemma calculateDetailedTaskData_totals_witness :
  NoDup ["BD - Research"]
  ∧ Forall ordinaryUser [kyleRow; austinRow]
  ∧ timeSheetHours [kyleRow; austinRow] ["BD - Research"]
  ∧ ∃ d b, calculateDetailedTaskData [kyleRow; austinRow] ["BD - Research"] = Ok d
           ∧ assoc "BD - Research" d = Some b
           ∧ totalHours b = Q2Qc 3
           ∧ totalCost b = Q2Qc 75.
Proof.
  assert (H1 : NoDup ["BD - Research"]) by apply NoDup_singleton.
  assert (H2 : Forall ordinaryUser [kyleRow; austinRow]).
  { repeat constructor; [ordinary_user "kyle@x.com"|ordinary_user "Austin@x.com"]. }
  assert (H3 : timeSheetHours [kyleRow; austinRow] ["BD - Research"]).
  { split; [|by vm_compute].
    constructor; [constructor; [quarter_hours 8%Z|constructor]|].
    constructor; [constructor; [quarter_hours 4%Z|constructor]|constructor]. }
  split; [exact H1|]. split; [exact H2|]. split; [exact H3|].
  destruct (calculateDetailedTaskData_totals [kyleRow; austinRow] ["BD - Research"] H1 H2 H3)
    as (d & Hd & Hb).
  destruct (Hb "BD - Research") as (b & Hb1 & Hh & Hc); [left|].
  exists d, b. split; [exact Hd|]. split; [exact Hb1|].
  split; [rewrite Hh|rewrite Hc]; apply Qc_is_canon; reflexivity.
Defined.

(** Two employees on one task: the cost is 2 * 20 + 1 * 35, which is neither
    3 hours at kyle's rate nor 3 hours at austin's. *)
Example cost_is_per_row_rate :
  expectedTotalHours [kyleRow; austinRow] "BD - Research" = Q2Qc 3
  ∧ expectedTotalCost [kyleRow; austinRow] "BD - Research" = Q2Qc 75
  ∧ Q2Qc 75 ≠ (Q2Qc 3 * rateOfRow kyleRow)%Qc
  ∧ Q2Qc 75 ≠ (Q2Qc 3 * rateOfRow austinRow)%Qc.
Proof.
  repeat split; try (apply Qc_is_canon; reflexivity); intros E; discriminate E.
Qed.

(** ** A row without a user *)

Lemma processRow_absent tasks d row : userAbsent row → processRow tasks d row = Throw TypeError.
Proof. intros [H|H]; unfold processRow; rewrite H; reflexivity. Qed.

Lemma foldM_absent tasks rows :
  (∃ row, row ∈ rows ∧ userAbsent row) →
  ∀ d, foldM (processRow tasks) rows d = Throw TypeError.
Proof.
  induction rows as [|r rows IH]; intros (row & Hin & Habs) d.
  - by apply elem_of_nil in Hin.
  - simpl. destruct (processRow tasks d r) as [d1|e] eqn:E; simpl.
    + apply IH. exists row. split; [|exact Habs].
      apply elem_of_cons in Hin as [->|Hin]; [|exact Hin].
      rewrite processRow_absent in E by exact Habs. discriminate E.
    + by rewrite (processRow_throws_TypeError _ _ _ _ E).
Qed.

(** C4, as amended. A row set that holds a row whose [User] field is absent
    (undefined or null) makes the aggregation fail, and the failure is the
    TypeError of the property access, not a ValidationError. *)
Theorem absent_user_throws_TypeError (rows : list Row) (tasks : list string) :
  (∃ row, row ∈ rows ∧ userAbsent row) →
  calculateDetailedTaskData rows tasks = Throw TypeError.
Proof. intros H. unfold calculateDetailedTaskData. by apply foldM_absent. Qed.

Lemma absent_user_throws_TypeError_witness :
  (∃ row, row ∈ [kyleRow; anonymousRow] ∧ userAbsent row)
  ∧ calculateDetailedTaskData [kyleRow; anonymousRow] ["BD - Research"] = Throw TypeError.
Proof.
  assert (H : ∃ row, row ∈ [kyleRow; anonymousRow] ∧ userAbsent row).
  { exists anonymousRow. split; [right; left|left; reflexivity]. }
  split; [exact H|]. exact (absent_user_throws_TypeError _ _ H).
Defined.

(** C4, as stated, fails: the row without a user does not produce a
    ValidationError. *)
Lemma absent_user_not_ValidationError :
  ¬ (∀ (rows : list Row) (tasks : list string) (row : Row),
       row ∈ rows → userAbsent row →
       calculateDetailedTaskData rows tasks = Throw ValidationError).
Proof.
  intros H.
  specialize (H [anonymousRow] ["BD - Research"] anonymousRow).
  assert (E : calculateDetailedTaskData [anonymousRow] ["BD - Research"] = Throw TypeError)
    by reflexivity.
  rewrite E in H. discriminate H; [left|left; reflexivity].
Qed.

(** ** Category totals against task totals *)

Section SumOver.

Variable g : string → Qc.
Hypothesis g_nonneg : ∀ x, (0 ≤ g x)%Qc.

Lemma sum_submseteq (l k : list string) :
  l ⊆+ k → (sumQc (map g l) ≤ sumQc (map g k))%Qc.
Proof.
  induction 1 as [|x l k _ IH|x y l|x l k _ IH|l k m _ IH1 _ IH2]; simpl.
  - apply Qcle_refl.
  - apply Qcplus_le_compat; [apply Qcle_refl|exact IH].
  - match goal with |- (?a ≤ ?b)%Qc => replace a with b by ring end.
    apply Qcle_refl.
  - replace (sumQc (map g l)) with (0 + sumQc (map g l))%Qc by ring.
    apply Qcplus_le_compat; [apply g_nonneg|exact IH].
  - eapply Qcle_trans; [exact IH1|exact IH2].
Qed.

Lemma sum_Permutation (l k : list string) :
  l ≡ₚ k → sumQc (map g l) = sumQc (map g k).
Proof.
  induction 1 as [|x l k _ IH|x y l|l k m _ IH1 _ IH2]; simpl.
  - reflexivity.
  - by rewrite IH.
  - ring.
  - by rewrite IH1.
Qed.

(** Elements on which [g] vanishes can be dropped from a sum. *)
Lemma sum_filter_support (P : string → Prop) `{∀ x, Decision (P x)} (l : list string) :
  (∀ x, x ∈ l → ¬ P x → g x = 0%Qc) →
  sumQc (map g l) = sumQc (map g (filter P l)).
Proof.
  induction l as [|x l IH]; intros Hz; [reflexivity|].
  rewrite filter_cons. simpl.
  rewrite IH by (intros y Hy; apply Hz; by right).
  destruct (decide (P x)) as [Hx|Hx]; simpl; [reflexivity|].
  rewrite (Hz x) by (by left || exact Hx). ring.
Qed.

Lemma sum_supported_le (l k : list string) :
  NoDup l → (∀ x, x ∈ l → x ∉ k → g x = 0%Qc) →
  (sumQc (map g l) ≤ sumQc (map g k))%Qc.
Proof.
  intros Hl Hz.
  rewrite (sum_filter_support (λ x, x ∈ k)) by exact Hz.
  apply sum_submseteq, NoDup_submseteq.
  - by apply NoDup_filter.
  - intros x Hx. by apply list_elem_of_filter in Hx as [Hx _].
Qed.

Lemma sum_supported_eq (l k : list string) :
  NoDup l → NoDup k → (∀ x, x ∈ k → x ∈ l) → (∀ x, x ∈ l → x ∉ k → g x = 0%Qc) →
  sumQc (map g l) = sumQc (map g k).
Proof.
  intros Hl Hk Hsub Hz.
  rewrite (sum_filter_support (λ x, x ∈ k)) by exact Hz.
  apply sum_Permutation, NoDup_Permutation.
  - by apply NoDup_filter.
  - exact Hk.
  - intros x. rewrite list_elem_of_filter. split; [by intros [? _]|].
    intros Hx. split; [exact Hx|by apply Hsub].
Qed.

End SumOver.

Lemma typeTotal_sum (totals : list (string * Qc)) (categories : list string) :
  typeTotal totals categories = sumQc (map (λ c, default 0%Qc (assoc c totals)) categories).
Proof. unfold typeTotal. rewrite fold_left_plus_sumQc. ring. Qed.

Lemma calculateTotalsByType_sum (cfg : list (string * list string)) (totals : list (string * Qc)) :
  sumValues (calculateTotalsByType cfg totals)
  = sumQc (map (λ c, default 0%Qc (assoc c totals)) (concat (map snd cfg))).
Proof.
  rewrite sumValues_sumQc. unfold calculateTotalsByType.
  induction cfg as [|[type cats] cfg IH]; simpl; [reflexivity|].
  rewrite map_app, sumQc_app, IH, typeTotal_sum. reflexivity.
Qed.

Lemma contributes_positive task row : contributes task row = true → (0 < taskHoursOf task row)%Qc.
Proof.
  unfold contributes, taskHoursOf, gtZero, numberOf.
  destruct (toNumber (orZero (prop row task))) as [q|]; [|discriminate].
  intros H. simpl. by apply bool_decide_eq_true in H.
Qed.

Lemma expectedTotalHours_nonneg rows task : (0 ≤ expectedTotalHours rows task)%Qc.
Proof.
  unfold expectedTotalHours, contributingRows. apply sumQc_nonneg.
  apply Forall_forall. intros q Hq.
  apply list_elem_of_fmap in Hq as (row & -> & Hrow).
  apply list_elem_of_filter in Hrow as [Hc _].
  by apply Qclt_le_weak, contributes_positive.
Qed.

(** The task totals of a dictionary with distinct keys, read back by name. *)
Lemma taskTotals_lookup (d : DetailedTaskData) (t : string) :
  assoc t (taskTotals d) = totalHours <$> assoc t d.
Proof.
  unfold taskTotals. induction d as [|[k b] d IH]; simpl; [reflexivity|].
  case_bool_decide; [reflexivity|exact IH].
Qed.

Lemma grandTotalHours_by_name (d : DetailedTaskData) :
  NoDup (map fst d) →
  grandTotalHours d = sumQc (map (λ t, default 0%Qc (assoc t (taskTotals d))) (map fst d)).
Proof.
  unfold grandTotalHours. intros Hnd. rewrite map_map.
  f_equal. apply map_ext_in. intros [t b] Hin. simpl.
  rewrite taskTotals_lookup.
  rewrite (assoc_elem_NoDup t b d Hnd); [reflexivity|]. by apply list_elem_of_In.
Qed.

Lemma config_tasks_distinct : NoDup (concat (map snd MetricsConfig.TASK_CATEGORIES)).
Proof. apply (bool_decide_unpack _). by vm_compute. Qed.

Lemma config_category_tasks_distinct (type : string) (tasks : list string) :
  (type, tasks) ∈ MetricsConfig.TASK_CATEGORIES → NoDup tasks.
Proof.
  revert type tasks.
  assert (H : Forall (λ e, NoDup (snd e)) MetricsConfig.TASK_CATEGORIES).
  { apply (bool_decide_unpack _). by vm_compute. }
  intros type tasks Hin. exact (proj1 (Forall_forall _ _) H (type, tasks) Hin).
Qed.

Lemma categoriesOf_elem (cfg : list (string * list string)) (task : string) :
  categoriesOf cfg task ≠ [] → task ∈ concat (map snd cfg).
Proof.
  unfold categoriesOf. induction cfg as [|[type tasks] cfg IH]; simpl; [done|].
  rewrite filter_cons. simpl. intros H. apply elem_of_app.
  destruct (decide (task ∈ tasks)) as [Hin|Hnin]; [by left|right; by apply IH].
Qed.

(** C7. For distinct task columns and time-sheet hours (quarter hours,
    which doubles add without rounding): the aggregation returns when every
    row names its user, and for whatever buckets it returns, the hours of all
    task buckets together are at least the hours of any one category of the
    roll-up; and when every task column belongs to exactly one category, the
    hours of all task buckets together equal the hours of all categories
    together. *)
Theorem task_total_bounds_category_totals (rows : list Row) (tasks : list string) :
  NoDup tasks → timeSheetHours rows tasks →
  (Forall userIsText rows → ∃ d, calculateDetailedTaskData rows tasks = Ok d)
  ∧ ∀ d : DetailedTaskData,
      calculateDetailedTaskData rows tasks = Ok d →
      (∀ type total,
         (type, total) ∈ calculateTotalsByType MetricsConfig.TASK_CATEGORIES (taskTotals d) →
         (total ≤ grandTotalHours d)%Qc)
      ∧ ((∀ task, task ∈ tasks →
            length (categoriesOf MetricsConfig.TASK_CATEGORIES task) = 1%nat) →
         sumValues (calculateTotalsByType MetricsConfig.TASK_CATEGORIES (taskTotals d))
         = grandTotalHours d).
Proof.
  intros Hnd _. split.
  { intros Hrows.
    destruct (calculateDetailedTaskData_text rows tasks Hrows Hnd) as (d & Hd & _).
    by exists d. }
  intros d Hd.
  assert (Hrows : Forall userIsText rows) by (by eapply foldM_ok_text).
  destruct (calculateDetailedTaskData_text rows tasks Hrows Hnd) as (d' & Hd' & Hkeys & Hb).
  rewrite Hd in Hd'. injection Hd' as <-.
  set (g := λ t, default 0%Qc (assoc t (taskTotals d))).
  assert (Hg0 : ∀ x, (0 ≤ g x)%Qc).
  { intros x. unfold g. rewrite taskTotals_lookup.
    destruct (decide (x ∈ tasks)) as [Hx|Hx].
    - destruct (Hb x Hx) as (b & -> & Hh & _). simpl. rewrite Hh.
      apply expectedTotalHours_nonneg.
    - rewrite assoc_None by (by rewrite Hkeys). apply Qcle_refl. }
  assert (Hgz : ∀ x, x ∉ tasks → g x = 0%Qc).
  { intros x Hx. unfold g. rewrite taskTotals_lookup.
    by rewrite assoc_None by (by rewrite Hkeys). }
  assert (Hgrand : grandTotalHours d = sumQc (map g tasks)).
  { rewrite grandTotalHours_by_name by (by rewrite Hkeys). by rewrite Hkeys. }
  split.
  - intros type total Hin. unfold calculateTotalsByType in Hin.
    apply list_elem_of_fmap in Hin as ([type' cats] & [= -> ->] & Hcfg).
    rewrite typeTotal_sum, Hgrand. fold g.
    apply (sum_supported_le g Hg0).
    + by eapply config_category_tasks_distinct.
    + intros x _ Hx. by apply Hgz.
  - intros Hone. rewrite calculateTotalsByType_sum, Hgrand. fold g.
    apply (sum_supported_eq g).
    + apply config_tasks_distinct.
    + exact Hnd.
    + intros x Hx. apply categoriesOf_elem. intros E.
      specialize (Hone x Hx). rewrite E in Hone. discriminate Hone.
    + intros x _ Hx. by apply Hgz.
Qed.

(** Two rows on "BD - Research" and an empty "Ads" column: the categories
    never exceed the task total, and the two grand totals agree. *)
Lemma task_total_bounds_category_totals_witness :
  NoDup ["BD - Research"; "Ads"]
  ∧ timeSheetHours [kyleRow; austinRow] ["BD - Research"; "Ads"]
  ∧ ∃ d : DetailedTaskData,
      calculateDetailedTaskData [kyleRow; austinRow] ["BD - Research"; "Ads"] = Ok d
      ∧ (∀ type total,
           (type, total) ∈ calculateTotalsByType MetricsConfig.TASK_CATEGORIES (taskTotals d) →
           (total ≤ grandTotalHours d)%Qc)
      ∧ sumValues (calculateTotalsByType MetricsConfig.TASK_CATEGORIES (taskTotals d))
        = grandTotalHours d.
Proof.
  assert (H1 : Forall userIsText [kyleRow; austinRow]).
  { repeat constructor; [exists "kyle@x.com"|exists "Austin@x.com"]; reflexivity. }
  assert (H2 : NoDup ["BD - Research"; "Ads"]).
  { apply (bool_decide_unpack _). by vm_compute. }
  assert (H3 : timeSheetHours [kyleRow; austinRow] ["BD - Research"; "Ads"]).
  { split; [|by vm_compute].
    constructor; [constructor; [quarter_hours 8%Z|constructor; [quarter_hours 0%Z|constructor]]|].
    constructor; [|constructor].
    constructor; [quarter_hours 4%Z|constructor; [quarter_hours 0%Z|constructor]]. }
  split; [exact H2|]. split; [exact H3|].
  destruct (task_total_bounds_category_totals [kyleRow; austinRow] _ H2 H3) as [Hret Hall].
  destruct (Hret H1) as (d & Hd). destruct (Hall d Hd) as [Hle Heq].
  exists d. split; [exact Hd|]. split; [exact Hle|].
  apply Heq. intros task Ht.
  apply elem_of_cons in Ht as [->|Ht]; [reflexivity|].
  apply list_elem_of_singleton in Ht as ->. reflexivity.
Defined.

(** ** Pie data *)

Lemma sumQc_elem_le (l : list Qc) (x : Qc) :
  Forall (λ q, (0 ≤ q)%Qc) l → x ∈ l → (x ≤ sumQc l)%Qc.
Proof.
  induction 1 as [|q l Hq Hl IH]; intros Hx; [by apply elem_of_nil in Hx|].
  simpl. apply elem_of_cons in Hx as [->|Hx].
  - replace q with (q + 0)%Qc at 1 by ring.
    apply Qcplus_le_compat; [apply Qcle_refl|by apply sumQc_nonneg].
  - replace x with (0 + x)%Qc by ring.
    apply Qcplus_le_compat; [exact Hq|by apply IH].
Qed.

Lemma preparePieData_elem (totalsByType : list (string * Qc)) (e : Pie.entry) :
  e ∈ preparePieData totalsByType →
  (Pie.name e, Pie.value e) ∈ totalsByType
  ∧ (0 < Pie.value e)%Qc
  ∧ Pie.percentage e = percentOf (Pie.value e) (sumValues totalsByType).
Proof.
  unfold preparePieData. intros He.
  apply list_elem_of_fmap in He as ([type h] & -> & Hin).
  apply list_elem_of_filter in Hin as [Hpos Hin]. simpl. done.
Qed.

Lemma assoc_functional {V} (o : list (string * V)) (k : string) (v1 v2 : V) :
  NoDup (map fst o) → (k, v1) ∈ o → (k, v2) ∈ o → v1 = v2.
Proof.
  intros Hnd H1 H2.
  apply (assoc_elem_NoDup _ _ _ Hnd) in H1. apply (assoc_elem_NoDup _ _ _ Hnd) in H2.
  congruence.
Qed.

Lemma preparePieData_entries (totalsByType : list (string * Qc)) :
  map (λ e, (Pie.name e, Pie.value e)) (preparePieData totalsByType)
  = filter (λ '(_, h), (0 < h)%Qc) totalsByType.
Proof.
  unfold preparePieData. rewrite map_map.
  rewrite <- (map_id (filter _ totalsByType)) at 2.
  apply map_ext. by intros [type h].
Qed.

(** C8, where the claim fails: with a total of 5 and one of -5 the mapping
    sums to zero, and [preparePieData] emits the first grouping all the
    same, so its percentage is a division by zero. *)
Lemma preparePieData_zero_divisor :
  map Pie.name (preparePieData [("A", Q2Qc 5); ("B", Q2Qc (-5))]) = ["A"]
  ∧ sumValues [("A", Q2Qc 5); ("B", Q2Qc (-5))] = 0%Qc.
Proof. split; [reflexivity|]. apply Qc_is_canon. reflexivity. Qed.

(** C8. [preparePieData] emits, in the order of the totals mapping, exactly
    the groupings whose total is above zero, each with its name and total; so
    a grouping whose total is 0 is never in the output. When no total of the
    mapping is negative and an entry is emitted, the sum of the mapping, by
    which the percentages divide, is above zero. *)
Theorem preparePieData_omits_zero_totals (totalsByType : list (string * Qc)) :
  map (λ e, (Pie.name e, Pie.value e)) (preparePieData totalsByType)
  = filter (λ '(_, h), (0 < h)%Qc) totalsByType
  ∧ (∀ e, e ∈ preparePieData totalsByType →
          (Pie.name e, Pie.value e) ∈ totalsByType ∧ (0 < Pie.value e)%Qc)
  ∧ (∀ type, NoDup (map fst totalsByType) → (type, 0%Qc) ∈ totalsByType →
             type ∉ map Pie.name (preparePieData totalsByType))
  ∧ (Forall (λ entry, (0 ≤ snd entry)%Qc) totalsByType →
     preparePieData totalsByType ≠ [] → (0 < sumValues totalsByType)%Qc).
Proof.
  split; [apply preparePieData_entries|]. split.
  { intros e He. by apply preparePieData_elem in He as (Hin & Hpos & _). }
  split.
  - intros type Hnd Hzero Hin.
    apply list_elem_of_fmap in Hin as (e & -> & He).
    apply preparePieData_elem in He as (Hin & Hpos & _).
    rewrite <- (assoc_functional _ _ _ _ Hnd Hzero Hin) in Hpos.
    by apply Qclt_not_le in Hpos.
  - intros Hnonneg Hsome.
    destruct (preparePieData totalsByType) as [|e rest] eqn:E; [done|].
    assert (He : e ∈ preparePieData totalsByType) by (rewrite E; left).
    apply preparePieData_elem in He as (Hin & Hpos & _).
    rewrite sumValues_sumQc. eapply Qclt_le_trans; [exact Hpos|].
    apply sumQc_elem_le.
    + apply Forall_fmap. exact Hnonneg.
    + apply (list_elem_of_fmap_2 snd) in Hin. exact Hin.
Qed.

(** A mapping with a zero total and two positive ones. *)
Example preparePieData_example :
  map Pie.name (preparePieData [("Congress", Q2Qc 1); ("Influencer", 0%Qc); ("Advertising", Q2Qc 3)])
  = ["Congress"; "Advertising"].
Proof. reflexivity. Qed.

(** ** Week ranges and filters *)


Lemma parse_without_match (host : Host) (s : string) :
  matchMonthDay s = None → parseStartDateFromWeekRange host (VStr s) = epoch.
Proof. intros H. unfold parseStartDateFromWeekRange. by rewrite H. Qed.

Lemma parse_of_non_text (host : Host) (v : jsval) :
  (∀ s, v ≠ VStr s) → parseStartDateFromWeekRange host v = epoch.
Proof. intros H. destruct v; try reflexivity. by destruct (H s). Qed.

(** The missed case: the pattern matches, the month is not one of the twelve
    abbreviations, and the result is the Invalid Date. *)
Lemma parse_unknown_month (host : Host) (s month day : string) :
  matchMonthDay s = Some (month, day) → assoc month monthMap = None →
  parseStartDateFromWeekRange host (VStr s) = None.
Proof.
  intros Hm Hmonth. unfold parseStartDateFromWeekRange. rewrite Hm, Hmonth. reflexivity.
Qed.

(** C5, at the failing inputs. Labels whose month is not a three-letter,
    capitalised abbreviation are not parseable under the documented shape, yet
    [parseStartDateFromWeekRange] returns for them the Invalid Date, not the
    epoch; a label without any month-and-day text does give the epoch. *)
Theorem unparseable_month_gives_invalid_date (host : Host) :
  parseStartDateFromWeekRange host (VStr "mar 10 – mar 15 (2025)") = None
  ∧ parseStartDateFromWeekRange host (VStr "March 10 – March 15 (2025)") = None
  ∧ parseStartDateFromWeekRange host (VStr "week ten") = epoch
  ∧ (None : JsDate) ≠ epoch
  ∧ compareWeekRanges host (VStr "mar 10 – mar 15 (2025)") (VStr "Mar 17 – Mar 22 (2025)")
    = None.
Proof. repeat split; try reflexivity. discriminate. Qed.

(** The comparator on the specification's two labels, on a host in UTC. *)
Example compareWeekRanges_example :
  compareWeekRanges utcHost (VStr "Mar 10 – Mar 15 (2025)") (VStr "Mar 17 – Mar 22 (2025)")
  = Some (- (7 * msPerDay))%Z.
Proof. reflexivity. Qed.

(** ** The summary card *)

Lemma insertSorted_length {A} (cmp : A → A → option Qc) (x : A) (l : list A) :
  length (insertSorted cmp x l) = S (length l).
Proof.
  induction l as [|y l IH]; simpl; [reflexivity|].
  destruct (notAfter cmp x y); simpl; [reflexivity|]. by rewrite IH.
Qed.

Lemma jsSort_length {A} (cmp : A → A → option Qc) (l : list A) :
  length (jsSort cmp l) = length l.
Proof.
  induction l as [|x l IH]; simpl; [reflexivity|].
  by rewrite insertSorted_length, IH.
Qed.

Lemma notAfter_byHours (x y : Activity.t) :
  notAfter byHoursDescending x y = bool_decide (Activity.hours y ≤ Activity.hours x)%Qc.
Proof.
  unfold notAfter, byHoursDescending.
  apply bool_decide_ext. rewrite (Qcle_minus_iff (Activity.hours y) (Activity.hours x)).
  rewrite (Qcle_minus_iff (Activity.hours y - Activity.hours x) 0).
  replace (0 + - (Activity.hours y - Activity.hours x))%Qc
    with (Activity.hours x + - Activity.hours y)%Qc by ring.
  reflexivity.
Qed.

Lemma firstWithMostHours_bound (top : Activity.t) (l : list Activity.t) :
  firstWithMostHours top l → ∀ a, a ∈ l → (Activity.hours a ≤ Activity.hours top)%Qc.
Proof.
  intros (before & after & -> & Hb & Ha) a Hin.
  apply elem_of_app in Hin as [Hin|Hin]; [by apply Qclt_le_weak, Hb|].
  apply elem_of_cons in Hin as [->|Hin]; [apply Qcle_refl|by apply Ha].
Qed.

(** The head of a breakdown sorted by hours, descending, is its first entry
    with the most hours. *)
Lemma jsSort_head_first_max (l : list Activity.t) (top : Activity.t) (rest : list Activity.t) :
  jsSort byHoursDescending l = top :: rest → firstWithMostHours top l.
Proof.
  revert top rest. induction l as [|x l IH]; intros top rest; simpl; [discriminate|].
  destruct (jsSort byHoursDescending l) as [|y r] eqn:E; simpl.
  - intros [= <- <-].
    assert (l = []) as ->.
    { apply (f_equal length) in E. rewrite jsSort_length in E. by destruct l. }
    exists [], []. split; [reflexivity|]. split; intros a Ha; by apply elem_of_nil in Ha.
  - rewrite notAfter_byHours. specialize (IH y r eq_refl).
    case_bool_decide as Hxy.
    + intros [= <- <-]. exists [], l. split; [reflexivity|]. split.
      * intros a Ha. by apply elem_of_nil in Ha.
      * intros a Ha. eapply Qcle_trans; [|exact Hxy].
        by apply (firstWithMostHours_bound y l).
    + intros [= <- <-]. destruct IH as (before & after & -> & Hb & Ha).
      exists (x :: before), after. split; [reflexivity|]. split; [|exact Ha].
      intros a Hin. apply elem_of_cons in Hin as [->|Hin]; [|by apply Hb].
      by apply Qcnot_le_lt.
Qed.

Lemma mostTimeConsuming_top (hourlyRate total : Qc) (breakdown : list Activity.t) :
  breakdown ≠ [] →
  ∃ top, firstWithMostHours top breakdown
         ∧ mostTimeConsuming hourlyRate total breakdown
           = (Activity.name top, Activity.hours top,
              percentOf (Activity.hours top) total,
              default (Activity.hours top * hourlyRate)%Qc (Activity.cost top)).
Proof.
  intros Hne. unfold mostTimeConsuming.
  destruct (jsSort byHoursDescending breakdown) as [|top rest] eqn:E.
  - apply (f_equal length) in E. rewrite jsSort_length in E. by destruct breakdown.
  - exists top. split; [by eapply jsSort_head_first_max|].
    by destruct (Activity.cost top).
Qed.

Lemma filterM_user_total (p : string → bool) (rows : list Row) :
  Forall userIsText rows →
  ∃ kept, filterM (λ row, user ← valToLowerCase (prop row "User"); Ok (p user)) rows = Ok kept
          ∧ kept ⊆ rows.
Proof.
  induction 1 as [|row rows [s Hs] _ (kept & IH & Hsub)]; simpl.
  - exists []. split; [reflexivity|]. intros x Hx. exact Hx.
  - rewrite Hs. simpl. rewrite IH. simpl.
    destruct (p (toLowerCase s)); eexists; (split; [reflexivity|]); intros x Hx.
    + apply elem_of_cons in Hx as [->|Hx]; [left|right; by apply Hsub].
    + right. by apply Hsub.
Qed.

Lemma filterM_user_ok_text (p : string → bool) (rows kept : list Row) :
  filterM (λ row, user ← valToLowerCase (prop row "User"); Ok (p user)) rows = Ok kept →
  Forall userIsText rows.
Proof.
  revert kept. induction rows as [|row rows IH]; intros kept; simpl; [by constructor|].
  destruct (prop row "User") as [| |b|q|s] eqn:Hu; simpl; try discriminate.
  destruct (filterM _ rows) as [r|e] eqn:E; simpl; [|discriminate].
  intros _. constructor; [by exists s|by eapply IH].
Qed.

Lemma updateEmployeeSummary_text
    (g : Globals) (employeeName : string) (totalsByCategory : list (string * Qc))
    (detailedBreakdown : list Activity.t) :
  detailedBreakdown ≠ [] → Forall userIsText (filteredEmployeesData g) →
  ∃ (summary : Summary) (top : Activity.t),
    updateEmployeeSummary g employeeName totalsByCategory detailedBreakdown = Ok summary
    ∧ firstWithMostHours top detailedBreakdown
    ∧ mostTimeActivity summary = Activity.name top
    ∧ mostTimeHours summary = Activity.hours top
    ∧ mostTimeCost summary
      = default (Activity.hours top * rateOrDefault (normalizeName employeeName))%Qc
          (Activity.cost top)
    ∧ ∀ mode : DisplayMode,
        updateEmployeeSummary (withDisplayMode mode g) employeeName totalsByCategory
          detailedBreakdown
        = Ok summary.
Proof.
  intros Hne Hrows.
  unfold updateEmployeeSummary. rewrite getHourlyRate_text. simpl.
  destruct (mostTimeConsuming_top (rateOrDefault (normalizeName employeeName))
              (sumValues totalsByCategory) detailedBreakdown Hne) as (top & Htop & ->).
  destruct (filterM_user_total (λ user, includes user employeeName) _ Hrows)
    as (kept & -> & _).
  simpl. eexists _, top. split; [reflexivity|].
  split; [exact Htop|]. repeat split.
Qed.

Lemma updateEmployeeSummary_ok_text (g : Globals) (employeeName : string)
    (totals : list (string * Qc)) (breakdown : list Activity.t) (summary : Summary) :
  updateEmployeeSummary g employeeName totals breakdown = Ok summary →
  Forall userIsText (filteredEmployeesData g).
Proof.
  unfold updateEmployeeSummary. rewrite getHourlyRate_text. simpl.
  destruct (mostTimeConsuming _ _ _) as [[[activity h] percentage] c].
  destruct (filterM _ (filteredEmployeesData g)) as [kept|e] eqn:E; simpl; [|discriminate].
  intros _. exact (filterM_user_ok_text (λ user, includes user employeeName) _ _ E).
Qed.

(** C1. For a non-empty breakdown: [updateEmployeeSummary] returns when the
    filtered rows all name their user, and in whatever summary it returns, the
    most time-consuming activity is the first entry of the breakdown with the
    most hours, shown with that entry's hours and that entry's cost (hours
    times the employee's rate when the entry has no cost); the same summary
    results whichever display mode is active. *)
Theorem most_time_activity_ranks_by_hours
    (g : Globals) (employeeName : string) (totalsByCategory : list (string * Qc))
    (detailedBreakdown : list Activity.t) :
  detailedBreakdown ≠ [] →
  (Forall userIsText (filteredEmployeesData g) →
   ∃ summary, updateEmployeeSummary g employeeName totalsByCategory detailedBreakdown
              = Ok summary)
  ∧ ∀ summary : Summary,
      updateEmployeeSummary g employeeName totalsByCategory detailedBreakdown = Ok summary →
      ∃ top : Activity.t,
        firstWithMostHours top detailedBreakdown
        ∧ mostTimeActivity summary = Activity.name top
        ∧ mostTimeHours summary = Activity.hours top
        ∧ mostTimeCost summary
          = default (Activity.hours top * rateOrDefault (normalizeName employeeName))%Qc
              (Activity.cost top)
        ∧ ∀ mode : DisplayMode,
            updateEmployeeSummary (withDisplayMode mode g) employeeName totalsByCategory
              detailedBreakdown
            = Ok summary.
Proof.
  intros Hne. split.
  - intros Hrows.
    destruct (updateEmployeeSummary_text g employeeName totalsByCategory detailedBreakdown
                Hne Hrows) as (summary & _ & Hrun & _).
    by exists summary.
  - intros summary Hrun.
    assert (Hrows : Forall userIsText (filteredEmployeesData g))
      by (by eapply updateEmployeeSummary_ok_text).
    destruct (updateEmployeeSummary_text g employeeName totalsByCategory detailedBreakdown
                Hne Hrows) as (summary' & top & Hrun' & Hrest).
    rewrite Hrun in Hrun'. injection Hrun' as <-. by exists top.
Qed.

Lemma most_time_activity_ranks_by_hours_witness :
  sampleBreakdown ≠ []
  ∧ ∃ summary : Summary,
      updateEmployeeSummary sampleGlobals "kyle" [("Admin", Q2Qc 2); ("Ads", Q2Qc 5); ("BD - Calls", Q2Qc 5)]
        sampleBreakdown = Ok summary
      ∧ ∀ mode : DisplayMode,
          updateEmployeeSummary (withDisplayMode mode sampleGlobals) "kyle"
            [("Admin", Q2Qc 2); ("Ads", Q2Qc 5); ("BD - Calls", Q2Qc 5)] sampleBreakdown
          = Ok summary.
Proof.
  assert (H1 : sampleBreakdown ≠ []) by discriminate.
  assert (H2 : Forall userIsText (filteredEmployeesData sampleGlobals)).
  { repeat constructor; [exists "kyle@x.com"|exists "Austin@x.com"]; reflexivity. }
  split; [exact H1|].
  destruct (most_time_activity_ranks_by_hours sampleGlobals "kyle"
              [("Admin", Q2Qc 2); ("Ads", Q2Qc 5); ("BD - Calls", Q2Qc 5)] sampleBreakdown H1)
    as [Hret Hall].
  destruct (Hret H2) as (summary & Hrun).
  destruct (Hall summary Hrun) as (top & _ & _ & _ & _ & Hmode).
  exists summary. split; [exact Hrun|exact Hmode].
Defined.

(** On the sample breakdown the card shows "Ads": 5 hours, first of the two
    entries that tie on hours, with its own cost of 50, although "Admin" costs
    more; in cost mode as in hours mode. *)
Example most_time_activity_example (mode : DisplayMode) :
  ∃ summary,
    updateEmployeeSummary (withDisplayMode mode sampleGlobals) "kyle"
      [("Admin", Q2Qc 2); ("Ads", Q2Qc 5); ("BD - Calls", Q2Qc 5)] sampleBreakdown = Ok summary
    ∧ mostTimeActivity summary = "Ads"
    ∧ mostTimeHours summary = Q2Qc 5
    ∧ mostTimeCost summary = Q2Qc 50.
Proof. eexists. split; [reflexivity|]. repeat split. Qed.

(** ** The weekly trend *)

Lemma uniqueFrom_seen (seen values : list jsval) :
  (∀ v, v ∈ values → v ∈ seen) → uniqueFrom seen values = [].
Proof.
  induction values as [|v values IH]; intros H; simpl; [reflexivity|].
  rewrite bool_decide_true by (apply H; left).
  apply IH. intros w Hw. apply H. by right.
Qed.

Lemma unique_one_value (values : list jsval) :
  (∀ v w, v ∈ values → w ∈ values → v = w) → (length (unique values) ≤ 1)%nat.
Proof.
  unfold unique. destruct values as [|v values]; intros H; simpl; [lia|].
  rewrite uniqueFrom_seen; [simpl; lia|].
  intros w Hw. rewrite (H w v); [left|by right|left].
Qed.

Lemma uniqueWeeksOf_one_week (rows : list Row) :
  spansAtMostOneWeek rows → (length (uniqueWeeksOf rows) ≤ 1)%nat.
Proof.
  intros H. apply unique_one_value. intros v w Hv Hw.
  apply list_elem_of_fmap in Hv as (r1 & -> & H1).
  apply list_elem_of_fmap in Hw as (r2 & -> & H2).
  by apply H.
Qed.

Lemma calculateDetailedTaskData_total (rows : list Row) (tasks : list string) :
  Forall userIsText rows → ∃ d, calculateDetailedTaskData rows tasks = Ok d.
Proof.
  unfold calculateDetailedTaskData. intros Hrows. generalize (initialTaskData tasks).
  induction Hrows as [|row rows [s Hs] _ IH]; intros d; simpl; [by exists d|].
  rewrite (processRow_text _ _ _ _ Hs). simpl. apply IH.
Qed.

Lemma updateEmployeeSummary_total (g : Globals) (employeeName : string)
    (totals : list (string * Qc)) (breakdown : list Activity.t) :
  Forall userIsText (filteredEmployeesData g) →
  ∃ summary, updateEmployeeSummary g employeeName totals breakdown = Ok summary.
Proof.
  intros Hrows. unfold updateEmployeeSummary. rewrite getHourlyRate_text. simpl.
  destruct (mostTimeConsuming _ _ _) as [[[activity h] percentage] c].
  destruct (filterM_user_total (λ user, includes user employeeName) _ Hrows)
    as (kept & -> & _).
  simpl. by eexists.
Qed.

Lemma filterM_subset {A} (p : A → result bool) (l kept : list A) :
  filterM p l = Ok kept → kept ⊆ l.
Proof.
  revert kept. induction l as [|a l IH]; simpl; intros kept.
  - intros [= <-]. intros x Hx. exact Hx.
  - destruct (p a) as [b|e]; simpl; [|discriminate].
    destruct (filterM p l) as [r|e]; simpl; [|discriminate].
    intros [= <-]. specialize (IH r eq_refl). intros x Hx. destruct b.
    + apply elem_of_cons in Hx as [->|Hx]; [left|right; by apply IH].
    + right. by apply IH.
Qed.

Lemma unique_same_value (v : jsval) (values : list jsval) :
  (∀ w, w ∈ values → w = v) → unique (v :: values) = [v].
Proof.
  intros H. unfold unique. simpl. rewrite uniqueFrom_seen; [reflexivity|].
  intros w Hw. rewrite (H w Hw). left.
Qed.

(** The pie chart never gets drawn: when the preparation of its data does
    not throw, the reference to the canvas does, and the [catch] throws the
    error of the function in either case. *)
Lemma initializeTaskPieChart_throws (renderer : Renderer) (employeeName : string)
    (detailedTaskData : DetailedTaskData) (level : LevelMode) (mode : DisplayMode) :
  ∃ reason,
    initializeTaskPieChart renderer employeeName detailedTaskData level mode
    = Throw (GenericError ("Pie chart initialization failed: " ++ reason)).
Proof.
  unfold initializeTaskPieChart.
  destruct (prepareChartData renderer employeeName detailedTaskData level mode) as [[]|e].
  - exists (messageOf renderer (ReferenceError "pieCanvas")). reflexivity.
  - exists (messageOf renderer e). reflexivity.
Qed.

(** C3, at the failing input. For the employee kyle and filtered rows of one
    week, [initializeEmployeeCharts] throws the error of the pie chart,
    "Pie chart initialization failed: ...", before it reaches the weekly
    trend, so the not-enough-data state is not shown; with a renderer that
    finds its canvas the message ends in "pieCanvas is not defined".
    Whenever the function returns at all, it has shown the no-data message
    of the tab and has not come to the trend; it does so when there is no
    data at all. *)
Theorem pie_chart_failure_precedes_trend
    (host : Host) (TASK_CATEGORIES : list (string * list string)) (TASK_ORDER : list string) :
  (∀ renderer,
     ∃ reason,
       initializeEmployeeCharts host TASK_CATEGORIES TASK_ORDER renderer oneWeekGlobals "kyle"
       = Throw (GenericError ("Pie chart initialization failed: " ++ reason)))
  ∧ initializeEmployeeCharts host TASK_CATEGORIES TASK_ORDER drawingRenderer oneWeekGlobals "kyle"
    = Throw (GenericError "Pie chart initialization failed: pieCanvas is not defined")
  ∧ (∀ renderer g employeeName out,
       initializeEmployeeCharts host TASK_CATEGORIES TASK_ORDER renderer g employeeName = Ok out →
       out = NoData)
  ∧ (∀ renderer g employeeName,
       employeesData g = [] →
       initializeEmployeeCharts host TASK_CATEGORIES TASK_ORDER renderer g employeeName
       = Ok NoData).
Proof.
  split; [|split; [|split]].
  - intros renderer.
    assert (Hrows : Forall userIsText [kyleRow]).
    { repeat constructor. exists "kyle@x.com". reflexivity. }
    unfold initializeEmployeeCharts.
    rewrite bool_decide_false by discriminate.
    change (filteredEmployeesData oneWeekGlobals) with [kyleRow].
    destruct (filterM_user_total (λ email, includes email (toLowerCase "kyle")) _ Hrows)
      as (employeeData & Hf & _).
    assert (HkyleRow : employeeData = [kyleRow]).
    { vm_compute in Hf. by injection Hf as <-. }
    rewrite Hf. subst employeeData. cbn [mbind result_bind].
    rewrite bool_decide_false by discriminate.
    destruct (calculateDetailedTaskData_total [kyleRow]
                (getTaskCategories (employeesData oneWeekGlobals)) Hrows) as (d & ->).
    cbn [mbind result_bind]. rewrite getHourlyRate_text. cbn [mbind result_bind].
    destruct (updateEmployeeSummary_total oneWeekGlobals "kyle"
                (map (λ task, (task, default 0%Qc (totalHours <$> assoc task d)))
                   (getTaskCategories (employeesData oneWeekGlobals)))
                (breakdownOf TASK_CATEGORIES d) Hrows) as (summary & ->).
    cbn [mbind result_bind].
    destruct (initializeTaskPieChart_throws renderer "kyle" d
                (globalLevelMode oneWeekGlobals) (globalDisplayMode oneWeekGlobals))
      as (reason & ->).
    by exists reason.
  - vm_compute. reflexivity.
  - intros renderer g employeeName out. unfold initializeEmployeeCharts.
    case_bool_decide as Hdata; [by intros [= <-]|].
    destruct (filterM _ (filteredEmployeesData g)) as [employeeData|e];
      cbn [mbind result_bind]; [|discriminate].
    case_bool_decide as Hemp; [by intros [= <-]|].
    destruct (calculateDetailedTaskData _ _) as [d|e]; cbn [mbind result_bind]; [|discriminate].
    rewrite getHourlyRate_text. cbn [mbind result_bind].
    destruct (updateEmployeeSummary _ _ _ _) as [summary|e];
      cbn [mbind result_bind]; [|discriminate].
    destruct (initializeTaskPieChart_throws renderer employeeName d
                (globalLevelMode g) (globalDisplayMode g)) as (reason & ->).
    discriminate.
  - intros renderer g employeeName Hnone. unfold initializeEmployeeCharts.
    by rewrite Hnone.
Qed.

(** X27. The weekly-trend block of [initializeEmployeeCharts] (lines
    1240-1432), run on rows of at most one week, builds no dataset and draws
    no chart: it ends in the not-enough-data state, which names the week when
    there are rows and the empty range when there are none. *)
Theorem weeklyTrend_needs_two_weeks
    (host : Host) (TASK_CATEGORIES : list (string * list string)) (renderer : Renderer)
    (g : Globals) (employeeName : string) (hourlyRate : Qc)
    (employeeData : list Row) (detailedBreakdown : list Activity.t) :
  spansAtMostOneWeek employeeData →
  weeklyTrend host TASK_CATEGORIES renderer g employeeName hourlyRate employeeData
    detailedBreakdown
  = Ok (TrendUnavailable
          match employeeData with
          | [] => NoDataInRange
          | row :: _ => OnlyOneWeek employeeName (prop row "Week Range")
          end).
Proof.
  intros Hweek. unfold weeklyTrend.
  destruct employeeData as [|row rows]; [reflexivity|].
  assert (Hu : uniqueWeeksOf (row :: rows) = [prop row "Week Range"]).
  { unfold uniqueWeeksOf. cbn [map]. apply unique_same_value.
    intros w Hw. apply list_elem_of_fmap in Hw as (r & -> & Hr).
    apply Hweek; [by right|left]. }
  rewrite Hu. reflexivity.
Qed.

Lemma weeklyTrend_needs_two_weeks_witness :
  spansAtMostOneWeek [kyleRow]
  ∧ weeklyTrend utcHost MetricsConfig.TASK_CATEGORIES drawingRenderer oneWeekGlobals "kyle"
      (Q2Qc 20) [kyleRow] []
    = Ok (TrendUnavailable (OnlyOneWeek "kyle" (VStr "Mar 10 – Mar 15 (2025)"))).
Proof.
  assert (H : spansAtMostOneWeek [kyleRow]).
  { intros r1 r2 Hr1 Hr2.
    apply list_elem_of_singleton in Hr1 as ->. by apply list_elem_of_singleton in Hr2 as ->. }
  split; [exact H|].
  exact (weeklyTrend_needs_two_weeks utcHost MetricsConfig.TASK_CATEGORIES drawingRenderer
           oneWeekGlobals "kyle" (Q2Qc 20) [kyleRow] [] H).
Defined.

(** With two weeks the block comes to the series of the top category and
    stops at its border colour: the page module has no binding of the
    getter. *)
Example weeklyTrend_two_weeks :
  weeklyTrend utcHost MetricsConfig.TASK_CATEGORIES drawingRenderer twoWeekGlobals "kyle"
    (Q2Qc 20) [kyleRow; kyleLaterRow] []
  = Throw (ReferenceError "getCategoryBorderColor").
Proof. vm_compute. reflexivity. Qed.

(** ** Colours *)

Lemma hexVal_range (a : ascii) (v : Z) : hexVal a = Some v → (0 ≤ v < 16)%Z.
Proof.
  intros H. destruct a as [[] [] [] [] [] [] [] []]; vm_compute in H;
    try discriminate H; injection H as <-; lia.
Qed.

Lemma hexChar_lower (a : ascii) (v : Z) : hexVal a = Some v → hexChar v = lowerAscii a.
Proof.
  intros H. destruct a as [[] [] [] [] [] [] [] []]; vm_compute in H;
    try discriminate H; injection H as <-; reflexivity.
Qed.

Lemma parseInt16_digit (a : ascii) (va : Z) (rest : string) :
  hexVal a = Some va → a ≠ "0"%char →
  parseInt16 (String a rest) = (v ← hexPrefix rest (Some va); Some (1 * v)%Z).
Proof.
  intros Ha Hne. destruct a as [[] [] [] [] [] [] [] []]; vm_compute in Ha;
    try discriminate Ha; injection Ha as <-; try reflexivity.
  by destruct Hne.
Qed.

Lemma parseInt16_zero_digit (b : ascii) (vb : Z) :
  hexVal b = Some vb → parseInt16 (String "0"%char (String b EmptyString)) = Some vb.
Proof.
  intros Hb. destruct b as [[] [] [] [] [] [] [] []]; vm_compute in Hb;
    try discriminate Hb; injection Hb as <-; reflexivity.
Qed.

Lemma parseInt16_two_digits (a b : ascii) (va vb : Z) :
  hexVal a = Some va → hexVal b = Some vb →
  parseInt16 (String a (String b EmptyString)) = Some (va * 16 + vb)%Z.
Proof.
  intros Ha Hb. destruct (decide (a = "0"%char)) as [->|Hne].
  - rewrite (parseInt16_zero_digit _ _ Hb). vm_compute in Ha. by injection Ha as <-.
  - rewrite (parseInt16_digit _ _ _ Ha Hne). cbn [hexPrefix]. rewrite Hb.
    cbn -[Z.mul Z.add]. f_equal. lia.
Qed.

Lemma channelToHex_digits (a b : ascii) (va vb : Z) :
  hexVal a = Some va → hexVal b = Some vb →
  channelToHex (Some (va * 16 + vb)%Z)
  = String (lowerAscii a) (String (lowerAscii b) EmptyString).
Proof.
  intros Ha Hb. pose proof (hexVal_range _ _ Ha). pose proof (hexVal_range _ _ Hb).
  unfold channelToHex.
  replace ((va * 16 + vb) / 16)%Z with va
    by (rewrite Z.div_add_l, Z.div_small by lia; lia).
  replace ((va * 16 + vb) mod 16)%Z with vb
    by (rewrite Z.add_comm, Z.mod_add, Z.mod_small by lia; lia).
  by rewrite (hexChar_lower _ _ Ha), (hexChar_lower _ _ Hb).
Qed.

Lemma adjustedChannel_range (percent c : Z) : (0 ≤ adjustedChannel percent c ≤ 255)%Z.
Proof. unfold adjustedChannel. lia. Qed.

Lemma adjustedChannel_zero (c : Z) : (0 ≤ c ≤ 255)%Z → adjustedChannel 0 c = c.
Proof.
  intros H. unfold adjustedChannel.
  replace ((c * (100 + 0) + 50) / 100)%Z with c; [lia|].
  rewrite Z.add_0_r, Z.add_comm, Z.div_add, Z.div_small by lia. lia.
Qed.

Lemma channelsOf_inv (hex : string) (r g b : Z) :
  channelsOf hex = Some (r, g, b) →
  ∃ c1 c2 c3 c4 c5 c6 v1 v2 v3 v4 v5 v6,
    hex = String "#"%char
            (String c1 (String c2 (String c3 (String c4 (String c5 (String c6 EmptyString))))))
    ∧ hexVal c1 = Some v1 ∧ hexVal c2 = Some v2 ∧ hexVal c3 = Some v3
    ∧ hexVal c4 = Some v4 ∧ hexVal c5 = Some v5 ∧ hexVal c6 = Some v6
    ∧ r = (v1 * 16 + v2)%Z ∧ g = (v3 * 16 + v4)%Z ∧ b = (v5 * 16 + v6)%Z.
Proof.
  destruct hex as [|h0 hex]; [discriminate|].
  destruct (decide (h0 = "#"%char)) as [->|Hh];
    [|by destruct h0 as [[] [] [] [] [] [] [] []]].
  destruct hex as [|c1 [|c2 [|c3 [|c4 [|c5 [|c6 [|? ?]]]]]]]; try discriminate.
  unfold channelsOf.
  destruct (hexVal c1) as [v1|] eqn:H1; [|discriminate].
  destruct (hexVal c2) as [v2|] eqn:H2; [|discriminate].
  destruct (hexVal c3) as [v3|] eqn:H3; [|discriminate].
  destruct (hexVal c4) as [v4|] eqn:H4; [|discriminate].
  destruct (hexVal c5) as [v5|] eqn:H5; [|discriminate].
  destruct (hexVal c6) as [v6|] eqn:H6; [|discriminate].
  intros [= <- <- <-]. by exists c1, c2, c3, c4, c5, c6, v1, v2, v3, v4, v5, v6.
Qed.

(** [adjustColor] on a [#rrggbb] colour: each channel is scaled, rounded and
    clamped, and the three are printed as two hexadecimal digits each. *)
Lemma adjustColor_channels (hex : string) (r g b percent : Z) :
  channelsOf hex = Some (r, g, b) →
  adjustColor hex percent
  = colorOfChannels (adjustedChannel percent r) (adjustedChannel percent g)
      (adjustedChannel percent b).
Proof.
  intros H. apply channelsOf_inv in H
    as (c1 & c2 & c3 & c4 & c5 & c6 & v1 & v2 & v3 & v4 & v5 & v6
        & -> & H1 & H2 & H3 & H4 & H5 & H6 & -> & -> & ->).
  unfold adjustColor, colorOfChannels, stripHash, twoCharsAt. cbn [String.substring].
  rewrite (parseInt16_two_digits _ _ _ _ H1 H2), (parseInt16_two_digits _ _ _ _ H3 H4),
    (parseInt16_two_digits _ _ _ _ H5 H6).
  reflexivity.
Qed.

(** With no adjustment the colour is the base colour, in lower case. *)
Lemma adjustColor_zero (hex : string) (r g b : Z) :
  channelsOf hex = Some (r, g, b) → adjustColor hex 0 = toLowerCase hex.
Proof.
  intros H. rewrite (adjustColor_channels _ _ _ _ _ H).
  apply channelsOf_inv in H
    as (c1 & c2 & c3 & c4 & c5 & c6 & v1 & v2 & v3 & v4 & v5 & v6
        & -> & H1 & H2 & H3 & H4 & H5 & H6 & -> & -> & ->).
  pose proof (hexVal_range _ _ H1). pose proof (hexVal_range _ _ H2).
  pose proof (hexVal_range _ _ H3). pose proof (hexVal_range _ _ H4).
  pose proof (hexVal_range _ _ H5). pose proof (hexVal_range _ _ H6).
  rewrite !adjustedChannel_zero by lia.
  unfold colorOfChannels.
  rewrite (channelToHex_digits _ _ _ _ H1 H2), (channelToHex_digits _ _ _ _ H3 H4),
    (channelToHex_digits _ _ _ _ H5 H6).
  reflexivity.
Qed.

Lemma percentAdjustment_position (n i : nat) :
  (i < n)%nat → percentAdjustment n i = positionAdjustment n i.
Proof.
  intros Hi. unfold percentAdjustment, positionAdjustment.
  case_bool_decide as Hn; [|reflexivity].
  subst n. assert (i = 0%nat) as -> by lia. reflexivity.
Qed.

Section ColorCacheFacts.

Variable CATEGORY_COLORS : list (string * string).

Lemma cacheCategoryColors_ok (entries : list (string * string)) (c : ColorCaches) :
  (∀ category color, (category, color) ∈ entries → color ≠ "") →
  ∃ c', cacheCategoryColors entries c = (c', Ok tt)
        ∧ TASK_COLOR_CACHE c' = TASK_COLOR_CACHE c
        ∧ TASK_BORDER_COLOR_CACHE c' = TASK_BORDER_COLOR_CACHE c.
Proof.
  revert c. induction entries as [|[category color] entries IH]; intros c Hne; simpl.
  - by exists c.
  - rewrite bool_decide_false by (eapply Hne; left).
    destruct (IH {| TASK_COLOR_CACHE := TASK_COLOR_CACHE c;
                    TASK_BORDER_COLOR_CACHE := TASK_BORDER_COLOR_CACHE c;
                    CATEGORY_COLOR_CACHE := <[category:=color ++ "CC"]> (CATEGORY_COLOR_CACHE c);
                    CATEGORY_BORDER_COLOR_CACHE := <[category:=color]> (CATEGORY_BORDER_COLOR_CACHE c) |})
      as (c' & -> & H1 & H2).
    { intros k v Hin. eapply Hne. right. exact Hin. }
    by exists c'.
Qed.

Lemma cacheTaskColors_other (base : string) (n : nat) (tasks : list string) (t : string) :
  t ∉ tasks →
  ∀ index c,
    TASK_BORDER_COLOR_CACHE (cacheTaskColors base n index tasks c) !! t
    = TASK_BORDER_COLOR_CACHE c !! t
    ∧ TASK_COLOR_CACHE (cacheTaskColors base n index tasks c) !! t = TASK_COLOR_CACHE c !! t.
Proof.
  induction tasks as [|a tasks IH]; intros Ht index c; simpl; [done|].
  apply not_elem_of_cons in Ht as [Hne Ht].
  destruct (IH Ht (S index)
              {| TASK_COLOR_CACHE :=
                   <[a:=adjustColor base (percentAdjustment n index) ++ "CC"]> (TASK_COLOR_CACHE c);
                 TASK_BORDER_COLOR_CACHE :=
                   <[a:=adjustColor base (percentAdjustment n index)]> (TASK_BORDER_COLOR_CACHE c);
                 CATEGORY_COLOR_CACHE := CATEGORY_COLOR_CACHE c;
                 CATEGORY_BORDER_COLOR_CACHE := CATEGORY_BORDER_COLOR_CACHE c |})
    as [-> ->].
  simpl. by rewrite !lookup_insert_ne by done.
Qed.

Lemma cacheTaskColors_at (base : string) (n : nat) (tasks : list string) :
  NoDup tasks →
  ∀ index c i t, tasks !! i = Some t →
    TASK_BORDER_COLOR_CACHE (cacheTaskColors base n index tasks c) !! t
    = Some (adjustColor base (percentAdjustment n (index + i)))
    ∧ TASK_COLOR_CACHE (cacheTaskColors base n index tasks c) !! t
      = Some (adjustColor base (percentAdjustment n (index + i)) ++ "CC").
Proof.
  induction 1 as [|a tasks Ha Hnd IH]; intros index c i t Hi; [discriminate|].
  destruct i as [|i]; simpl in Hi |- *.
  - injection Hi as ->.
    destruct (cacheTaskColors_other base n tasks t Ha (S index)
                {| TASK_COLOR_CACHE :=
                     <[t:=adjustColor base (percentAdjustment n index) ++ "CC"]> (TASK_COLOR_CACHE c);
                   TASK_BORDER_COLOR_CACHE :=
                     <[t:=adjustColor base (percentAdjustment n index)]> (TASK_BORDER_COLOR_CACHE c);
                   CATEGORY_COLOR_CACHE := CATEGORY_COLOR_CACHE c;
                   CATEGORY_BORDER_COLOR_CACHE := CATEGORY_BORDER_COLOR_CACHE c |})
      as [-> ->].
    simpl. rewrite !lookup_insert_eq. by rewrite Nat.add_0_r.
  - replace (index + S i)%nat with (S index + i)%nat by lia. by apply IH.
Qed.

Lemma cacheCategoryTasks_other (entry : string * list string) (c : ColorCaches) (t : string) :
  t ∉ snd entry →
  TASK_BORDER_COLOR_CACHE (cacheCategoryTasks CATEGORY_COLORS c entry) !! t
  = TASK_BORDER_COLOR_CACHE c !! t
  ∧ TASK_COLOR_CACHE (cacheCategoryTasks CATEGORY_COLORS c entry) !! t
    = TASK_COLOR_CACHE c !! t.
Proof.
  destruct entry as [category tasks]. simpl. intros Ht.
  destruct (assoc category CATEGORY_COLORS) as [base|]; [|done].
  case_bool_decide; [done|]. by apply cacheTaskColors_other.
Qed.

Lemma fold_cacheCategoryTasks_other (cfg : list (string * list string)) (t : string) :
  t ∉ concat (map snd cfg) →
  ∀ c,
    TASK_BORDER_COLOR_CACHE (fold_left (cacheCategoryTasks CATEGORY_COLORS) cfg c) !! t
    = TASK_BORDER_COLOR_CACHE c !! t
    ∧ TASK_COLOR_CACHE (fold_left (cacheCategoryTasks CATEGORY_COLORS) cfg c) !! t
      = TASK_COLOR_CACHE c !! t.
Proof.
  induction cfg as [|entry cfg IH]; intros Ht c; simpl; [done|].
  simpl in Ht. apply not_elem_of_app in Ht as [Hhead Hrest].
  destruct (IH Hrest (cacheCategoryTasks CATEGORY_COLORS c entry)) as [-> ->].
  by apply cacheCategoryTasks_other.
Qed.

Lemma fold_cacheCategoryTasks_at (cfg : list (string * list string)) :
  NoDup (concat (map snd cfg)) →
  ∀ c category tasks base i t,
    (category, tasks) ∈ cfg → assoc category CATEGORY_COLORS = Some base → base ≠ "" →
    tasks !! i = Some t →
    TASK_BORDER_COLOR_CACHE (fold_left (cacheCategoryTasks CATEGORY_COLORS) cfg c) !! t
    = Some (adjustColor base (percentAdjustment (length tasks) i))
    ∧ TASK_COLOR_CACHE (fold_left (cacheCategoryTasks CATEGORY_COLORS) cfg c) !! t
      = Some (adjustColor base (percentAdjustment (length tasks) i) ++ "CC").
Proof.
  induction cfg as [|entry cfg IH]; intros Hnd c category tasks base i t Hin Hbase Hne Hi;
    [by apply elem_of_nil in Hin|].
  simpl in Hnd. apply NoDup_app in Hnd as (Hhead & Hdisj & Hrest).
  simpl. apply elem_of_cons in Hin as [<-|Hin].
  - assert (Ht : t ∈ tasks) by (by eapply list_elem_of_lookup_2).
    destruct (fold_cacheCategoryTasks_other cfg t (Hdisj t Ht)
                (cacheCategoryTasks CATEGORY_COLORS c (category, tasks))) as [-> ->].
    simpl. rewrite Hbase. rewrite bool_decide_false by exact Hne.
    by apply (cacheTaskColors_at base (length tasks) tasks Hhead 0 c i t).
  - by apply (IH Hrest _ category tasks base i t).
Qed.

End ColorCacheFacts.

(** For any configuration whose colours are non-empty and whose tasks are
    listed once: the initialisation succeeds and the task at index [i] of a
    coloured category gets the base colour adjusted by its position. *)
Lemma task_color_general
    (CATEGORY_COLORS : list (string * string)) (TASK_CATEGORIES : list (string * list string))
    (c0 : ColorCaches) :
  (∀ category color, (category, color) ∈ CATEGORY_COLORS → color ≠ "") →
  NoDup (concat (map snd TASK_CATEGORIES)) →
  ∃ c : ColorCaches,
    initializeColorCaches CATEGORY_COLORS TASK_CATEGORIES c0 = (c, Ok tt)
    ∧ ∀ category tasks base i task,
        (category, tasks) ∈ TASK_CATEGORIES →
        assoc category CATEGORY_COLORS = Some base →
        tasks !! i = Some task →
        TASK_BORDER_COLOR_CACHE c !! task
        = Some (adjustColor base (positionAdjustment (length tasks) i))
        ∧ TASK_COLOR_CACHE c !! task
          = Some (adjustColor base (positionAdjustment (length tasks) i) ++ "CC").
Proof.
  intros Hcolors Hnd. unfold initializeColorCaches.
  destruct (cacheCategoryColors_ok CATEGORY_COLORS c0 Hcolors) as (c1 & -> & _ & _).
  eexists. split; [reflexivity|].
  intros category tasks base i task Hin Hbase Hi.
  assert (Hlt : (i < length tasks)%nat) by (by eapply lookup_lt_Some).
  assert (Hne : base ≠ "").
  { eapply Hcolors. by apply assoc_Some_elem. }
  destruct (fold_cacheCategoryTasks_at CATEGORY_COLORS TASK_CATEGORIES Hnd c1
              category tasks base i task Hin Hbase Hne Hi) as [Hb Hf].
  rewrite percentAdjustment_position in Hb, Hf by exact Hlt.
  by split.
Qed.

Lemma config_colors_nonempty (category color : string) :
  (category, color) ∈ MetricsConfig.CATEGORY_COLORS → color ≠ "".
Proof.
  revert category color.
  assert (H : Forall (λ e, snd e ≠ "") MetricsConfig.CATEGORY_COLORS).
  { apply (bool_decide_unpack _). by vm_compute. }
  intros category color Hin. exact (proj1 (Forall_forall _ _) H (category, color) Hin).
Qed.

Lemma config_colors_are_hex (category base : string) :
  assoc category MetricsConfig.CATEGORY_COLORS = Some base → is_Some (channelsOf base).
Proof.
  intros Hbase. apply assoc_Some_elem in Hbase. revert category base Hbase.
  assert (H : Forall (λ e, is_Some (channelsOf (snd e))) MetricsConfig.CATEGORY_COLORS).
  { apply (bool_decide_unpack _). by vm_compute. }
  intros category base Hin. exact (proj1 (Forall_forall _ _) H (category, base) Hin).
Qed.

(** C9. With the shipped configuration, from any state of the caches,
    [initializeColorCaches] succeeds and, for every category with [N] tasks
    and every task at 0-based index [i] of its list, caches as the task's
    colour the category's base colour adjusted by [(i - floor(N / 2)) * 15]
    per cent (with the [CC] suffix for the fill). The base colour is of the
    shape [#rrggbb], and the adjustment scales each of its channels by
    [(100 + percent) / 100], rounds, clamps to 0..255 and prints the three
    channels in hexadecimal. In a single-task category the adjustment is 0 per
    cent and the result is the base colour itself, in lower-case digits. *)
Theorem task_color_by_position (c0 : ColorCaches) :
  ∃ c : ColorCaches,
    initializeColorCaches MetricsConfig.CATEGORY_COLORS MetricsConfig.TASK_CATEGORIES c0
    = (c, Ok tt)
    ∧ ∀ category tasks base i task,
        (category, tasks) ∈ MetricsConfig.TASK_CATEGORIES →
        assoc category MetricsConfig.CATEGORY_COLORS = Some base →
        tasks !! i = Some task →
        TASK_BORDER_COLOR_CACHE c !! task
        = Some (adjustColor base (positionAdjustment (length tasks) i))
        ∧ TASK_COLOR_CACHE c !! task
          = Some (adjustColor base (positionAdjustment (length tasks) i) ++ "CC")
        ∧ ∃ r g b,
            channelsOf base = Some (r, g, b)
            ∧ adjustColor base (positionAdjustment (length tasks) i)
              = colorOfChannels
                  (adjustedChannel (positionAdjustment (length tasks) i) r)
                  (adjustedChannel (positionAdjustment (length tasks) i) g)
                  (adjustedChannel (positionAdjustment (length tasks) i) b)
            ∧ (0 ≤ adjustedChannel (positionAdjustment (length tasks) i) r ≤ 255)%Z
            ∧ (0 ≤ adjustedChannel (positionAdjustment (length tasks) i) g ≤ 255)%Z
            ∧ (0 ≤ adjustedChannel (positionAdjustment (length tasks) i) b ≤ 255)%Z
            ∧ (length tasks = 1%nat →
               positionAdjustment (length tasks) i = 0%Z
               ∧ adjustColor base (positionAdjustment (length tasks) i) = toLowerCase base).
Proof.
  destruct (task_color_general MetricsConfig.CATEGORY_COLORS MetricsConfig.TASK_CATEGORIES
              c0 config_colors_nonempty config_tasks_distinct) as (c & Hc & Hall).
  exists c. split; [exact Hc|].
  intros category tasks base i task Hin Hbase Hi.
  destruct (Hall category tasks base i task Hin Hbase Hi) as [Hb Hf].
  split; [exact Hb|]. split; [exact Hf|].
  destruct (config_colors_are_hex category base Hbase) as [[[r g] b] Hch].
  exists r, g, b. split; [exact Hch|].
  split; [by apply adjustColor_channels|].
  repeat (split; [apply adjustedChannel_range|]).
  intros Hn.
  assert (Hlt : (i < length tasks)%nat) by (by eapply lookup_lt_Some).
  assert (Hzero : positionAdjustment (length tasks) i = 0%Z).
  { rewrite Hn in *. assert (i = 0%nat) as -> by lia. reflexivity. }
  split; [exact Hzero|]. rewrite Hzero. by eapply adjustColor_zero.
Qed.

(** "Ads", alone in "Advertising", gets the base colour [#E91E63] as
    [#e91e63]; "BD - Research", first of four, gets [#4CAF50] darkened by 30
    per cent; a name without configuration gets the grey fallback. *)
Example shipped_task_colors :
  let c := fst (initializeColorCaches MetricsConfig.CATEGORY_COLORS
                  MetricsConfig.TASK_CATEGORIES emptyCaches) in
  getTaskBorderColor c "Ads" = "#e91e63"
  ∧ getTaskColor c "BD - Research" = "#357b38CC"
  ∧ getTaskColor c "Lunch" = "#ccccccCC".
Proof. vm_compute. repeat split. Qed.

(** * Properties of the further functions *)

(** ** Array.prototype.sort *)

Section SortFacts.

Context {A : Type} (cmp : A → A → option Qc).

Lemma insertSorted_Permutation (x : A) (l : list A) : insertSorted cmp x l ≡ₚ x :: l.
Proof.
  induction l as [|y l IH]; simpl; [reflexivity|].
  destruct (notAfter cmp x y); [reflexivity|].
  rewrite IH. apply Permutation_swap.
Qed.

Lemma jsSort_Permutation (l : list A) : jsSort cmp l ≡ₚ l.
Proof.
  induction l as [|x l IH]; simpl; [reflexivity|].
  by rewrite insertSorted_Permutation, IH.
Qed.

Lemma jsSort_elem (l : list A) (x : A) : x ∈ jsSort cmp l ↔ x ∈ l.
Proof. by rewrite jsSort_Permutation. Qed.

(** A comparator that is total and transitive in the "may stand before"
    sense gives a sorted result. *)
Hypothesis cmp_total : ∀ a b, notAfter cmp a b = false → notAfter cmp b a = true.
Hypothesis cmp_trans :
  ∀ a b c, notAfter cmp a b = true → notAfter cmp b c = true → notAfter cmp a c = true.

Lemma insertSorted_sorted (x : A) (l : list A) :
  StronglySorted (λ a b, notAfter cmp a b = true) l →
  StronglySorted (λ a b, notAfter cmp a b = true) (insertSorted cmp x l).
Proof.
  induction 1 as [|y l Hl IH Hy]; simpl.
  - repeat constructor.
  - destruct (notAfter cmp x y) eqn:Hxy.
    + constructor; [by constructor|].
      constructor; [exact Hxy|].
      eapply Forall_impl; [exact Hy|]. intros z Hz. by eapply cmp_trans.
    + constructor; [exact IH|].
      apply Forall_forall. intros z Hz.
      rewrite insertSorted_Permutation in Hz.
      apply elem_of_cons in Hz as [->|Hz]; [by apply cmp_total|].
      exact (proj1 (Forall_forall _ _) Hy z Hz).
Qed.

Lemma jsSort_sorted (l : list A) : StronglySorted (λ a b, notAfter cmp a b = true) (jsSort cmp l).
Proof.
  induction l as [|x l IH]; simpl; [constructor|]. by apply insertSorted_sorted.
Qed.

End SortFacts.

Lemma filter_insertSorted_byHours (h : Qc) (x : Activity.t) (r : list Activity.t) :
  filter (λ a, Activity.hours a = h) (insertSorted byHoursDescending x r)
  = filter (λ a, Activity.hours a = h) (x :: r).
Proof.
  induction r as [|y r IH]; simpl; [reflexivity|].
  rewrite notAfter_byHours. case_bool_decide as Hxy; [reflexivity|].
  rewrite (filter_cons _ y), IH, !(filter_cons _ x), !(filter_cons _ y).
  destruct (decide (Activity.hours x = h)) as [Hx|Hx];
    destruct (decide (Activity.hours y = h)) as [Hy|Hy]; try reflexivity.
  destruct Hxy. rewrite Hx, Hy. apply Qcle_refl.
Qed.

(** The sort by hours keeps entries of equal hours in their original order. *)
Lemma jsSort_byHours_stable (h : Qc) (l : list Activity.t) :
  filter (λ a, Activity.hours a = h) (jsSort byHoursDescending l)
  = filter (λ a, Activity.hours a = h) l.
Proof.
  induction l as [|x l IH]; simpl; [reflexivity|].
  by rewrite filter_insertSorted_byHours, !(filter_cons _ x), IH.
Qed.

Lemma byHours_sorted (l : list Activity.t) :
  StronglySorted (λ a b, (Activity.hours b ≤ Activity.hours a)%Qc) (jsSort byHoursDescending l).
Proof.
  assert (H : StronglySorted (λ a b, notAfter byHoursDescending a b = true)
                (jsSort byHoursDescending l)).
  { apply jsSort_sorted.
    - intros a b. rewrite !notAfter_byHours. intros Hab.
      apply bool_decide_eq_false in Hab. apply bool_decide_eq_true.
      by apply Qclt_le_weak, Qcnot_le_lt.
    - intros a b c. rewrite !notAfter_byHours. intros Hab Hbc.
      apply bool_decide_eq_true in Hab, Hbc. apply bool_decide_eq_true.
      by eapply Qcle_trans. }
  induction H as [|a r _ IH Ha]; constructor; [exact IH|].
  eapply Forall_impl; [exact Ha|]. intros b Hb. simpl in Hb.
  rewrite notAfter_byHours in Hb. by apply bool_decide_eq_true in Hb.
Qed.

(** ** createDetailedBreakdown *)

(** X1. [createDetailedBreakdown] returns the groupings of the totals whose
    hours are above zero, each exactly once (the result is a rearrangement of
    them), without a cost and with the category type of its name; a grouping
    at zero or below is left out. *)
Theorem createDetailedBreakdown_content
    (TASK_CATEGORIES : list (string * list string)) (totalsByCategory : list (string * Qc)) :
  createDetailedBreakdown TASK_CATEGORIES totalsByCategory
  ≡ₚ map (λ '(category, h),
            Activity.mk category h None (categoryTypeOf TASK_CATEGORIES category))
       (filter (λ '(_, h), (0 < h)%Qc) totalsByCategory)
  ∧ ∀ a, a ∈ createDetailedBreakdown TASK_CATEGORIES totalsByCategory →
         (Activity.name a, Activity.hours a) ∈ totalsByCategory
         ∧ (0 < Activity.hours a)%Qc
         ∧ Activity.cost a = None
         ∧ Activity.type a = categoryTypeOf TASK_CATEGORIES (Activity.name a).
Proof.
  unfold createDetailedBreakdown. split; [apply jsSort_Permutation|].
  intros a Ha. apply jsSort_elem in Ha.
  apply list_elem_of_fmap in Ha as ([category h] & -> & Hin).
  apply list_elem_of_filter in Hin as [Hpos Hin]. simpl. done.
Qed.

(** X2. The breakdown is ordered by hours, descending: no entry has fewer
    hours than one after it; and entries with equal hours keep the order their
    groupings have in the totals. *)
Theorem createDetailedBreakdown_order
    (TASK_CATEGORIES : list (string * list string)) (totalsByCategory : list (string * Qc)) :
  StronglySorted (λ a b, (Activity.hours b ≤ Activity.hours a)%Qc)
    (createDetailedBreakdown TASK_CATEGORIES totalsByCategory)
  ∧ ∀ h : Qc,
      map Activity.name
        (filter (λ a, Activity.hours a = h)
           (createDetailedBreakdown TASK_CATEGORIES totalsByCategory))
      = map fst (filter (λ entry, snd entry = h ∧ (0 < snd entry)%Qc) totalsByCategory).
Proof.
  unfold createDetailedBreakdown. split; [apply byHours_sorted|].
  intros h. rewrite jsSort_byHours_stable.
  induction totalsByCategory as [|[category x] totals IH]; [reflexivity|].
  rewrite !filter_cons. simpl.
  destruct (decide (0 < x)%Qc) as [Hpos|Hneg]; simpl.
  - rewrite filter_cons. simpl.
    destruct (decide (x = h)) as [Hx|Hx].
    + rewrite decide_True by done. simpl. by rewrite IH.
    + rewrite decide_False by (intros [? _]; done). exact IH.
  - rewrite decide_False by (intros [_ ?]; done). exact IH.
Qed.

(** ** The buckets of calculateDetailedTaskData *)

Lemma assocSet_keys {V} (k k' : string) (v : V) (o : list (string * V)) :
  k ∈ map fst (assocSet k' v o) ↔ k = k' ∨ k ∈ map fst o.
Proof.
  induction o as [|[k0 v0] o IH]; simpl.
  - rewrite list_elem_of_singleton. split; [by left|]. intros [H|H]; [done|].
    by apply elem_of_nil in H.
  - case_bool_decide as E; simpl.
    + subst k0. rewrite elem_of_cons. tauto.
    + rewrite !elem_of_cons, IH. tauto.
Qed.

Lemma initialTaskData_keys (tasks : list string) (k : string) :
  k ∈ map fst (initialTaskData tasks) ↔ k ∈ tasks.
Proof.
  unfold initialTaskData.
  assert (H : ∀ acc : DetailedTaskData,
             k ∈ map fst (fold_left (λ d task, assocSet task emptyBucket d) tasks acc)
             ↔ k ∈ tasks ∨ k ∈ map fst acc).
  { induction tasks as [|a tasks IH]; intros acc; simpl.
    - split; [by right|]. intros [H|H]; [by apply elem_of_nil in H|done].
    - rewrite IH, assocSet_keys, elem_of_cons. tauto. }
  rewrite H. simpl. split; [|by left]. intros [?|Hn]; [done|by apply elem_of_nil in Hn].
Qed.

Lemma assoc_is_Some {V} (k : string) (o : list (string * V)) :
  is_Some (assoc k o) ↔ k ∈ map fst o.
Proof.
  induction o as [|[k0 v0] o IH]; simpl.
  - split; [by intros [? ?]|]. intros H. by apply elem_of_nil in H.
  - case_bool_decide as E.
    + subst. split; [left|by eexists].
    + rewrite IH, elem_of_cons. split; [by right|]. intros [->|?]; [done|done].
Qed.

Lemma foldM_processRow_keys tasks rows :
  ∀ d d', foldM (processRow tasks) rows d = Ok d' → map fst d' = map fst d.
Proof.
  induction rows as [|row rows IH]; intros d d'; simpl; [by intros [= ->]|].
  destruct (processRow tasks d row) as [d1|e] eqn:E; simpl; [|discriminate].
  intros H. rewrite (IH _ _ H).
  destruct (processRow_ok_text _ _ _ _ E) as [s Hs].
  rewrite (processRow_text _ _ _ _ Hs) in E. injection E as <-.
  apply fold_processCell_keys.
Qed.

(** X3. The buckets [calculateDetailedTaskData] returns for the task columns
    of [getTaskCategories] are exactly the columns of the first row that are
    not Date, User or Week Range: a column that only a later row has gets no
    bucket, so the hours in it are not aggregated. *)
Theorem buckets_are_first_row_columns (row0 : Row) (rest : list Row) (d : DetailedTaskData) :
  calculateDetailedTaskData (row0 :: rest) (getTaskCategories (row0 :: rest)) = Ok d →
  ∀ column : string,
    is_Some (assoc column d)
    ↔ column ∈ map fst row0 ∧ column ∉ ["Date"; "User"; "Week Range"].
Proof.
  intros Hd column. unfold calculateDetailedTaskData in Hd.
  apply foldM_processRow_keys in Hd.
  rewrite assoc_is_Some, Hd, initialTaskData_keys. simpl.
  rewrite list_elem_of_filter. unfold isMetadataColumn.
  rewrite !not_elem_of_cons.
  split.
  - intros [Hmeta Hin]. split; [exact Hin|].
    apply negb_true_iff, orb_false_iff in Hmeta as [Hmeta H3].
    apply orb_false_iff in Hmeta as [H1 H2].
    apply bool_decide_eq_false in H1, H2, H3.
    repeat split; try done. apply not_elem_of_nil.
  - intros [Hin (H1 & H2 & H3 & _)]. split; [|exact Hin].
    apply negb_true_iff. by rewrite !bool_decide_false.
Qed.

Lemma buckets_are_first_row_columns_witness :
  ∃ d, calculateDetailedTaskData [kyleRow; lunchRow] (getTaskCategories [kyleRow; lunchRow]) = Ok d
       ∧ is_Some (assoc "BD - Research" d)
       ∧ assoc "Lunch" d = None.
Proof.
  assert (Hd : ∃ d, calculateDetailedTaskData [kyleRow; lunchRow]
                      (getTaskCategories [kyleRow; lunchRow]) = Ok d).
  { apply calculateDetailedTaskData_total.
    repeat constructor; exists "kyle@x.com"; reflexivity. }
  destruct Hd as [d Hd]. exists d. split; [exact Hd|].
  pose proof (buckets_are_first_row_columns kyleRow [lunchRow] d Hd) as H.
  split.
  - apply H. split; apply (bool_decide_unpack _); by vm_compute.
  - apply eq_None_not_Some. intros Hs. apply H in Hs as [Hin _].
    revert Hin. apply (bool_decide_unpack _). by vm_compute.
Defined.

(** A property of all buckets follows from its holding of the empty bucket
    and its being kept when positive hours of an employee are added at that
    employee's rate. *)
Section BucketInvariant.

Variable P : TaskBucket → Prop.
Hypothesis P_empty : P emptyBucket.
Hypothesis P_add :
  ∀ (name : string) (h : Qc) (b : TaskBucket),
    (0 < h)%Qc → P b → P (addToBucket name (rateOrDefault name) h b).

Lemma assocSet_Forall {V} (Q : V → Prop) (k : string) (v : V) (o : list (string * V)) :
  Q v → Forall (λ e, Q (snd e)) o → Forall (λ e, Q (snd e)) (assocSet k v o).
Proof.
  intros Hv. induction 1 as [|[k0 v0] o H0 Ho IH]; simpl.
  - by repeat constructor.
  - case_bool_decide; constructor; done.
Qed.

Lemma assocUpdate_Forall {V} (Q : V → Prop) (k : string) (f : V → V) (o : list (string * V)) :
  (∀ v, Q v → Q (f v)) → Forall (λ e, Q (snd e)) o → Forall (λ e, Q (snd e)) (assocUpdate k f o).
Proof.
  intros Hf. induction 1 as [|[k0 v0] o H0 Ho IH]; simpl.
  - constructor.
  - case_bool_decide; constructor; simpl; auto.
Qed.

Lemma initialTaskData_invariant (tasks : list string) :
  Forall (λ e, P (snd e)) (initialTaskData tasks).
Proof.
  unfold initialTaskData.
  assert (H : ∀ acc : DetailedTaskData, Forall (λ e, P (snd e)) acc →
             Forall (λ e, P (snd e))
               (fold_left (λ d task, assocSet task emptyBucket d) tasks acc)).
  { induction tasks as [|a tasks IH]; intros acc Hacc; simpl; [exact Hacc|].
    apply IH. by apply assocSet_Forall. }
  apply H. constructor.
Qed.

Lemma fold_processCell_invariant row name tasks (d : DetailedTaskData) :
  Forall (λ e, P (snd e)) d →
  Forall (λ e, P (snd e)) (fold_left (processCell row name (rateOrDefault name)) tasks d).
Proof.
  revert d. induction tasks as [|task tasks IH]; intros d Hd; simpl; [exact Hd|].
  apply IH. unfold processCell.
  destruct (gtZero (orZero (prop row task))) eqn:Hpos; [|exact Hd].
  apply assocUpdate_Forall; [|exact Hd].
  intros b Hb. apply P_add; [|exact Hb]. by apply contributes_positive.
Qed.

Lemma calculateDetailedTaskData_invariant rows tasks d :
  calculateDetailedTaskData rows tasks = Ok d → Forall (λ e, P (snd e)) d.
Proof.
  unfold calculateDetailedTaskData.
  pose proof (initialTaskData_invariant tasks) as Hinit. revert Hinit.
  generalize (initialTaskData tasks). revert d.
  induction rows as [|row rows IH]; intros d d0 Hd0; simpl; [by intros [= <-]|].
  destruct (processRow tasks d0 row) as [d1|e] eqn:E; simpl; [|discriminate].
  apply IH.
  destruct (processRow_ok_text _ _ _ _ E) as [s Hs].
  rewrite (processRow_text _ _ _ _ Hs) in E. injection E as <-.
  by apply fold_processCell_invariant.
Qed.

End BucketInvariant.

Lemma sharesHours_insert (shares : gmap string EmployeeShare) (name : string) (s : EmployeeShare) :
  sharesHours (<[name := s]> shares)
  = (hours s + sharesHours shares - hours (default (mkShare 0 0) (shares !! name)))%Qc.
Proof.
  unfold sharesHours.
  destruct (shares !! name) as [old|] eqn:E; simpl.
  - rewrite <- (insert_delete_eq shares name s).
    rewrite map_fold_insert_L; [|intros; ring|apply lookup_delete_eq].
    rewrite (map_fold_delete_L _ _ name old shares); [ring|intros; ring|exact E].
  - rewrite map_fold_insert_L; [ring|intros; ring|exact E].
Qed.

Lemma sharesCost_insert (shares : gmap string EmployeeShare) (name : string) (s : EmployeeShare) :
  sharesCost (<[name := s]> shares)
  = (cost s + sharesCost shares - cost (default (mkShare 0 0) (shares !! name)))%Qc.
Proof.
  unfold sharesCost.
  destruct (shares !! name) as [old|] eqn:E; simpl.
  - rewrite <- (insert_delete_eq shares name s).
    rewrite map_fold_insert_L; [|intros; ring|apply lookup_delete_eq].
    rewrite (map_fold_delete_L _ _ name old shares); [ring|intros; ring|exact E].
  - rewrite map_fold_insert_L; [ring|intros; ring|exact E].
Qed.

(** X4. For time-sheet rows of ordinary users, in every bucket that
    [calculateDetailedTaskData] returns the per-employee shares add up to the
    bucket: their hours to [totalHours] and their costs to [totalCost]. *)
Theorem byEmployee_adds_up (rows : list Row) (tasks : list string) (d : DetailedTaskData) :
  Forall ordinaryUser rows → timeSheetHours rows tasks →
  calculateDetailedTaskData rows tasks = Ok d →
  ∀ task b, (task, b) ∈ d →
    sharesHours (byEmployee b) = totalHours b ∧ sharesCost (byEmployee b) = totalCost b.
Proof.
  intros _ _ Hd task b Hin.
  pose proof (calculateDetailedTaskData_invariant
                (λ b, sharesHours (byEmployee b) = totalHours b
                      ∧ sharesCost (byEmployee b) = totalCost b)) as Hinv.
  refine (proj1 (Forall_forall _ _) (Hinv _ _ rows tasks d Hd) (task, b) Hin).
  - split; reflexivity.
  - intros name h b0 _ [Hh Hc]. simpl.
    rewrite sharesHours_insert, sharesCost_insert, Hh, Hc. simpl. split; ring.
Qed.

Lemma byEmployee_adds_up_witness :
  Forall ordinaryUser [kyleRow; austinRow; kyleLaterRow]
  ∧ timeSheetHours [kyleRow; austinRow; kyleLaterRow] ["BD - Research"]
  ∧ ∃ d b, calculateDetailedTaskData [kyleRow; austinRow; kyleLaterRow] ["BD - Research"] = Ok d
           ∧ (("BD - Research", b) ∈ d)
           ∧ sharesHours (byEmployee b) = totalHours b
           ∧ sharesCost (byEmployee b) = totalCost b.
Proof.
  assert (H1 : Forall ordinaryUser [kyleRow; austinRow; kyleLaterRow]).
  { repeat constructor;
      [ordinary_user "kyle@x.com"|ordinary_user "Austin@x.com"|ordinary_user "kyle@x.com"]. }
  assert (H2 : timeSheetHours [kyleRow; austinRow; kyleLaterRow] ["BD - Research"]).
  { split; [|by vm_compute].
    constructor; [constructor; [quarter_hours 8%Z|constructor]|].
    constructor; [constructor; [quarter_hours 4%Z|constructor]|].
    constructor; [constructor; [quarter_hours 16%Z|constructor]|constructor]. }
  split; [exact H1|]. split; [exact H2|].
  assert (Hd : ∃ d, calculateDetailedTaskData [kyleRow; austinRow; kyleLaterRow]
                      ["BD - Research"] = Ok d).
  { apply calculateDetailedTaskData_total. by apply ordinaryUsers_text. }
  destruct Hd as [d Hd].
  assert (Hb : is_Some (assoc "BD - Research" d)).
  { rewrite assoc_is_Some. unfold calculateDetailedTaskData in Hd.
    rewrite (foldM_processRow_keys _ _ _ _ Hd), initialTaskData_keys. left. }
  destruct Hb as [b Hb]. apply assoc_Some_elem in Hb.
  exists d, b. split; [exact Hd|]. split; [exact Hb|].
  exact (byEmployee_adds_up _ _ _ H1 H2 Hd _ _ Hb).
Defined.

(** X5. For time-sheet rows of ordinary users, in every bucket the share
    recorded under an employee key has hours above zero and a cost equal to
    those hours times the hourly rate of that key. *)
Theorem byEmployee_cost_at_own_rate (rows : list Row) (tasks : list string) (d : DetailedTaskData) :
  Forall ordinaryUser rows → timeSheetHours rows tasks →
  calculateDetailedTaskData rows tasks = Ok d →
  ∀ task b name share, (task, b) ∈ d → byEmployee b !! name = Some share →
    (0 < hours share)%Qc ∧ cost share = (hours share * rateOrDefault name)%Qc.
Proof.
  intros _ _ Hd task b name share Hin Hshare.
  pose proof (calculateDetailedTaskData_invariant
                (λ b, ∀ name share, byEmployee b !! name = Some share →
                        (0 < hours share)%Qc
                        ∧ cost share = (hours share * rateOrDefault name)%Qc)) as Hinv.
  refine (proj1 (Forall_forall _ _) (Hinv _ _ rows tasks d Hd) (task, b) Hin name share Hshare).
  - intros n s Hn. simpl in Hn. by rewrite lookup_empty in Hn.
  - intros n h b0 Hh Hb0 n' s'. simpl.
    destruct (decide (n = n')) as [<-|Hne].
    + rewrite lookup_insert_eq. intros [= <-]. simpl.
      destruct (byEmployee b0 !! n) as [old|] eqn:E; simpl.
      * destruct (Hb0 n old E) as [Hpos Hcost]. rewrite Hcost. split; [|ring].
        apply Qclt_le_trans with h; [exact Hh|].
        rewrite <- (Qcplus_0_l h) at 1.
        apply Qcplus_le_compat; [by apply Qclt_le_weak|apply Qcle_refl].
      * split; [|ring]. by replace (0 + h)%Qc with h by ring.
    + rewrite lookup_insert_ne by exact Hne. apply Hb0.
Qed.

Lemma byEmployee_cost_at_own_rate_witness :
  Forall ordinaryUser [kyleRow; austinRow; kyleLaterRow]
  ∧ timeSheetHours [kyleRow; austinRow; kyleLaterRow] ["BD - Research"]
  ∧ ∃ d b share,
      calculateDetailedTaskData [kyleRow; austinRow; kyleLaterRow] ["BD - Research"] = Ok d
      ∧ (("BD - Research", b) ∈ d)
      ∧ byEmployee b !! "kyle" = Some share
      ∧ (0 < hours share)%Qc
      ∧ cost share = (hours share * rateOrDefault "kyle")%Qc.
Proof.
  assert (H1 : Forall ordinaryUser [kyleRow; austinRow; kyleLaterRow]).
  { repeat constructor;
      [ordinary_user "kyle@x.com"|ordinary_user "Austin@x.com"|ordinary_user "kyle@x.com"]. }
  assert (H2 : timeSheetHours [kyleRow; austinRow; kyleLaterRow] ["BD - Research"]).
  { split; [|by vm_compute].
    constructor; [constructor; [quarter_hours 8%Z|constructor]|].
    constructor; [constructor; [quarter_hours 4%Z|constructor]|].
    constructor; [constructor; [quarter_hours 16%Z|constructor]|constructor]. }
  split; [exact H1|]. split; [exact H2|].
  destruct (calculateDetailedTaskData [kyleRow; austinRow; kyleLaterRow] ["BD - Research"])
    as [d|e] eqn:E; [|vm_compute in E; discriminate E].
  assert (Hb : ∃ b share, assoc "BD - Research" d = Some b ∧ byEmployee b !! "kyle" = Some share).
  { pose proof E as E'. vm_compute in E'. injection E' as <-.
    eexists _, _. split; vm_compute; reflexivity. }
  destruct Hb as (b & share & Hb & Hshare). apply assoc_Some_elem in Hb.
  exists d, b, share. split; [reflexivity|]. split; [exact Hb|]. split; [exact Hshare|].
  exact (byEmployee_cost_at_own_rate _ _ _ H1 H2 E _ _ _ _ Hb Hshare).
Defined.

(** ** calculateTotalsByCategory *)

Lemma assoc_assocSet_eq {V} (k : string) (v : V) (o : list (string * V)) :
  assoc k (assocSet k v o) = Some v.
Proof.
  induction o as [|[k0 v0] o IH]; simpl; [by rewrite bool_decide_true|].
  case_bool_decide as E; simpl.
  - by rewrite bool_decide_true.
  - by rewrite bool_decide_false.
Qed.

Lemma assoc_assocSet_ne {V} (k k' : string) (v : V) (o : list (string * V)) :
  k ≠ k' → assoc k' (assocSet k v o) = assoc k' o.
Proof.
  intros Hne. induction o as [|[k0 v0] o IH]; simpl.
  - by rewrite bool_decide_false.
  - case_bool_decide as E; simpl.
    + subst k0. by rewrite !bool_decide_false.
    + by rewrite IH.
Qed.

Lemma calculateTotalsByCategory_lookup numberToString rows tasks c :
  c ∈ tasks →
  assoc c (calculateTotalsByCategory numberToString rows tasks)
  = Some (columnTotal numberToString rows c).
Proof.
  unfold calculateTotalsByCategory. generalize (@nil (string * jsval)).
  induction tasks as [|a tasks IH] using rev_ind; intros acc Hc; [by apply elem_of_nil in Hc|].
  rewrite fold_left_app. simpl.
  destruct (decide (a = c)) as [->|Hne]; [apply assoc_assocSet_eq|].
  rewrite assoc_assocSet_ne by exact Hne. apply IH.
  apply elem_of_app in Hc as [Hc|Hc]; [exact Hc|].
  apply list_elem_of_singleton in Hc. by destruct Hne.
Qed.

Lemma columnTotal_numeric numberToString rows c :
  columnIsNumeric rows c →
  columnTotal numberToString rows c = VNum (sumQc (map (taskHoursOf c) rows)).
Proof.
  unfold columnTotal. intros Hnum.
  assert (H : ∀ q, fold_left (λ sum row, addCell numberToString sum (prop row c)) rows (VNum q)
                   = VNum (q + sumQc (map (taskHoursOf c) rows))%Qc).
  { induction rows as [|row rows IH]; intros q; cbn [fold_left].
    - simpl. f_equal. ring.
    - assert (Hrow : addCell numberToString (VNum q) (prop row c)
                     = VNum (q + taskHoursOf c row)%Qc).
      { unfold addCell, taskHoursOf.
        pose proof (Hnum row ltac:(left)) as Hs.
        destruct (orZero (prop row c)) as [| |b|x|s]; try reflexivity. by destruct (Hs s). }
      rewrite Hrow, IH by (intros r Hr; apply Hnum; by right). simpl. f_equal. ring. }
  rewrite H. f_equal. ring.
Qed.

Lemma sum_of_contributing rows c :
  columnIsNonNegative rows c →
  sumQc (map (taskHoursOf c) rows) = expectedTotalHours rows c.
Proof.
  unfold expectedTotalHours, contributingRows. intros Hpos.
  induction rows as [|row rows IH]; [reflexivity|].
  rewrite filter_cons. simpl.
  rewrite IH by (intros r Hr; apply Hpos; by right).
  destruct (decide (contributes c row = true)) as [Hc|Hc]; [reflexivity|].
  assert (Hz : taskHoursOf c row = 0%Qc).
  { pose proof (Hpos row ltac:(left)) as H0.
    unfold contributes, gtZero in Hc. unfold taskHoursOf, numberOf in *.
    destruct (toNumber (orZero (prop row c))) as [q|]; simpl in *; [|reflexivity].
    apply not_true_is_false, bool_decide_eq_false in Hc.
    apply Qcle_antisym; [by apply Qcnot_lt_le|exact H0]. }
  rewrite Hz. ring.
Qed.

(** X6. Where a column holds no text and no value below zero,
    [calculateTotalsByCategory] and [calculateDetailedTaskData] agree: the
    total of the column is the number that the detailed aggregation has as
    the [totalHours] of the column's bucket. *)
Theorem totals_agree_with_detailed
    (numberToString : Qc → string) (rows : list Row) (tasks : list string)
    (d : DetailedTaskData) (column : string) :
  NoDup tasks →
  calculateDetailedTaskData rows tasks = Ok d →
  column ∈ tasks →
  columnIsNumeric rows column →
  columnIsNonNegative rows column →
  ∃ b, assoc column d = Some b
       ∧ assoc column (calculateTotalsByCategory numberToString rows tasks)
         = Some (VNum (totalHours b)).
Proof.
  intros Hnd Hd Hin Hnum Hpos. unfold calculateDetailedTaskData in Hd.
  pose proof (foldM_ok_text _ _ _ _ Hd) as Htext.
  destruct (aggregate_rows tasks rows Hnd Htext (initialTaskData tasks))
    as (d' & Hd' & _ & Hall).
  rewrite Hd in Hd'. injection Hd' as <-.
  destruct (Hall column emptyBucket) as (b & Hb & Hsum & _).
  { rewrite initialTaskData_shape by exact Hnd. by apply assoc_map_const. }
  exists b. split; [exact Hb|].
  rewrite calculateTotalsByCategory_lookup by exact Hin.
  rewrite columnTotal_numeric by exact Hnum.
  rewrite sum_of_contributing by exact Hpos.
  destruct (Hsum Hin) as [-> _]. simpl. do 2 f_equal. ring.
Qed.

Lemma totals_agree_with_detailed_witness :
  ∃ d b, calculateDetailedTaskData [kyleRow; austinRow; kyleLaterRow] ["BD - Research"] = Ok d
         ∧ assoc "BD - Research" d = Some b
         ∧ assoc "BD - Research"
             (calculateTotalsByCategory (λ _, "") [kyleRow; austinRow; kyleLaterRow]
                ["BD - Research"])
           = Some (VNum (totalHours b)).
Proof.
  destruct (calculateDetailedTaskData [kyleRow; austinRow; kyleLaterRow] ["BD - Research"])
    as [d|e] eqn:E; [|vm_compute in E; discriminate E].
  destruct (totals_agree_with_detailed (λ _, "") [kyleRow; austinRow; kyleLaterRow]
              ["BD - Research"] d "BD - Research") as (b & Hb & Ht).
  - apply NoDup_singleton.
  - exact E.
  - left.
  - intros row Hrow s.
    repeat (apply elem_of_cons in Hrow as [->|Hrow]; [by vm_compute|]).
    by apply elem_of_nil in Hrow.
  - intros row Hrow.
    repeat (apply elem_of_cons in Hrow as [->|Hrow]; [by vm_compute|]).
    by apply elem_of_nil in Hrow.
  - exists d, b. split; [reflexivity|]. split; [exact Hb|exact Ht].
Defined.

(** With a cell below zero the two aggregations part: the column total
    subtracts, the bucket skips the cell. *)
Example correction_counts_in_totals_only :
  assoc "BD - Research"
    (calculateTotalsByCategory (λ _, "") [kyleRow; correctionRow] ["BD - Research"])
  = Some (VNum (Q2Qc 1))
  ∧ ∃ d b, calculateDetailedTaskData [kyleRow; correctionRow] ["BD - Research"] = Ok d
           ∧ assoc "BD - Research" d = Some b
           ∧ totalHours b = Q2Qc 2.
Proof.
  split.
  - rewrite calculateTotalsByCategory_lookup by left.
    rewrite columnTotal_numeric.
    + f_equal; f_equal; try (apply Qc_is_canon; reflexivity).
    + intros row Hrow s.
      repeat (apply elem_of_cons in Hrow as [->|Hrow]; [by vm_compute|]).
      by apply elem_of_nil in Hrow.
  - destruct (calculateDetailedTaskData [kyleRow; correctionRow] ["BD - Research"])
      as [d|e] eqn:E; [|vm_compute in E; discriminate E].
    pose proof E as E'. vm_compute in E'. injection E' as <-.
    eexists _, _. split; [reflexivity|]. split; [vm_compute; reflexivity|].
    apply Qc_is_canon. reflexivity.
Qed.

Lemma addCell_text_stays numberToString rows c (s : string) :
  ∃ text, fold_left (λ sum row, addCell numberToString sum (prop row c)) rows (VStr s)
          = VStr text.
Proof.
  revert s. induction rows as [|row rows IH]; intros s; simpl; [by exists s|]. apply IH.
Qed.

(** X7. One cell of text in a column makes the total of that column a string
    instead of a number: from that row on [+] concatenates. *)
Theorem text_cell_makes_total_text
    (numberToString : Qc → string) (rows : list Row) (tasks : list string)
    (column : string) (row : Row) (s : string) :
  column ∈ tasks → row ∈ rows → prop row column = VStr s → s ≠ "" →
  ∃ text, assoc column (calculateTotalsByCategory numberToString rows tasks)
          = Some (VStr text).
Proof.
  intros Hin Hrow Hs Hne.
  rewrite calculateTotalsByCategory_lookup by exact Hin.
  apply list_elem_of_split in Hrow as (l1 & l2 & ->).
  unfold columnTotal. rewrite fold_left_app. simpl. rewrite Hs.
  assert (Hcell : ∀ sum, ∃ text, addCell numberToString sum (VStr s) = VStr text).
  { intros sum. unfold addCell, orZero. simpl.
    rewrite bool_decide_false by exact Hne. simpl.
    destruct sum; by eexists. }
  destruct (Hcell (fold_left (λ sum r, addCell numberToString sum (prop r column)) l1
                     (VNum 0%Qc))) as [text ->].
  destruct (addCell_text_stays numberToString l2 column text) as [text' ->].
  by exists text'.
Qed.

Lemma text_cell_makes_total_text_witness :
  ∃ text, assoc "BD - Research"
            (calculateTotalsByCategory (λ _, "0") [noteRow; kyleRow] ["BD - Research"])
          = Some (VStr text).
Proof.
  apply (text_cell_makes_total_text (λ _, "0") [noteRow; kyleRow] ["BD - Research"]
           "BD - Research" noteRow "n/a").
  - left.
  - left.
  - reflexivity.
  - discriminate.
Defined.

(** ** The data of the bar chart *)

Lemma Qc_minus_le_zero (x y : Qc) : (x - y ≤ 0)%Qc ↔ (x ≤ y)%Qc.
Proof.
  rewrite (Qcle_minus_iff (x - y) 0), (Qcle_minus_iff x y).
  replace (0 + - (x - y))%Qc with (y + - x)%Qc by ring. reflexivity.
Qed.

Lemma ofNat_le (i j : nat) : (ofNat i ≤ ofNat j)%Qc ↔ (i ≤ j)%nat.
Proof.
  unfold ofNat, Qcle. simpl. rewrite !Qred_correct, <- Zle_Qle. lia.
Qed.

Lemma notAfter_byTaskOrder (TASK_ORDER : list string) (a b : Activity.t) :
  notAfter (byTaskOrder TASK_ORDER) a b = true ↔ taskOrderLe TASK_ORDER a b.
Proof.
  unfold notAfter, byTaskOrder, taskOrderLe.
  destruct (indexOf (Activity.name a) TASK_ORDER) as [i|],
           (indexOf (Activity.name b) TASK_ORDER) as [j|].
  - by rewrite bool_decide_eq_true, Qc_minus_le_zero, ofNat_le.
  - split; [done|]. intros _. by apply bool_decide_eq_true.
  - split; [|done]. intros H. apply bool_decide_eq_true in H. by vm_compute in H.
  - by rewrite bool_decide_eq_true, Qc_minus_le_zero.
Qed.

Lemma taskOrderLe_total (TASK_ORDER : list string) (a b : Activity.t) :
  ¬ taskOrderLe TASK_ORDER a b → taskOrderLe TASK_ORDER b a.
Proof.
  unfold taskOrderLe.
  destruct (indexOf (Activity.name a) TASK_ORDER) as [i|],
           (indexOf (Activity.name b) TASK_ORDER) as [j|]; try done.
  - lia.
  - intros H. by apply Qclt_le_weak, Qcnot_le_lt.
Qed.

Lemma taskOrderLe_trans (TASK_ORDER : list string) (a b c : Activity.t) :
  taskOrderLe TASK_ORDER a b → taskOrderLe TASK_ORDER b c → taskOrderLe TASK_ORDER a c.
Proof.
  unfold taskOrderLe.
  destruct (indexOf (Activity.name a) TASK_ORDER) as [i|],
           (indexOf (Activity.name b) TASK_ORDER) as [j|],
           (indexOf (Activity.name c) TASK_ORDER) as [k|]; try done.
  - lia.
  - intros H1 H2. by eapply Qcle_trans.
Qed.

Lemma indexOf_Some (x : string) (l : list string) : is_Some (indexOf x l) ↔ x ∈ l.
Proof.
  induction l as [|y l IH]; simpl.
  - split; [by intros [? ?]|]. intros H. by apply elem_of_nil in H.
  - case_bool_decide as E.
    + subst. split; [left|by eexists].
    + rewrite fmap_is_Some, IH, elem_of_cons. split; [by right|]. by intros [->|?].
Qed.

Lemma indexOf_lookup (x : string) (l : list string) (i : nat) :
  indexOf x l = Some i → l !! i = Some x ∧ ∀ j, (j < i)%nat → l !! j ≠ Some x.
Proof.
  revert i. induction l as [|y l IH]; intros i; simpl; [discriminate|].
  case_bool_decide as E.
  - intros [= <-]. subst. split; [reflexivity|]. lia.
  - destruct (indexOf x l) as [i'|]; simpl; [|discriminate]. intros [= <-].
    destruct (IH i' eq_refl) as [H1 H2]. split; [exact H1|].
    intros [|j] Hj; simpl; [by intros [= ->]|]. apply H2. lia.
Qed.

(** X8. At task level the bars are the entries of the breakdown, rearranged:
    the tasks that [TASK_ORDER] lists come first, in the order of their first
    position in that list, and the tasks it does not list follow, by hours,
    descending. *)
Theorem taskBarData_order (TASK_ORDER : list string) (detailedBreakdown : list Activity.t) :
  taskBarData TASK_ORDER detailedBreakdown ≡ₚ detailedBreakdown
  ∧ StronglySorted (taskOrderLe TASK_ORDER) (taskBarData TASK_ORDER detailedBreakdown)
  ∧ ∀ a b, taskOrderLe TASK_ORDER a b ↔
      match indexOf (Activity.name a) TASK_ORDER, indexOf (Activity.name b) TASK_ORDER with
      | Some i, Some j =>
          TASK_ORDER !! i = Some (Activity.name a) ∧ TASK_ORDER !! j = Some (Activity.name b)
          ∧ (i ≤ j)%nat
      | Some _, None => Activity.name b ∉ TASK_ORDER
      | None, Some _ => False
      | None, None =>
          (Activity.name a ∉ TASK_ORDER) ∧ (Activity.name b ∉ TASK_ORDER)
          ∧ (Activity.hours b ≤ Activity.hours a)%Qc
      end.
Proof.
  unfold taskBarData. split; [apply jsSort_Permutation|]. split.
  - assert (H : StronglySorted (λ a b, notAfter (byTaskOrder TASK_ORDER) a b = true)
                  (jsSort (byTaskOrder TASK_ORDER) detailedBreakdown)).
    { apply jsSort_sorted.
      - intros a b Hab. apply notAfter_byTaskOrder, taskOrderLe_total.
        rewrite <- notAfter_byTaskOrder. by rewrite Hab.
      - intros a b c. rewrite !notAfter_byTaskOrder. apply taskOrderLe_trans. }
    induction H as [|a r _ IH Ha]; constructor; [exact IH|].
    eapply Forall_impl; [exact Ha|]. intros b Hb. by apply notAfter_byTaskOrder.
  - intros a b. unfold taskOrderLe.
    destruct (indexOf (Activity.name a) TASK_ORDER) as [i|] eqn:Ea,
             (indexOf (Activity.name b) TASK_ORDER) as [j|] eqn:Eb.
    + destruct (indexOf_lookup _ _ _ Ea) as [Ha _], (indexOf_lookup _ _ _ Eb) as [Hb _].
      tauto.
    + split; [|done]. intros _ Hin. apply indexOf_Some in Hin as [? Hin]. congruence.
    + done.
    + assert (Ha : Activity.name a ∉ TASK_ORDER).
      { intros Hin. apply indexOf_Some in Hin as [? Hin]. congruence. }
      assert (Hb : Activity.name b ∉ TASK_ORDER).
      { intros Hin. apply indexOf_Some in Hin as [? Hin]. congruence. }
      tauto.
Qed.

(** The bars of a breakdown with two tasks outside the shipped order list. *)
Example taskBarData_example :
  map Activity.name (taskBarData MetricsOrder.TASK_ORDER mixedBreakdown)
  = ["BD - Research"; "Admin"; "Walk"; "Lunch"].
Proof. reflexivity. Qed.

Section CategoryBars.

Variable TASK_CATEGORIES : list (string * list string).
Hypothesis categories_distinct : NoDup (map fst TASK_CATEGORIES).





End CategoryBars.





(** The bars of the sample breakdown: the two categories at 5 hours in the
    order of the configuration, then the one at 2. *)
Example categoryBarData_example :
  map Bar.name (categoryBarData MetricsConfig.TASK_CATEGORIES sampleBreakdown)
  = ["Business Development"; "Advertising"; "Internal Operations"].
Proof. reflexivity. Qed.

(** ** filterDataByWeekRange and validateWeekSelection *)

Lemma filter_all_kept {A} (P : A → Prop) `{∀ x, Decision (P x)} (l : list A) :
  (∀ x, x ∈ l → P x) → filter P l = l.
Proof.
  induction l as [|a l IH]; intros Hall; [reflexivity|].
  rewrite filter_cons, decide_True by (apply Hall; left).
  f_equal. apply IH. intros x Hx. apply Hall. by right.
Qed.

Lemma filter_none_kept {A} (P : A → Prop) `{∀ x, Decision (P x)} (l : list A) :
  (∀ x, x ∈ l → ¬ P x) → filter P l = [].
Proof.
  induction l as [|a l IH]; intros Hall; [reflexivity|].
  rewrite filter_cons, decide_False by (apply Hall; left).
  apply IH. intros x Hx. apply Hall. by right.
Qed.

Lemma filterDataByWeekRange_filter (host : Host) (data : list Row) (startWeek endWeek : string) :
  filterDataByWeekRange host data startWeek endWeek
  = filter (λ row, fromWeek host startWeek row ∧ untilWeek host endWeek row) data.
Proof.
  unfold filterDataByWeekRange, fromWeek, untilWeek.
  destruct (decide (startWeek = "all")) as [Hs|Hs], (decide (endWeek = "all")) as [He|He].
  - rewrite !bool_decide_true by done. simpl.
    symmetry. apply filter_all_kept. intros row _. split; by left.
  - rewrite (bool_decide_true _ Hs), (bool_decide_false _ He). simpl.
    apply list_filter_iff. intros row. split.
    + intros H. split; [by left|by right].
    + intros [_ [H|H]]; [done|exact H].
  - rewrite (bool_decide_false _ Hs), (bool_decide_true _ He). simpl.
    apply list_filter_iff. intros row. split.
    + intros H. split; [by right|by left].
    + intros [[H|H] _]; [done|exact H].
  - rewrite (bool_decide_false _ Hs), (bool_decide_false _ He). simpl.
    apply list_filter_iff. intros row. rewrite andb_true_iff. split.
    + intros [H1 H2]. split; by right.
    + intros [[H1|H1] [H2|H2]]; done.
Qed.

(** X10. Filtering by a week range composes: both bounds at once give the
    same rows as the start bound followed by the end bound, or the end bound
    followed by the start bound; and filtering the result again by the same
    range changes nothing. *)
Theorem filterDataByWeekRange_composes
    (host : Host) (data : list Row) (startWeek endWeek : string) :
  filterDataByWeekRange host data startWeek endWeek
  = filterDataByWeekRange host (filterDataByWeekRange host data startWeek "all") "all" endWeek
  ∧ filterDataByWeekRange host data startWeek endWeek
    = filterDataByWeekRange host (filterDataByWeekRange host data "all" endWeek) startWeek "all"
  ∧ filterDataByWeekRange host (filterDataByWeekRange host data startWeek endWeek)
      startWeek endWeek
    = filterDataByWeekRange host data startWeek endWeek.
Proof.
  rewrite !filterDataByWeekRange_filter, !list_filter_filter.
  repeat split; apply list_filter_iff; intros row; unfold fromWeek, untilWeek; tauto.
Qed.

Lemma kept_row_dates (host : Host) (row : Row) (bound : string) :
  geZero (compareWeekRanges host (prop row "Week Range") (VStr bound)) = true
  ∨ leZero (compareWeekRanges host (prop row "Week Range") (VStr bound)) = true →
  is_Some (parseStartDateFromWeekRange host (prop row "Week Range"))
  ∧ is_Some (parseStartDateFromWeekRange host (VStr bound)).
Proof.
  unfold compareWeekRanges.
  destruct (parseStartDateFromWeekRange host (prop row "Week Range")) as [t|],
           (parseStartDateFromWeekRange host (VStr bound)) as [tb|]; simpl;
    intros [H|H]; try discriminate; split; by eexists.
Qed.

(** X11. Once a bound is set, a row is kept only if its week label and the
    bound both give a valid date: rows whose label gives the Invalid Date are
    dropped, and a bound that gives the Invalid Date selects no rows at all. *)
Theorem invalid_dates_select_nothing
    (host : Host) (data : list Row) (startWeek endWeek : string) :
  (∀ row, row ∈ filterDataByWeekRange host data startWeek endWeek →
          startWeek ≠ "all" ∨ endWeek ≠ "all" →
          hasValidDate host (prop row "Week Range"))
  ∧ (startWeek ≠ "all" → ¬ hasValidDate host (VStr startWeek) →
     filterDataByWeekRange host data startWeek endWeek = [])
  ∧ (endWeek ≠ "all" → ¬ hasValidDate host (VStr endWeek) →
     filterDataByWeekRange host data startWeek endWeek = []).
Proof.
  rewrite filterDataByWeekRange_filter. unfold hasValidDate, fromWeek, untilWeek.
  split; [|split].
  - intros row Hrow Hset. apply list_elem_of_filter in Hrow as [[Hs He] _].
    destruct Hset as [Hne|Hne].
    + destruct Hs as [Hs|Hs]; [done|]. apply (kept_row_dates host row startWeek). by left.
    + destruct He as [He|He]; [done|]. apply (kept_row_dates host row endWeek). by right.
  - intros Hne Hbad. apply filter_none_kept. intros row _ [[Hs|Hs] _]; [done|].
    apply Hbad, (kept_row_dates host row startWeek). by left.
  - intros Hne Hbad. apply filter_none_kept. intros row _ [_ [He|He]]; [done|].
    apply Hbad, (kept_row_dates host row endWeek). by right.
Qed.

(** A label with the month spelt "Sept" is dropped by any bound, and as a
    bound it selects nothing. *)
Example sept_label_is_lost :
  filterDataByWeekRange utcHost [kyleRow; septRow; austinRow] "Mar 10 – Mar 15 (2025)" "all"
  = [kyleRow; austinRow]
  ∧ filterDataByWeekRange utcHost [kyleRow; septRow; austinRow] "Sept 1 – Sept 6 (2025)" "all"
    = [].
Proof. split; reflexivity. Qed.

(** X12. A selection that [validateWeekSelection] rejects selects no rows:
    [filterDataByWeekRange] returns the empty list for it. *)
Theorem rejected_selection_selects_nothing
    (host : Host) (data : list Row) (startWeek endWeek : string) :
  validateWeekSelection host startWeek endWeek = false →
  filterDataByWeekRange host data startWeek endWeek = [].
Proof.
  unfold validateWeekSelection. intros Hv.
  destruct (decide (startWeek = "all")) as [Hs|Hs];
    [by rewrite (bool_decide_true _ Hs) in Hv|].
  destruct (decide (endWeek = "all")) as [He|He];
    [by rewrite (bool_decide_true _ He), orb_true_r in Hv|].
  rewrite (bool_decide_false _ Hs), (bool_decide_false _ He) in Hv. simpl in Hv.
  rewrite filterDataByWeekRange_filter. apply filter_none_kept.
  intros row _ [[H1|H1] [H2|H2]]; try done.
  revert Hv H1 H2. unfold compareWeekRanges.
  destruct (parseStartDateFromWeekRange host (prop row "Week Range")) as [t|],
           (parseStartDateFromWeekRange host (VStr startWeek)) as [ts|],
           (parseStartDateFromWeekRange host (VStr endWeek)) as [te|]; simpl;
    try discriminate.
  intros Hv H1 H2.
  apply Z.leb_le in H1, H2. apply Z.leb_gt in Hv. lia.
Qed.

Lemma rejected_selection_selects_nothing_witness :
  validateWeekSelection utcHost "Mar 17 – Mar 22 (2025)" "Mar 10 – Mar 15 (2025)" = false
  ∧ filterDataByWeekRange utcHost [kyleRow; austinRow]
      "Mar 17 – Mar 22 (2025)" "Mar 10 – Mar 15 (2025)" = [].
Proof.
  assert (Hv : validateWeekSelection utcHost "Mar 17 – Mar 22 (2025)" "Mar 10 – Mar 15 (2025)"
               = false) by (vm_compute; reflexivity).
  split; [exact Hv|].
  exact (rejected_selection_selects_nothing utcHost [kyleRow; austinRow] _ _ Hv).
Defined.

(** ** filterData *)

Lemma filterM_user_filter (p : string → bool) (rows : list Row) :
  Forall userIsText rows →
  filterM (λ row, user ← valToLowerCase (prop row "User"); Ok (p user)) rows
  = Ok (filter (λ row, userMatches p row = true) rows).
Proof.
  induction 1 as [|row rows [s Hs] _ IH]; [reflexivity|].
  assert (Hm : userMatches p row = p (toLowerCase s)).
  { unfold userMatches. by rewrite Hs. }
  rewrite filter_cons. cbn [filterM]. cbv beta. rewrite Hs, IH. simpl.
  destruct (decide (userMatches p row = true)) as [Hd|Hd]; rewrite Hm in Hd.
  - by rewrite Hd.
  - apply not_true_is_false in Hd. by rewrite Hd.
Qed.

Lemma filterM_user_throws (p : string → bool) (rows : list Row) :
  ¬ Forall userIsText rows →
  filterM (λ row, user ← valToLowerCase (prop row "User"); Ok (p user)) rows = Throw TypeError.
Proof.
  induction rows as [|row rows IH]; intros Hnot; [by destruct Hnot|].
  cbn [filterM]. cbv beta.
  destruct (prop row "User") as [| |b|q|s] eqn:Hu; try reflexivity.
  simpl. rewrite IH; [reflexivity|].
  intros Hrest. apply Hnot. constructor; [by exists s|exact Hrest].
Qed.

(** The rows that the stages keep when they return. *)
Lemma filterStages_ok (host : Host) (state : FilterState) (data : list Row) :
  activeEmployee state = "all"
  ∨ Forall userIsText
      (filterDataByWeekRange host data (dateRangeStart state) (dateRangeEnd state)) →
  filterStages host state data
  = Ok (filter (λ row, taskCategory state = "all" ∨ taskCategory state ∈ getTaskCategories [row])
          (filter (λ row, searchQuery state = ""
                          ∨ rowMatchesQuery (toLowerCase (searchQuery state)) row = true)
             (filter (λ row, activeEmployee state = "all"
                             ∨ userMatches
                                 (λ user, includes user (toLowerCase (activeEmployee state)))
                                 row = true)
                (filterDataByWeekRange host data (dateRangeStart state)
                   (dateRangeEnd state))))).
Proof.
  intros Huser. unfold filterStages.
  set (weeks := filterDataByWeekRange host data (dateRangeStart state) (dateRangeEnd state)).
  assert (Hweeks : (if negb (bool_decide (dateRangeStart state = "all"))
                       || negb (bool_decide (dateRangeEnd state = "all"))
                    then weeks else data) = weeks).
  { unfold weeks, filterDataByWeekRange.
    destruct (bool_decide (dateRangeStart state = "all")),
             (bool_decide (dateRangeEnd state = "all")); reflexivity. }
  rewrite Hweeks. fold weeks in Huser. clearbody weeks. clear Hweeks.
  assert (Hemp : (if negb (bool_decide (activeEmployee state = "all"))
                  then filterM (λ row, user ← valToLowerCase (prop row "User");
                                  Ok (includes user (toLowerCase (activeEmployee state))))
                         weeks
                  else Ok weeks)
                 = Ok (filter (λ row, activeEmployee state = "all"
                                      ∨ userMatches
                                          (λ user, includes user
                                                     (toLowerCase (activeEmployee state)))
                                          row = true) weeks)).
  { case_bool_decide as He; simpl.
    - f_equal. symmetry. apply filter_all_kept. intros row _. by left.
    - destruct Huser as [Hall|Htext]; [done|].
      rewrite (filterM_user_filter _ _ Htext). f_equal.
      apply list_filter_iff. intros row. split; [by right|by intros [?|?]]. }
  rewrite Hemp. clear Hemp. simpl. f_equal.
  match goal with |- context [filter _ weeks] => generalize (filter
    (λ row, activeEmployee state = "all"
            ∨ userMatches (λ user, includes user (toLowerCase (activeEmployee state))) row
              = true) weeks) end.
  intros rows.
  assert (Hq : (if negb (bool_decide (searchQuery state = ""))
                then filter (λ row, rowMatchesQuery (toLowerCase (searchQuery state)) row = true)
                       rows
                else rows)
               = filter (λ row, searchQuery state = ""
                                ∨ rowMatchesQuery (toLowerCase (searchQuery state)) row = true)
                   rows).
  { case_bool_decide as Hq; simpl.
    - symmetry. apply filter_all_kept. intros row _. by left.
    - apply list_filter_iff. intros row. split; [by right|by intros [?|?]]. }
  rewrite Hq. clear Hq. generalize (filter (λ row, searchQuery state = ""
                                ∨ rowMatchesQuery (toLowerCase (searchQuery state)) row = true)
                   rows). intros rows'.
  case_bool_decide as Hc; simpl.
  - symmetry. apply filter_all_kept. intros row _. by left.
  - apply list_filter_iff. intros row. split; [by right|by intros [?|?]].
Qed.

Lemma filterStages_throws (host : Host) (state : FilterState) (data : list Row) :
  activeEmployee state ≠ "all" →
  ¬ Forall userIsText
      (filterDataByWeekRange host data (dateRangeStart state) (dateRangeEnd state)) →
  filterStages host state data = Throw TypeError.
Proof.
  intros Hemp Hnot. unfold filterStages.
  set (weeks := filterDataByWeekRange host data (dateRangeStart state) (dateRangeEnd state)).
  assert (Hweeks : (if negb (bool_decide (dateRangeStart state = "all"))
                       || negb (bool_decide (dateRangeEnd state = "all"))
                    then weeks else data) = weeks).
  { unfold weeks, filterDataByWeekRange.
    destruct (bool_decide (dateRangeStart state = "all")),
             (bool_decide (dateRangeEnd state = "all")); reflexivity. }
  rewrite Hweeks. fold weeks in Hnot. clearbody weeks. clear Hweeks.
  rewrite (bool_decide_false _ Hemp). simpl.
  by rewrite (filterM_user_throws _ _ Hnot).
Qed.

Lemma userIsText_all_or_not (rows : list Row) :
  Forall userIsText rows ∨ ∃ row, row ∈ rows ∧ ¬ userIsText row.
Proof.
  induction rows as [|row rows [IH|(r & Hr & Hbad)]].
  - left. constructor.
  - destruct (prop row "User") as [| |b|q|s] eqn:Hu.
    5: { left. constructor; [by exists s|exact IH]. }
    all: right; exists row; split; [left|]; intros [s Hs]; congruence.
  - right. exists r. split; [by right|exact Hbad].
Qed.

(** X13. [filterData], as the page module has it, throws a ReferenceError on
    every call: it reads [dashboardState], which the module neither imports
    nor declares. Its four stages (lines 1596-1629), run on a filter state,
    return the data unchanged when every field of the state is at its
    sentinel; on any state they either return rows of the data, in their
    order, or throw a TypeError, and they throw exactly when an employee is
    selected and some row inside the selected week range has a [User] that
    is not text. *)
Theorem filterStages_throws_exactly (host : Host) (state : FilterState) (data : list Row) :
  filterData host state data = Throw (ReferenceError "dashboardState")
  ∧ filterStages host noFilter data = Ok data
  ∧ (filterStages host state data = Throw TypeError
   ∨ ∃ kept, filterStages host state data = Ok kept ∧ kept `sublist_of` data)
  ∧ (filterStages host state data = Throw TypeError
     ↔ activeEmployee state ≠ "all"
       ∧ ∃ row, row ∈ filterDataByWeekRange host data (dateRangeStart state)
                        (dateRangeEnd state)
                ∧ ¬ userIsText row).
Proof.
  split; [reflexivity|]. split; [reflexivity|].
  assert (Hok : activeEmployee state = "all"
                ∨ Forall userIsText
                    (filterDataByWeekRange host data (dateRangeStart state)
                       (dateRangeEnd state)) →
                ∃ kept, filterStages host state data = Ok kept ∧ kept `sublist_of` data).
  { intros Huser. eexists. split; [by apply filterStages_ok|].
    rewrite filterDataByWeekRange_filter.
    repeat (etrans; [apply sublist_filter|]). reflexivity. }
  destruct (decide (activeEmployee state = "all")) as [Hall|Hemp].
  - destruct (Hok (or_introl Hall)) as (kept & Hkept & Hsub).
    split; [right; by exists kept|].
    rewrite Hkept. split; [discriminate|]. by intros [? _].
  - destruct (userIsText_all_or_not
                (filterDataByWeekRange host data (dateRangeStart state) (dateRangeEnd state)))
      as [Htext|(row & Hrow & Hbad)].
    + destruct (Hok (or_intror Htext)) as (kept & Hkept & Hsub).
      split; [right; by exists kept|].
      rewrite Hkept. split; [discriminate|].
      intros (_ & row & Hrow & Hbad). destruct Hbad.
      exact (proj1 (Forall_forall _ _) Htext row Hrow).
    + assert (Hthrow : filterStages host state data = Throw TypeError).
      { apply filterStages_throws; [exact Hemp|].
        intros Htext. apply Hbad. exact (proj1 (Forall_forall _ _) Htext row Hrow). }
      split; [by left|]. split; [|done]. intros _. split; [exact Hemp|by exists row].
Qed.

(** A row without a user goes through every stage but the employee filter. *)
Example filterStages_anonymous_row :
  filterStages utcHost (onlyTaskCategory "BD - Research") [kyleRow; anonymousRow]
  = Ok [kyleRow; anonymousRow]
  ∧ filterStages utcHost (onlyEmployee "kyle") [kyleRow; anonymousRow] = Throw TypeError.
Proof. split; reflexivity. Qed.

(** X14. The stages of [filterData] (lines 1596-1629) are idempotent: when
    [filterStages] returns, running it on its result under the same state
    returns the same rows. *)
Theorem filterStages_idempotent
    (host : Host) (state : FilterState) (data kept : list Row) :
  filterStages host state data = Ok kept → filterStages host state kept = Ok kept.
Proof.
  intros Hkept.
  assert (Huser : activeEmployee state = "all"
                  ∨ Forall userIsText
                      (filterDataByWeekRange host data (dateRangeStart state)
                         (dateRangeEnd state))).
  { destruct (decide (activeEmployee state = "all")) as [Hall|Hemp]; [by left|right].
    destruct (userIsText_all_or_not
                (filterDataByWeekRange host data (dateRangeStart state) (dateRangeEnd state)))
      as [Htext|(row & Hrow & Hbad)]; [exact Htext|].
    rewrite filterStages_throws in Hkept; [discriminate|exact Hemp|].
    intros Htext. apply Hbad. exact (proj1 (Forall_forall _ _) Htext row Hrow). }
  rewrite (filterStages_ok host state data Huser) in Hkept. injection Hkept as Hkept.
  rewrite filterDataByWeekRange_filter in Hkept, Huser.
  assert (Hrows : ∀ row, row ∈ kept →
            (taskCategory state = "all" ∨ taskCategory state ∈ getTaskCategories [row])
            ∧ (searchQuery state = ""
               ∨ rowMatchesQuery (toLowerCase (searchQuery state)) row = true)
            ∧ (activeEmployee state = "all"
               ∨ userMatches (λ user, includes user (toLowerCase (activeEmployee state))) row
                 = true)
            ∧ (fromWeek host (dateRangeStart state) row
               ∧ untilWeek host (dateRangeEnd state) row)
            ∧ (activeEmployee state = "all" ∨ userIsText row)).
  { intros row Hrow. rewrite <- Hkept in Hrow.
    apply list_elem_of_filter in Hrow as [H4 Hrow].
    apply list_elem_of_filter in Hrow as [H3 Hrow].
    apply list_elem_of_filter in Hrow as [H2 Hrow].
    repeat split; try done.
    - by apply list_elem_of_filter in Hrow as [[? ?] _].
    - by apply list_elem_of_filter in Hrow as [[? ?] _].
    - destruct Huser as [Hall|Htext]; [by left|right].
      exact (proj1 (Forall_forall _ _) Htext row Hrow). }
  assert (Hweeks : filterDataByWeekRange host kept (dateRangeStart state) (dateRangeEnd state)
                   = kept).
  { rewrite filterDataByWeekRange_filter. apply filter_all_kept.
    intros row Hrow. apply (Hrows row Hrow). }
  rewrite filterStages_ok.
  - rewrite Hweeks. f_equal.
    do 3 (rewrite (filter_all_kept _ kept)
            by (intros row Hrow; destruct (Hrows row Hrow) as (? & ? & ? & ? & ?); done)).
    reflexivity.
  - rewrite Hweeks.
    destruct (decide (activeEmployee state = "all")) as [Hall|Hemp]; [by left|right].
    apply Forall_forall. intros row Hrow.
    destruct (Hrows row Hrow) as (_ & _ & _ & _ & [Hall|Htext]); done.
Qed.

Lemma filterStages_idempotent_witness :
  filterStages utcHost (onlyEmployee "kyle") [kyleRow; austinRow; kyleLaterRow]
  = Ok [kyleRow; kyleLaterRow]
  ∧ filterStages utcHost (onlyEmployee "kyle") [kyleRow; kyleLaterRow]
    = Ok [kyleRow; kyleLaterRow].
Proof.
  assert (H : filterStages utcHost (onlyEmployee "kyle") [kyleRow; austinRow; kyleLaterRow]
              = Ok [kyleRow; kyleLaterRow]) by reflexivity.
  split; [exact H|].
  exact (filterStages_idempotent utcHost (onlyEmployee "kyle") _ _ H).
Defined.

(** X15. The task stage of [filterData] (lines 1621-1627) looks at the
    columns of a row, not at the hours in them: with only a task selected,
    [filterStages] keeps exactly the rows that have a column of that name,
    whatever its cell holds, and keeps no row when the name is Date, User or
    Week Range. *)
Theorem task_filter_goes_by_column (host : Host) (category : string) (data : list Row) :
  category ≠ "all" →
  filterStages host (onlyTaskCategory category) data
  = Ok (filter (λ row, category ∈ map fst row ∧ category ∉ ["Date"; "User"; "Week Range"])
          data).
Proof.
  intros Hne. rewrite filterStages_ok by (by left). simpl. f_equal.
  rewrite filterDataByWeekRange_filter.
  rewrite (filter_all_kept (λ row, fromWeek host "all" row ∧ untilWeek host "all" row))
    by (intros row _; split; by left).
  rewrite (filter_all_kept (λ row, "all" = "all" ∨ _)) by (intros row _; by left).
  rewrite (filter_all_kept (λ row, "" = "" ∨ _)) by (intros row _; by left).
  apply list_filter_iff. intros row. simpl.
  rewrite list_elem_of_filter. unfold isMetadataColumn. rewrite !not_elem_of_cons.
  split.
  - intros [Hall|[Hmeta Hin]]; [done|]. split; [exact Hin|].
    apply negb_true_iff, orb_false_iff in Hmeta as [Hmeta H3].
    apply orb_false_iff in Hmeta as [H1 H2].
    apply bool_decide_eq_false in H1, H2, H3.
    repeat split; try done. apply not_elem_of_nil.
  - intros [Hin (H1 & H2 & H3 & _)]. right. split; [|exact Hin].
    apply negb_true_iff. by rewrite !bool_decide_false.
Qed.

Lemma task_filter_goes_by_column_witness :
  "BD - Research" ≠ "all"
  ∧ filterStages utcHost (onlyTaskCategory "BD - Research") [idleRow; kyleRow]
    = Ok (filter (λ row, "BD - Research" ∈ map fst row
                         ∧ "BD - Research" ∉ ["Date"; "User"; "Week Range"])
            [idleRow; kyleRow]).
Proof.
  assert (H : "BD - Research" ≠ "all") by discriminate.
  split; [exact H|].
  exact (task_filter_goes_by_column utcHost "BD - Research" [idleRow; kyleRow] H).
Defined.

(** The row without hours in the selected task stays. *)
Example task_filter_keeps_idle_row :
  filterStages utcHost (onlyTaskCategory "BD - Research") [idleRow; kyleRow]
  = Ok [idleRow; kyleRow].
Proof. reflexivity. Qed.

(** ** adjustColor *)

Lemma hexVal_hexChar (v : Z) : (0 ≤ v < 16)%Z → hexVal (hexChar v) = Some v.
Proof.
  intros Hv.
  assert (H : v ∈ [0; 1; 2; 3; 4; 5; 6; 7; 8; 9; 10; 11; 12; 13; 14; 15]%Z).
  { assert (H : (v = 0 ∨ v = 1 ∨ v = 2 ∨ v = 3 ∨ v = 4 ∨ v = 5 ∨ v = 6 ∨ v = 7 ∨ v = 8
                 ∨ v = 9 ∨ v = 10 ∨ v = 11 ∨ v = 12 ∨ v = 13 ∨ v = 14 ∨ v = 15)%Z) by lia.
    repeat (destruct H as [->|H]; [apply (bool_decide_unpack _); by vm_compute|]).
    subst. apply (bool_decide_unpack _). by vm_compute. }
  repeat (apply elem_of_cons in H as [->|H]; [reflexivity|]).
  by apply elem_of_nil in H.
Qed.

Lemma channelsOf_colorOfChannels (r g b : Z) :
  (0 ≤ r ≤ 255)%Z → (0 ≤ g ≤ 255)%Z → (0 ≤ b ≤ 255)%Z →
  channelsOf (colorOfChannels r g b) = Some (r, g, b).
Proof.
  intros Hr Hg Hb.
  change (colorOfChannels r g b)
    with (String "#"%char
            (String (hexChar (r / 16)) (String (hexChar (r mod 16))
               (String (hexChar (g / 16)) (String (hexChar (g mod 16))
                  (String (hexChar (b / 16)) (String (hexChar (b mod 16)) EmptyString))))))).
  unfold channelsOf.
  rewrite !hexVal_hexChar
    by (split; [apply Z.div_pos || apply Z.mod_pos_bound
               |apply Z.div_lt_upper_bound || apply Z.mod_pos_bound]; lia).
  simpl. do 2 f_equal; [f_equal|]; symmetry; rewrite Z.mul_comm; apply Z.div_mod; lia.
Qed.

Lemma channelsOf_adjustColor (hex : string) (r g b percent : Z) :
  channelsOf hex = Some (r, g, b) →
  channelsOf (adjustColor hex percent)
  = Some (adjustedChannel percent r, adjustedChannel percent g, adjustedChannel percent b).
Proof.
  intros H. rewrite (adjustColor_channels _ _ _ _ _ H).
  apply channelsOf_colorOfChannels; apply adjustedChannel_range.
Qed.

(** X16. The result of [adjustColor] on a colour of the shape [#rrggbb] is
    again of that shape, and its channels are the adjusted channels of the
    input: adjustments can be chained and read back. *)
Theorem adjustColor_closed (hex : string) (r g b percent : Z) :
  channelsOf hex = Some (r, g, b) →
  channelsOf (adjustColor hex percent)
  = Some (adjustedChannel percent r, adjustedChannel percent g, adjustedChannel percent b)
  ∧ isHexColor (adjustColor hex percent) = true.
Proof.
  intros H. pose proof (channelsOf_adjustColor hex r g b percent H) as Hch.
  split; [exact Hch|].
  apply channelsOf_inv in Hch
    as (c1 & c2 & c3 & c4 & c5 & c6 & v1 & v2 & v3 & v4 & v5 & v6
        & -> & H1 & H2 & H3 & H4 & H5 & H6 & _).
  unfold isHexColor, isHexDigit.
  rewrite !bool_decide_true; [reflexivity| | | | | |]; by eexists.
Qed.

Lemma adjustColor_closed_witness :
  channelsOf "#4CAF50" = Some (76, 175, 80)%Z
  ∧ channelsOf (adjustColor "#4CAF50" (-30))
    = Some (adjustedChannel (-30) 76, adjustedChannel (-30) 175, adjustedChannel (-30) 80)
  ∧ isHexColor (adjustColor "#4CAF50" (-30)) = true.
Proof.
  assert (H : channelsOf "#4CAF50" = Some (76, 175, 80)%Z) by reflexivity.
  split; [exact H|].
  exact (adjustColor_closed "#4CAF50" 76 175 80 (-30) H).
Defined.

Lemma adjustedChannel_mono (p q c : Z) :
  (0 ≤ c)%Z → (p ≤ q)%Z → (adjustedChannel p c ≤ adjustedChannel q c)%Z.
Proof.
  intros Hc Hpq. unfold adjustedChannel.
  assert (H : ((c * (100 + p) + 50) / 100 ≤ (c * (100 + q) + 50) / 100)%Z).
  { apply Z.div_le_mono; [lia|nia]. }
  lia.
Qed.

Lemma adjustedChannel_black (p c : Z) :
  (0 ≤ c)%Z → (p ≤ -100)%Z → adjustedChannel p c = 0%Z.
Proof.
  intros Hc Hp. unfold adjustedChannel.
  assert (H : ((c * (100 + p) + 50) / 100 ≤ 50 / 100)%Z).
  { apply Z.div_le_mono; [lia|nia]. }
  change (50 / 100)%Z with 0%Z in H. lia.
Qed.

Lemma channelsOf_nonneg (hex : string) (r g b : Z) :
  channelsOf hex = Some (r, g, b) → (0 ≤ r ≤ 255 ∧ 0 ≤ g ≤ 255 ∧ 0 ≤ b ≤ 255)%Z.
Proof.
  intros H. apply channelsOf_inv in H
    as (c1 & c2 & c3 & c4 & c5 & c6 & v1 & v2 & v3 & v4 & v5 & v6
        & -> & H1 & H2 & H3 & H4 & H5 & H6 & -> & -> & ->).
  pose proof (hexVal_range _ _ H1). pose proof (hexVal_range _ _ H2).
  pose proof (hexVal_range _ _ H3). pose proof (hexVal_range _ _ H4).
  pose proof (hexVal_range _ _ H5). pose proof (hexVal_range _ _ H6). lia.
Qed.

(** X17. On a [#rrggbb] colour a larger percentage never gives a darker
    shade: for [p ≤ q] every channel of the colour adjusted by [p] is at most
    the same channel of the colour adjusted by [q]. An adjustment of -100 per
    cent or less gives black. *)
Theorem adjustColor_monotone (hex : string) (r g b p q : Z) :
  channelsOf hex = Some (r, g, b) → (p ≤ q)%Z →
  (∃ r1 g1 b1 r2 g2 b2,
     channelsOf (adjustColor hex p) = Some (r1, g1, b1)
     ∧ channelsOf (adjustColor hex q) = Some (r2, g2, b2)
     ∧ (r1 ≤ r2)%Z ∧ (g1 ≤ g2)%Z ∧ (b1 ≤ b2)%Z)
  ∧ ((p ≤ -100)%Z → adjustColor hex p = "#000000").
Proof.
  intros H Hpq. destruct (channelsOf_nonneg _ _ _ _ H) as (Hr & Hg & Hb).
  split.
  - exists (adjustedChannel p r), (adjustedChannel p g), (adjustedChannel p b),
      (adjustedChannel q r), (adjustedChannel q g), (adjustedChannel q b).
    split; [by apply channelsOf_adjustColor|].
    split; [by apply channelsOf_adjustColor|].
    repeat split; apply adjustedChannel_mono; lia.
  - intros Hp. rewrite (adjustColor_channels _ _ _ _ _ H).
    rewrite !adjustedChannel_black by lia. reflexivity.
Qed.

Lemma adjustColor_monotone_witness :
  channelsOf "#4CAF50" = Some (76, 175, 80)%Z ∧ (-100 ≤ 15)%Z
  ∧ (∃ r1 g1 b1 r2 g2 b2,
       channelsOf (adjustColor "#4CAF50" (-100)) = Some (r1, g1, b1)
       ∧ channelsOf (adjustColor "#4CAF50" 15) = Some (r2, g2, b2)
       ∧ (r1 ≤ r2)%Z ∧ (g1 ≤ g2)%Z ∧ (b1 ≤ b2)%Z)
  ∧ ((-100 ≤ -100)%Z → adjustColor "#4CAF50" (-100) = "#000000").
Proof.
  assert (H : channelsOf "#4CAF50" = Some (76, 175, 80)%Z) by reflexivity.
  assert (Hpq : (-100 ≤ 15)%Z) by lia.
  split; [exact H|]. split; [exact Hpq|].
  exact (adjustColor_monotone "#4CAF50" 76 175 80 (-100) 15 H Hpq).
Defined.

(** ** The colour caches *)

Lemma overlay_empty (c : ColorCaches) : overlay emptyCaches c = c.
Proof. destruct c. unfold overlay. simpl. by rewrite !(left_id_L ∅ (∪)). Qed.

Lemma overlay_assoc (w1 w2 c : ColorCaches) :
  overlay w1 (overlay w2 c) = overlay (overlay w1 w2) c.
Proof. unfold overlay. simpl. by rewrite !(assoc_L (∪)). Qed.

Lemma overlay_idem (w c : ColorCaches) : overlay w (overlay w c) = overlay w c.
Proof. unfold overlay. simpl. by rewrite !(assoc_L (∪)), !(idemp_L (∪)). Qed.

Lemma cacheTaskColors_writes (base : string) (n : nat) (tasks : list string) :
  ∀ index, ∃ w,
    CATEGORY_COLOR_CACHE w = ∅ ∧ CATEGORY_BORDER_COLOR_CACHE w = ∅
    ∧ ∀ c, cacheTaskColors base n index tasks c = overlay w c.
Proof.
  induction tasks as [|t tasks IH]; intros index.
  - exists emptyCaches. repeat split. intros c. by rewrite overlay_empty.
  - destruct (IH (S index)) as (w & Hw1 & Hw2 & Hw).
    exists (overlay w
              (mkCaches {[t := adjustColor base (percentAdjustment n index) ++ "CC"]}
                 {[t := adjustColor base (percentAdjustment n index)]} ∅ ∅)).
    split; [simpl; by rewrite Hw1, (left_id_L ∅ (∪))|].
    split; [simpl; by rewrite Hw2, (left_id_L ∅ (∪))|].
    intros c. cbn [cacheTaskColors]. rewrite Hw, <- overlay_assoc. f_equal.
    unfold overlay. simpl.
    by rewrite !insert_union_singleton_l, !(left_id_L ∅ (∪)).
Qed.

Lemma cacheCategoryTasks_writes
    (CATEGORY_COLORS : list (string * string)) (cfg : list (string * list string)) :
  ∃ w,
    CATEGORY_COLOR_CACHE w = ∅ ∧ CATEGORY_BORDER_COLOR_CACHE w = ∅
    ∧ ∀ c, fold_left (cacheCategoryTasks CATEGORY_COLORS) cfg c = overlay w c.
Proof.
  induction cfg as [|[category tasks] cfg (w & Hw1 & Hw2 & Hw)] using rev_ind.
  - exists emptyCaches. repeat split. intros c. by rewrite overlay_empty.
  - assert (Hone : ∃ w1, CATEGORY_COLOR_CACHE w1 = ∅ ∧ CATEGORY_BORDER_COLOR_CACHE w1 = ∅
                         ∧ ∀ c, cacheCategoryTasks CATEGORY_COLORS c (category, tasks)
                                = overlay w1 c).
    { unfold cacheCategoryTasks.
      destruct (assoc category CATEGORY_COLORS) as [base|].
      - case_bool_decide.
        + exists emptyCaches. repeat split. intros c. by rewrite overlay_empty.
        + apply cacheTaskColors_writes.
      - exists emptyCaches. repeat split. intros c. by rewrite overlay_empty. }
    destruct Hone as (w1 & H11 & H12 & H1).
    exists (overlay w1 w).
    split; [simpl; by rewrite H11, Hw1, (left_id_L ∅ (∪))|].
    split; [simpl; by rewrite H12, Hw2, (left_id_L ∅ (∪))|].
    intros c. rewrite fold_left_app. cbn [fold_left]. by rewrite Hw, H1, overlay_assoc.
Qed.

Lemma cacheCategoryColors_writes (entries : list (string * string)) :
  ∃ w outcome,
    TASK_COLOR_CACHE w = ∅ ∧ TASK_BORDER_COLOR_CACHE w = ∅
    ∧ ∀ c, cacheCategoryColors entries c = (overlay w c, outcome).
Proof.
  induction entries as [|[category color] entries (w & outcome & Hw1 & Hw2 & Hw)].
  - exists emptyCaches, (Ok tt). repeat split. intros c. by rewrite overlay_empty.
  - cbn [cacheCategoryColors]. case_bool_decide.
    + exists emptyCaches. eexists. repeat split. intros c. by rewrite overlay_empty.
    + exists (overlay w (mkCaches ∅ ∅ {[category := color ++ "CC"]} {[category := color]})),
        outcome.
      split; [simpl; by rewrite Hw1, (left_id_L ∅ (∪))|].
      split; [simpl; by rewrite Hw2, (left_id_L ∅ (∪))|].
      intros c. rewrite Hw, <- overlay_assoc. do 2 f_equal.
      unfold overlay. simpl.
      by rewrite !insert_union_singleton_l, !(left_id_L ∅ (∪)).
Qed.

Lemma initializeColorCaches_writes
    (CATEGORY_COLORS : list (string * string)) (TASK_CATEGORIES : list (string * list string)) :
  ∃ w outcome,
    ∀ c, initializeColorCaches CATEGORY_COLORS TASK_CATEGORIES c = (overlay w c, outcome).
Proof.
  destruct (cacheCategoryColors_writes CATEGORY_COLORS) as (w1 & outcome & _ & _ & H1).
  destruct (cacheCategoryTasks_writes CATEGORY_COLORS TASK_CATEGORIES) as (w2 & _ & _ & H2).
  unfold initializeColorCaches.
  destruct outcome as [[]|e].
  - exists (overlay w2 w1), (Ok tt). intros c. by rewrite H1, H2, overlay_assoc.
  - exists w1. eexists. intros c. by rewrite H1.
Qed.

(** X18. [initializeColorCaches] is idempotent: run on the caches it has
    left, whether it succeeded or threw, it leaves the same caches and ends
    the same way. *)
Theorem initializeColorCaches_idempotent
    (CATEGORY_COLORS : list (string * string)) (TASK_CATEGORIES : list (string * list string))
    (c0 : ColorCaches) :
  initializeColorCaches CATEGORY_COLORS TASK_CATEGORIES
    (fst (initializeColorCaches CATEGORY_COLORS TASK_CATEGORIES c0))
  = initializeColorCaches CATEGORY_COLORS TASK_CATEGORIES c0.
Proof.
  destruct (initializeColorCaches_writes CATEGORY_COLORS TASK_CATEGORIES) as (w & outcome & H).
  rewrite !H. simpl. by rewrite overlay_idem.
Qed.

Lemma cacheCategoryColors_throws (before after : list (string * string)) (category : string) :
  (∀ k v, (k, v) ∈ before → v ≠ "") →
  ∀ c, ∃ c',
    cacheCategoryColors (before ++ (category, "") :: after) c
    = (c', Throw (GenericError ("Invalid color for category: " ++ category)))
    ∧ TASK_COLOR_CACHE c' = TASK_COLOR_CACHE c
    ∧ TASK_BORDER_COLOR_CACHE c' = TASK_BORDER_COLOR_CACHE c
    ∧ (∀ k, k ∉ map fst before →
         CATEGORY_COLOR_CACHE c' !! k = CATEGORY_COLOR_CACHE c !! k
         ∧ CATEGORY_BORDER_COLOR_CACHE c' !! k = CATEGORY_BORDER_COLOR_CACHE c !! k)
    ∧ (NoDup (map fst before) → ∀ k v, (k, v) ∈ before →
         CATEGORY_COLOR_CACHE c' !! k = Some (v ++ "CC")
         ∧ CATEGORY_BORDER_COLOR_CACHE c' !! k = Some v).
Proof.
  induction before as [|[k0 v0] before IH]; intros Hne c.
  - exists c. simpl. do 3 (split; [reflexivity|]). split; [done|].
    intros _ k v Hin. by apply elem_of_nil in Hin.
  - simpl. rewrite bool_decide_false by (eapply Hne; left).
    destruct (IH (λ k v Hin, Hne k v (list_elem_of_further _ _ _ Hin))
                {| TASK_COLOR_CACHE := TASK_COLOR_CACHE c;
                   TASK_BORDER_COLOR_CACHE := TASK_BORDER_COLOR_CACHE c;
                   CATEGORY_COLOR_CACHE := <[k0:=v0 ++ "CC"]> (CATEGORY_COLOR_CACHE c);
                   CATEGORY_BORDER_COLOR_CACHE := <[k0:=v0]> (CATEGORY_BORDER_COLOR_CACHE c) |})
      as (c' & -> & H1 & H2 & Hother & Hat).
    exists c'. split; [reflexivity|]. split; [exact H1|]. split; [exact H2|]. split.
    + intros k Hk. apply not_elem_of_cons in Hk as [Hk0 Hk].
      destruct (Hother k Hk) as [-> ->]. simpl.
      by rewrite !lookup_insert_ne by done.
    + intros Hnd k v Hin. apply NoDup_cons in Hnd as [Hfresh Hnd].
      apply elem_of_cons in Hin as [[= -> ->]|Hin].
      * destruct (Hother k0 Hfresh) as [-> ->]. simpl. by rewrite !lookup_insert_eq.
      * by apply Hat.
Qed.

(** X19. When a category has an empty colour, [initializeColorCaches] throws
    the error "Color cache initialization failed" and leaves the caches half
    written: the categories before the faulty one are cached (fill colour
    with [CC] appended, border colour as it is), the ones from it on are not
    touched, and no task colour is written. *)
Theorem initializeColorCaches_failure
    (before after : list (string * string)) (category : string)
    (TASK_CATEGORIES : list (string * list string)) (c0 : ColorCaches) :
  (∀ k v, (k, v) ∈ before → v ≠ "") →
  NoDup (map fst before) →
  ∃ c,
    initializeColorCaches (before ++ (category, "") :: after) TASK_CATEGORIES c0
    = (c, Throw (GenericError "Color cache initialization failed"))
    ∧ TASK_COLOR_CACHE c = TASK_COLOR_CACHE c0
    ∧ TASK_BORDER_COLOR_CACHE c = TASK_BORDER_COLOR_CACHE c0
    ∧ (∀ k v, (k, v) ∈ before →
         CATEGORY_COLOR_CACHE c !! k = Some (v ++ "CC")
         ∧ CATEGORY_BORDER_COLOR_CACHE c !! k = Some v)
    ∧ (∀ k, k ∉ map fst before →
         CATEGORY_COLOR_CACHE c !! k = CATEGORY_COLOR_CACHE c0 !! k
         ∧ CATEGORY_BORDER_COLOR_CACHE c !! k = CATEGORY_BORDER_COLOR_CACHE c0 !! k).
Proof.
  intros Hne Hnd.
  destruct (cacheCategoryColors_throws before after category Hne c0)
    as (c & Hc & H1 & H2 & Hother & Hat).
  exists c. unfold initializeColorCaches. rewrite Hc.
  split; [reflexivity|]. split; [exact H1|]. split; [exact H2|].
  split; [by apply Hat|exact Hother].
Qed.

Lemma initializeColorCaches_failure_witness :
  ∃ c,
    initializeColorCaches brokenColors MetricsConfig.TASK_CATEGORIES emptyCaches
    = (c, Throw (GenericError "Color cache initialization failed"))
    ∧ TASK_COLOR_CACHE c = ∅
    ∧ getCategoryBorderColor c "Congress" = "#2196F3"
    ∧ getCategoryBorderColor c "Influencer" = "#cccccc".
Proof.
  destruct (initializeColorCaches_failure
              [("Business Development", "#4CAF50"); ("Congress", "#2196F3")]
              [("Influencer", "#9C27B0")] "Social Media"
              MetricsConfig.TASK_CATEGORIES emptyCaches)
    as (c & Hc & Ht & _ & Hat & Hother).
  - intros k v Hin.
    repeat (apply elem_of_cons in Hin as [[= -> ->]|Hin]; [discriminate|]).
    by apply elem_of_nil in Hin.
  - apply (bool_decide_unpack _). by vm_compute.
  - exists c. split; [exact Hc|]. split; [exact Ht|]. unfold getCategoryBorderColor, cachedOr.
    split.
    + destruct (Hat "Congress" "#2196F3") as [_ ->]; [right; left|reflexivity].
    + destruct (Hother "Influencer") as [_ ->]; [|reflexivity].
      apply (bool_decide_unpack _). by vm_compute.
Defined.





Lemma deleteAllKeys_empty (cache : gmap string string) : deleteAllKeys cache = ∅.
Proof.
  unfold deleteAllKeys. apply map_eq. intros k. rewrite lookup_empty.
  assert (H : ∀ (keys : list string) (m : gmap string string),
             foldr (λ key m, delete key m) m keys !! k
             = if bool_decide (k ∈ keys) then None else m !! k).
  { induction keys as [|a keys IH]; intros m; simpl; [reflexivity|].
    destruct (decide (a = k)) as [->|Hak].
    - rewrite lookup_delete_eq. rewrite bool_decide_true by left. reflexivity.
    - rewrite lookup_delete_ne by exact Hak. rewrite IH.
      destruct (decide (k ∈ keys)) as [Hin|Hin].
      + rewrite (bool_decide_true (k ∈ keys)) by exact Hin.
        by rewrite (bool_decide_true (k ∈ a :: keys)) by (by right).
      + rewrite (bool_decide_false (k ∈ keys)) by exact Hin.
        rewrite (bool_decide_false (k ∈ a :: keys)); [done|].
        intros Hc. apply elem_of_cons in Hc as [->|Hc]; done. }
  rewrite H. case_bool_decide as Hk; [reflexivity|].
  destruct (cache !! k) as [v|] eqn:E; [|reflexivity].
  destruct Hk. apply list_elem_of_fmap. exists (k, v). split; [reflexivity|].
  by apply elem_of_map_to_list.
Qed.

(** X21. After [clearColorCaches] nothing of the old caches is left: every
    getter gives the grey fallback for every name that is not a name every
    object inherits, and an initialisation that follows gives what it gives
    on fresh caches. *)
Theorem clearColorCaches_resets
    (CATEGORY_COLORS : list (string * string)) (TASK_CATEGORIES : list (string * list string))
    (c : ColorCaches) :
  (∀ name,
     name ∉ objectPrototypeMembers →
     getTaskColor (clearColorCaches c) name = "#ccccccCC"
     ∧ getTaskBorderColor (clearColorCaches c) name = "#cccccc"
     ∧ getCategoryColor (clearColorCaches c) name = "#ccccccCC"
     ∧ getCategoryBorderColor (clearColorCaches c) name = "#cccccc")
  ∧ initializeColorCaches CATEGORY_COLORS TASK_CATEGORIES (clearColorCaches c)
    = initializeColorCaches CATEGORY_COLORS TASK_CATEGORIES emptyCaches.
Proof.
  assert (H : clearColorCaches c = emptyCaches).
  { unfold clearColorCaches, emptyCaches. by rewrite !deleteAllKeys_empty. }
  rewrite H. split; [|reflexivity].
  intros name _. unfold getTaskColor, getTaskBorderColor, getCategoryColor,
    getCategoryBorderColor, cachedOr. simpl. by rewrite !lookup_empty.
Qed.

(** ** DataCache *)

Section DataCacheFacts.

Context {V : Type}.

(** X22. A value that was set is read back for as long as its time to live
    lasts, and reading it changes nothing; the time to live is the custom
    one, unless that is left out or zero, in which case it is the one of the
    cache. Setting a key does not change what is read under another key. *)
Theorem DataCache_set_get
    (c : DataCache.t V) (now later : Z) (key : string) (v : DataCache.cached V)
    (customTtl : option Z) :
  ((later - now ≤ DataCache.ttlFor V c customTtl)%Z →
   DataCache.get V later key (DataCache.set V now key v customTtl c)
   = (v, DataCache.set V now key v customTtl c))
  ∧ DataCache.ttlFor V c None = DataCache.ttl V c
  ∧ DataCache.ttlFor V c (Some 0%Z) = DataCache.ttl V c
  ∧ (∀ custom, custom ≠ 0%Z → DataCache.ttlFor V c (Some custom) = custom)
  ∧ (∀ other, other ≠ key →
       fst (DataCache.get V later other (DataCache.set V now key v customTtl c))
       = fst (DataCache.get V later other c)).
Proof.
  split; [|split; [reflexivity|split; [reflexivity|split]]].
  - intros Hfresh. unfold DataCache.get, DataCache.set. simpl.
    rewrite lookup_insert_eq. unfold DataCache.isExpired. simpl.
    rewrite bool_decide_false by lia. reflexivity.
  - intros custom Hne. unfold DataCache.ttlFor. by rewrite bool_decide_false.
  - intros other Hne. unfold DataCache.get, DataCache.set. simpl.
    rewrite lookup_insert_ne by done.
    destruct (DataCache.cache V c !! other) as [i|]; [|reflexivity].
    by destruct (DataCache.isExpired V later i).
Qed.

(** X23. Once its time to live is over, a value is gone: [get] returns
    [null] and evicts the entry, so that every later [get] and [has] of the
    key, whatever the clock says then, finds nothing; the entries of other
    keys stay. *)
Theorem DataCache_expiry
    (c : DataCache.t V) (now later : Z) (key : string) (v : DataCache.cached V)
    (customTtl : option Z) :
  (DataCache.ttlFor V c customTtl < later - now)%Z →
  ∃ c',
    DataCache.get V later key (DataCache.set V now key v customTtl c) = (DataCache.Null, c')
    ∧ (∀ t, DataCache.get V t key c' = (DataCache.Null, c')
            ∧ DataCache.has V t key c' = (false, c'))
    ∧ (∀ other, other ≠ key →
         DataCache.cache V c' !! other = DataCache.cache V c !! other).
Proof.
  intros Hold. eexists. split; [|split].
  - unfold DataCache.get, DataCache.set. simpl.
    rewrite lookup_insert_eq. unfold DataCache.isExpired. simpl.
    rewrite bool_decide_true by lia. reflexivity.
  - intros t. unfold DataCache.has, DataCache.get. simpl.
    by rewrite lookup_delete_eq.
  - intros other Hne. simpl.
    by rewrite lookup_delete_ne, lookup_insert_ne by done.
Qed.

Lemma getStats_counts (now : Z) (c : DataCache.t V) :
  map_fold (λ _ i counts, DataCache.count V now i counts) (0, 0, 0)%nat (DataCache.cache V c)
  = (size (DataCache.cache V c), size (expiredEntries now c), size (activeEntries now c)).
Proof.
  unfold expiredEntries, activeEntries. generalize (DataCache.cache V c). intros m.
  apply (map_fold_weak_ind
           (λ counts m, counts
                        = (size m,
                           size (filter (λ entry : string * DataCache.item V,
                                           DataCache.isExpired V now (snd entry) = true) m),
                           size (filter (λ entry : string * DataCache.item V,
                                           DataCache.isExpired V now (snd entry) = false) m)))).
  - by rewrite !map_filter_empty, !map_size_empty.
  - intros k i m' counts Hk ->. unfold DataCache.count.
    rewrite (map_size_insert_None _ _ _ Hk).
    destruct (DataCache.isExpired V now i) eqn:E.
    + rewrite (map_filter_insert_True _ _ _ _) by exact E.
      rewrite map_size_insert_None by (by apply map_lookup_filter_None_2; left).
      rewrite (map_filter_insert_False _ _ _ _) by (simpl; congruence).
      by rewrite (delete_id _ _ Hk).
    + rewrite (map_filter_insert_False _ _ _ _) by (simpl; congruence).
      rewrite (delete_id _ _ Hk).
      rewrite (map_filter_insert_True _ _ _ _) by exact E.
      by rewrite map_size_insert_None by (by apply map_lookup_filter_None_2; left).
Qed.

Lemma expired_or_active (now : Z) (c : DataCache.t V) :
  size (DataCache.cache V c) = (size (expiredEntries now c) + size (activeEntries now c))%nat.
Proof.
  pose proof (getStats_counts now c) as H. revert H.
  unfold expiredEntries, activeEntries. generalize (DataCache.cache V c). intros m _.
  induction m as [|k i m Hk IH] using map_ind.
  - by rewrite !map_filter_empty, !map_size_empty.
  - rewrite (map_size_insert_None _ _ _ Hk), IH.
    destruct (DataCache.isExpired V now i) eqn:E.
    + rewrite (map_filter_insert_True _ _ _ _) by exact E.
      rewrite map_size_insert_None by (by apply map_lookup_filter_None_2; left).
      rewrite (map_filter_insert_False _ _ _ _) by (simpl; congruence).
      by rewrite (delete_id _ _ Hk).
    + rewrite (map_filter_insert_False _ _ _ _) by (simpl; congruence).
      rewrite (delete_id _ _ Hk).
      rewrite (map_filter_insert_True _ _ _ _) by exact E.
      rewrite map_size_insert_None by (by apply map_lookup_filter_None_2; left). lia.
Qed.

(** X24. [getStats] counts every entry of the cache once: [totalItems] is
    the size of the cache, [expiredItems] the number of entries whose time to
    live is over at the time of the call (they are still in the cache: only a
    [get] evicts), [activeItems] the number of the others, and the first is
    the sum of the other two. *)
Theorem DataCache_getStats (now : Z) (c : DataCache.t V) :
  DataCache.totalItems (DataCache.getStats V now c) = size (DataCache.cache V c)
  ∧ DataCache.expiredItems (DataCache.getStats V now c) = size (expiredEntries now c)
  ∧ DataCache.activeItems (DataCache.getStats V now c) = size (activeEntries now c)
  ∧ DataCache.totalItems (DataCache.getStats V now c)
    = (DataCache.expiredItems (DataCache.getStats V now c)
       + DataCache.activeItems (DataCache.getStats V now c))%nat.
Proof.
  unfold DataCache.getStats. rewrite getStats_counts. simpl.
  repeat split. apply expired_or_active.
Qed.

End DataCacheFacts.

Lemma DataCache_expiry_witness :
  (DataCache.ttlFor nat (DataCache.new nat None) (Some (-1)%Z) < 5 - 5)%Z
  ∧ ∃ c',
      DataCache.get nat 5 "rows"
        (DataCache.set nat 5 "rows" (DataCache.Value 7%nat) (Some (-1)%Z)
           (DataCache.new nat None))
      = (DataCache.Null, c')
      ∧ (∀ t, DataCache.get nat t "rows" c' = (DataCache.Null, c')
              ∧ DataCache.has nat t "rows" c' = (false, c'))
      ∧ (∀ other, other ≠ "rows" →
           DataCache.cache nat c' !! other
           = DataCache.cache nat (DataCache.new nat None) !! other).
Proof.
  assert (H : (DataCache.ttlFor nat (DataCache.new nat None) (Some (-1)%Z) < 5 - 5)%Z)
    by (vm_compute; reflexivity).
  split; [exact H|].
  exact (DataCache_expiry (DataCache.new nat None) 5 5 "rows" (DataCache.Value 7%nat)
           (Some (-1)%Z) H).
Defined.

(** An entry set at time 0 with a custom time to live of 1000 in a cache of
    five minutes: read at 1000, gone at 1001, and counted as expired in
    between. *)
Example DataCache_example :
  let c := DataCache.set nat 0 "rows" (DataCache.Value 7%nat) (Some 1000%Z)
             (DataCache.new nat None) in
  fst (DataCache.get nat 1000 "rows" c) = DataCache.Value 7%nat
  ∧ fst (DataCache.get nat 1001 "rows" c) = DataCache.Null
  ∧ DataCache.expiredItems (DataCache.getStats nat 1001 c) = 1%nat
  ∧ DataCache.totalItems (DataCache.getStats nat 1001 (snd (DataCache.get nat 1001 "rows" c)))
    = 0%nat.
Proof. vm_compute. repeat split. Qed.

(** ** The cache of chart data *)

Section ChartDataCacheFacts.

Context {V : Type}.

(** X25. [getCachedChartData] calculates at most once per key: after a call
    that returned data, a call with the same key returns that data whatever
    the calculation passed now would give, and leaves the cache as it is;
    a calculation that throws caches nothing, so the call after it
    calculates again. *)
Theorem getCachedChartData_memoizes
    (cacheKey : string) (first second : unit → result V) (chartDataCache : gmap string V) :
  (∀ data cache',
     getCachedChartData V cacheKey first chartDataCache = (Ok data, cache') →
     getCachedChartData V cacheKey second cache' = (Ok data, cache'))
  ∧ (∀ e cache',
       getCachedChartData V cacheKey first chartDataCache = (Throw e, cache') →
       cache' = chartDataCache
       ∧ getCachedChartData V cacheKey second cache'
         = getCachedChartData V cacheKey second chartDataCache
       ∧ chartDataCache !! cacheKey = None).
Proof.
  unfold getCachedChartData. split.
  - intros data cache'.
    destruct (chartDataCache !! cacheKey) as [cachedData|] eqn:E.
    + intros [= <- <-]. by rewrite E.
    + destruct (first tt) as [d|e]; intros [= <- <-]. by rewrite lookup_insert_eq.
  - intros e cache'.
    destruct (chartDataCache !! cacheKey) as [cachedData|] eqn:E; [discriminate|].
    destruct (first tt) as [d|e']; intros [= <- <-]. by rewrite E.
Qed.

Lemma deleteWithPrefix_lookup (employeeName : string) (chartDataCache : gmap string V)
    (key : string) :
  deleteWithPrefix V employeeName chartDataCache !! key
  = if String.prefix employeeName key then None else chartDataCache !! key.
Proof.
  unfold deleteWithPrefix.
  assert (H : ∀ (keys : list string) (m : gmap string V),
             foldr (λ k m, if String.prefix employeeName k then delete k m else m) m keys
             !! key
             = if bool_decide (key ∈ keys) && String.prefix employeeName key
               then None else m !! key).
  { induction keys as [|a keys IH]; intros m; cbn [foldr]; [reflexivity|].
    destruct (decide (a = key)) as [->|Hak].
    - rewrite (bool_decide_true (key ∈ key :: keys)) by left. rewrite andb_true_l.
      destruct (String.prefix employeeName key) eqn:Hp.
      + by rewrite lookup_delete_eq.
      + rewrite IH. by rewrite andb_false_r.
    - assert (Hiff : bool_decide (key ∈ a :: keys) = bool_decide (key ∈ keys)).
      { apply bool_decide_ext. rewrite elem_of_cons. split; [|by right].
        intros [->|?]; done. }
      rewrite Hiff.
      destruct (String.prefix employeeName a).
      + rewrite lookup_delete_ne by exact Hak. apply IH.
      + apply IH. }
  rewrite H.
  destruct (String.prefix employeeName key); [|by rewrite andb_false_r].
  rewrite andb_true_r. case_bool_decide as Hk; [reflexivity|].
  destruct (chartDataCache !! key) as [v|] eqn:E; [|reflexivity].
  destruct Hk. apply list_elem_of_fmap. exists (key, v). split; [reflexivity|].
  by apply elem_of_map_to_list.
Qed.

(** X26. [clearChartDataCache] with an employee name removes exactly the
    entries whose key begins with that name: the pie data of that employee
    for every level and display mode, and also the entries of any other
    employee whose name begins with it; the other entries stay. Without a
    name, or with the empty name, it removes everything. *)
Theorem clearChartDataCache_by_prefix
    (employeeName : string) (chartDataCache : gmap string V) :
  employeeName ≠ "" →
  (∀ key,
     clearChartDataCache V (Some employeeName) chartDataCache !! key
     = if String.prefix employeeName key then None else chartDataCache !! key)
  ∧ (∀ level mode,
       clearChartDataCache V (Some employeeName) chartDataCache
       !! pieCacheKey employeeName level mode = None)
  ∧ clearChartDataCache V None chartDataCache = ∅
  ∧ clearChartDataCache V (Some "") chartDataCache = ∅.
Proof.
  intros Hne. unfold clearChartDataCache. rewrite (bool_decide_false _ Hne).
  split; [apply deleteWithPrefix_lookup|]. split; [|done].
  intros level mode. rewrite deleteWithPrefix_lookup.
  assert (Hp : ∀ a b : string, String.prefix a (a ++ b) = true).
  { induction a as [|ch a IH]; intros b; simpl; [by destruct b|].
    destruct (Ascii.ascii_dec ch ch); [apply IH|done]. }
  unfold pieCacheKey. by rewrite Hp.
Qed.

End ChartDataCacheFacts.

Lemma clearChartDataCache_by_prefix_witness :
  "kyle" ≠ ""
  ∧ clearChartDataCache nat (Some "kyle") sampleChartCache
    = {[ pieCacheKey "austin" "task" "hours" := 4%nat ]}.
Proof.
  assert (H : "kyle" ≠ "") by discriminate.
  split; [exact H|].
  destruct (clearChartDataCache_by_prefix "kyle" sampleChartCache H) as (Hall & _).
  apply map_eq. intros key. rewrite Hall.
  destruct (String.prefix "kyle" key) eqn:Hp.
  - symmetry. apply lookup_singleton_None. intros <-. by vm_compute in Hp.
  - unfold sampleChartCache.
    do 3 (rewrite lookup_insert_ne by (intros <-; by vm_compute in Hp)).
    by rewrite insert_empty.
Defined.
(** ** The category of a breakdown entry *)

Lemma categoryTypeOf_last (TASK_CATEGORIES : list (string * list string)) (taskName : string) :
  categoryTypeOf TASK_CATEGORIES taskName
  = default "" (last (categoriesOf TASK_CATEGORIES taskName)).
Proof.
  unfold categoryTypeOf, categoriesOf.
  induction TASK_CATEGORIES as [|[type categories] cfg IH] using rev_ind; [reflexivity|].
  rewrite fold_left_app, filter_app, map_app. cbn [fold_left].
  rewrite filter_cons, filter_nil.
  destruct (decide (taskName ∈ categories)) as [Hin|Hout].
  - rewrite bool_decide_true by exact Hin. simpl. by rewrite last_snoc.
  - rewrite bool_decide_false by exact Hout. simpl. by rewrite app_nil_r.
Qed.

(** X28. The type of a breakdown entry is the last category, in the order of
    the configuration, that lists the entry's name, and the empty string when
    no category lists it. *)
Theorem createDetailedBreakdown_type
    (TASK_CATEGORIES : list (string * list string)) (totalsByCategory : list (string * Qc))
    (a : Activity.t) :
  a ∈ createDetailedBreakdown TASK_CATEGORIES totalsByCategory →
  Activity.type a = default "" (last (categoriesOf TASK_CATEGORIES (Activity.name a)))
  ∧ (Activity.type a = "" ∨ ∃ tasks, (Activity.type a, tasks) ∈ TASK_CATEGORIES
                                     ∧ Activity.name a ∈ tasks).
Proof.
  intros Ha. unfold createDetailedBreakdown in Ha. apply jsSort_elem in Ha.
  apply list_elem_of_fmap in Ha as ([category h] & -> & _). simpl.
  rewrite categoryTypeOf_last. split; [reflexivity|].
  destruct (last (categoriesOf TASK_CATEGORIES category)) as [type|] eqn:E; [|by left].
  right. simpl. apply last_Some_elem_of in E. unfold categoriesOf in E.
  apply list_elem_of_fmap in E as ([type' tasks] & -> & Hin).
  apply list_elem_of_filter in Hin as [Hlisted Hin]. by exists tasks.
Qed.

Lemma createDetailedBreakdown_type_witness :
  Activity.mk "Admin" (Q2Qc 2) None "Internal Operations"
  ∈ createDetailedBreakdown MetricsConfig.TASK_CATEGORIES
      [("Admin", Q2Qc 2); ("Lunch", Q2Qc 1)]
  ∧ "Internal Operations"
    = default "" (last (categoriesOf MetricsConfig.TASK_CATEGORIES "Admin")).
Proof.
  assert (H : Activity.mk "Admin" (Q2Qc 2) None "Internal Operations"
              ∈ createDetailedBreakdown MetricsConfig.TASK_CATEGORIES
                  [("Admin", Q2Qc 2); ("Lunch", Q2Qc 1)]).
  { apply jsSort_elem. apply list_elem_of_fmap.
    exists ("Admin", Q2Qc 2). split; [reflexivity|].
    apply list_elem_of_filter. split; [by vm_compute|left]. }
  split; [exact H|].
  exact (proj1 (createDetailedBreakdown_type MetricsConfig.TASK_CATEGORIES _ _ H)).
Defined.

(** ** Week labels of the documented shape *)

Lemma span_app (p : ascii → bool) (a b : string) :
  allChars p a = true → stopsAt p b = true → span p (a ++ b) = (a, b).
Proof.
  intros Ha Hb. induction a as [|c a IH]; simpl in *.
  - destruct b as [|c b]; [reflexivity|]. simpl in *.
    apply negb_true_iff in Hb. by rewrite Hb.
  - apply andb_true_iff in Ha as [Hc Ha]. by rewrite Hc, IH.
Qed.

Lemma digit_is_no_space (c : ascii) : isDigit c = true → isSpace c = false.
Proof. destruct c as [[] [] [] [] [] [] [] []]; by vm_compute. Qed.

Lemma monthMap_names (month : string) (monthIndex : Z) :
  assoc month monthMap = Some monthIndex →
  allChars isLetter month = true ∧ month ≠ "" ∧ (0 ≤ monthIndex ≤ 11)%Z.
Proof.
  intros H. apply assoc_Some_elem in H.
  assert (Hall : Forall (λ e, allChars isLetter (fst e) = true ∧ fst e ≠ ""
                              ∧ (0 ≤ snd e ≤ 11)%Z) monthMap).
  { apply (bool_decide_unpack _). by vm_compute. }
  exact (proj1 (Forall_forall _ _) Hall (month, monthIndex) H).
Qed.

(** X29. A label that begins with a month of the month table, one space and
    a day number is read as that day of that month, at local midnight, in the
    year of the first four digits in parentheses, or the current year without
    them; what follows the day number, the end of the week included, does not
    matter. *)
Theorem parse_month_day_label
    (host : Host) (month day rest : string) (monthIndex : Z) :
  assoc month monthMap = Some monthIndex →
  day ≠ "" → allChars isDigit day = true → stopsAt isDigit rest = true →
  parseStartDateFromWeekRange host (VStr (month ++ " " ++ day ++ rest))
  = newDate host (yearOfLabel host (month ++ " " ++ day ++ rest)) (Some monthIndex)
      (digitsToZ day).
Proof.
  intros Hmonth Hday Hdigits Hrest.
  destruct (monthMap_names _ _ Hmonth) as (Hletters & Hne & _).
  assert (Hmatch : matchMonthDay (month ++ " " ++ day ++ rest) = Some (month, day)).
  { assert (Hat : monthDayAt (month ++ " " ++ day ++ rest) = Some (month, day)).
    { unfold monthDayAt.
      rewrite (span_app isLetter month (" " ++ day ++ rest) Hletters eq_refl).
      rewrite (bool_decide_false _ Hne).
      assert (Hsp : span isSpace (" " ++ (day ++ rest)) = (" ", day ++ rest)).
      { apply (span_app isSpace " " (day ++ rest)); [reflexivity|].
        destruct day as [|c day]; [done|]. simpl in *.
        apply andb_true_iff in Hdigits as [Hc _].
        by rewrite (digit_is_no_space _ Hc). }
      rewrite Hsp. rewrite bool_decide_false by discriminate.
      rewrite (span_app isDigit day rest Hdigits Hrest).
      by rewrite (bool_decide_false _ Hday). }
    revert Hat. generalize (month ++ " " ++ day ++ rest). intros label Hat.
    destruct label; [by vm_compute in Hat|].
    cbn [matchMonthDay]. by rewrite Hat. }
  unfold parseStartDateFromWeekRange, yearOfLabel. rewrite Hmatch, Hmonth. reflexivity.
Qed.

Lemma parse_month_day_label_witness :
  assoc "Mar" monthMap = Some 2%Z
  ∧ "10" ≠ "" ∧ allChars isDigit "10" = true ∧ stopsAt isDigit " – Mar 15 (2025)" = true
  ∧ parseStartDateFromWeekRange utcHost (VStr ("Mar" ++ " " ++ "10" ++ " – Mar 15 (2025)"))
    = newDate utcHost (yearOfLabel utcHost ("Mar" ++ " " ++ "10" ++ " – Mar 15 (2025)"))
        (Some 2%Z) (digitsToZ "10").
Proof.
  assert (H1 : assoc "Mar" monthMap = Some 2%Z) by reflexivity.
  assert (H2 : "10" ≠ "") by discriminate.
  assert (H3 : allChars isDigit "10" = true) by reflexivity.
  assert (H4 : stopsAt isDigit " – Mar 15 (2025)" = true) by reflexivity.
  split; [exact H1|]. split; [exact H2|]. split; [exact H3|]. split; [exact H4|].
  exact (parse_month_day_label utcHost "Mar" "10" " – Mar 15 (2025)" 2 H1 H2 H3 H4).
Defined.

(** The label of the documentation, in a host on UTC: 10 March 2025. *)
Example parse_documented_label :
  parseStartDateFromWeekRange utcHost (VStr "Mar 10 – Mar 15 (2025)")
  = Some 1741564800000%Z.
Proof. reflexivity. Qed.
(** ** The aggregation on doubles and plain objects *)

Section OnDoubles.

Import PrimFloat.

(** C2, at the failing input. For a row of the user "constructor@x.com" the
    employee key is [constructor], a name every object inherits: the rate
    table answers with the inherited member instead of a rate,
    [getHourlyRate] returns it, the product of hours and rate is NaN, and
    the bucket of the task has 2 hours, a cost of NaN, where two hours at
    the default rate are 50, and no share for the employee. The row of kyle
    from the specification gives 2 hours and a cost of 40. *)
Theorem inherited_name_gets_no_rate (engine : Doubles.Engine) :
  Doubles.getHourlyRate engine (Doubles.Str "constructor@x.com")
  = Ok (Doubles.Member "constructor")
  ∧ (∃ b, Doubles.calculateDetailedTaskData engine [Doubles.constructorRow] ["BD - Research"]
          = Ok [("BD - Research", b)]
          ∧ Doubles.totalHours b = Doubles.Num 2
          ∧ is_nan (Doubles.totalCost b) = true
          ∧ Doubles.byEmployee b = [])
  ∧ Doubles.getHourlyRate engine (Doubles.Str "nobody@x.com") = Ok (Doubles.Num 25)
  ∧ Doubles.calculateDetailedTaskData engine [Doubles.kyleRow] ["BD - Research"]
    = Ok [("BD - Research",
           Doubles.mkBucket (Doubles.Num 2) 40 [("kyle", Doubles.mkShare (Doubles.Num 2) 40)])].
Proof.
  split; [vm_compute; reflexivity|]. split.
  { eexists. split; [vm_compute; reflexivity|]. repeat split; vm_compute; reflexivity. }
  split; vm_compute; reflexivity.
Qed.

(** C7, where the claim fails. One row with 0.3, 0.2 and 0.1 hours in three
    columns of Business Development: the task buckets, added in the order of
    the columns, come to 0.6, and the category, added in the order of the
    configuration, to 0.6000000000000001. The category total is above the
    total of all task buckets, and the two grand totals differ although
    every task belongs to one category. *)
Lemma category_total_above_task_total :
  ∃ d,
    (∀ engine : Doubles.Engine,
       Doubles.calculateDetailedTaskData engine [Doubles.tenthsRow]
         ["BD - Calls"; "BD - Emailing"; "BD - Research"] = Ok d
       ∧ Doubles.sumValues engine (Doubles.taskTotals d) = Doubles.Num Doubles.sixTenths
       ∧ assoc "Business Development"
           (Doubles.calculateTotalsByType engine MetricsConfig.TASK_CATEGORIES
              (Doubles.taskTotals d))
         = Some (Doubles.Num Doubles.aboveSixTenths)
       ∧ Doubles.sumValues engine
           (Doubles.calculateTotalsByType engine MetricsConfig.TASK_CATEGORIES
              (Doubles.taskTotals d))
         = Doubles.Num Doubles.aboveSixTenths)
    ∧ (Doubles.sixTenths <? Doubles.aboveSixTenths)%float = true.
Proof.
  eexists. split; [|vm_compute; reflexivity].
  intros engine. split; [vm_compute; reflexivity|].
  repeat split; vm_compute; reflexivity.
Qed.

(** On quarter hours the additions are exact and their order does not
    matter: the same three columns with 0.75, 0.5 and 0.25 hours come to 1.5
    both ways. *)
Example quarter_hours_add_exactly (engine : Doubles.Engine) :
  ∃ d,
    Doubles.calculateDetailedTaskData engine [Doubles.quartersRow]
      ["BD - Calls"; "BD - Emailing"; "BD - Research"] = Ok d
    ∧ Doubles.sumValues engine (Doubles.taskTotals d) = Doubles.Num 1.5
    ∧ assoc "Business Development"
        (Doubles.calculateTotalsByType engine MetricsConfig.TASK_CATEGORIES
           (Doubles.taskTotals d))
      = Some (Doubles.Num 1.5).
Proof.
  eexists. split; [vm_compute; reflexivity|]. split; vm_compute; reflexivity.
Qed.

(** A cell with the text [+5] counts as five hours for the cost and is
    appended to the hours as text. *)
Example text_hours_are_converted :
  Doubles.calculateDetailedTaskData Doubles.plusFiveEngine [Doubles.plusFiveRow]
    ["BD - Research"]
  = Ok [("BD - Research",
         Doubles.mkBucket (Doubles.Str "0+5") 100
           [("kyle", Doubles.mkShare (Doubles.Str "0+5") 100)])].
Proof. vm_compute. reflexivity. Qed.

End OnDoubles.
